(** * Job-results analytics pipeline of pages/api/[...slug].ts

    A shallow embedding of the part of the API handler that reshapes the
    backend's job results: [safeParseJSONArray], the per-patient
    normalisation inside [transformJobResultsForFrontend],
    [extractFailureCauses] and [generateEnhancedPatientAnalytics]; and of
    the rest of the route that is a function of its arguments: the router
    [handler], [getParsedBody], [safeParseJSON],
    [transformDashboardStatsForFrontend], and [handleComorbidities] and
    [handleIndividualComorbidity] up to their request to the backend.

    Conventions of the embedding.
    - A value of TypeScript type [any] is a [JsVal]: the values JSON can
      carry, plus [undefined] for an absent property.
    - A JavaScript number is a binary64 float ([PrimFloat.float]); the
      arithmetic is the kernel's IEEE 754 arithmetic, so rates are computed
      exactly as the runtime computes them.
    - A string is a [string] read as UTF-8 bytes.
    - A thrown exception is the [Throw] case of [result]; [try]/[catch] is
      [try_catch].
    - An object used as a frequency table ([Record<string, number>]) is a
      [gmap string _] of its own properties; the order of insertion is not
      kept.  Its prototype is [Object.prototype]: under the name of one of
      its members a table inherits a function, and [__proto__] names an
      accessor that no assignment of a number or string turns into a
      property ([bump], [Entry]).
    - A conversion of an object to a number or a string that finds no
      callable [toString] throws a TypeError ([printable]).
    - An object that is filled key by key from the entries of another, or
      built by [Object.fromEntries], is a [gmap string JsVal].
    - What a handler does with a request is a value: the handler the
      router calls ([Route.t]), or the answer or backend request a handler
      starts with ([Step]). *)

From Stdlib Require Import ZArith NArith List String Ascii Floats Uint63 Bool Lia.
From stdpp Require Import gmap strings list fin_maps pretty.

Set Warnings "-register-all".
Local Open Scope string_scope.

(** ** Values and exceptions *)

Inductive JsVal : Type :=
| JUndefined
| JNull
| JBool (b : bool)
| JNum (x : float)
| JStr (s : string)
| JArr (items : list JsVal)
| JObj (fields : list (string * JsVal)).

Inductive JsError : Type := TypeError | SyntaxError.

Inductive result (A : Type) : Type :=
| Ret (a : A)
| Throw (e : JsError).
Arguments Ret {A} a.
Arguments Throw {A} e.

Global Instance result_ret : MRet result := fun A a => Ret a.
Global Instance result_bind : MBind result := fun A B f m =>
  match m with Ret a => f a | Throw e => Throw e end.
Global Instance result_fmap : FMap result := fun A B f m =>
  match m with Ret a => Ret (f a) | Throw e => Throw e end.

(** [try { body } catch (e) { handler }] *)
Definition try_catch {A} (body : result A) (handler : JsError → result A) : result A :=
  match body with Ret a => Ret a | Throw e => handler e end.

(** [arr.forEach(x => ...)] where the callback updates a local state and
    may throw: the first exception ends the loop. *)
Fixpoint forEach {A S} (body : S → A → result S) (l : list A) (s : S) : result S :=
  match l with
  | [] => Ret s
  | x :: l' => s' ← body s x; forEach body l' s'
  end.

(** ToBoolean: what [if (v)], [!v], [v && ...] and [v || ...] test. *)
Definition truthy (v : JsVal) : bool :=
  match v with
  | JUndefined | JNull => false
  | JBool b => b
  | JNum x => negb (PrimFloat.eqb x 0 || PrimFloat.is_nan x)
  | JStr s => negb (String.eqb s "")
  | JArr _ | JObj _ => true
  end.

(** [a || b] *)
Definition js_or (a b : JsVal) : JsVal := if truthy a then a else b.

(** [v === 'lit'] for a string literal. *)
Definition is_str (v : JsVal) (lit : string) : bool :=
  match v with JStr s => String.eqb s lit | _ => false end.

(** [typeof v === 'string'], [typeof v === 'object'], [Array.isArray(v)] *)
Definition typeof_string (v : JsVal) : bool :=
  match v with JStr _ => true | _ => false end.
Definition typeof_object (v : JsVal) : bool :=
  match v with JNull | JArr _ | JObj _ => true | _ => false end.
Definition isArray (v : JsVal) : bool :=
  match v with JArr _ => true | _ => false end.

Fixpoint lookup_field (k : string) (fs : list (string * JsVal)) : JsVal :=
  match fs with
  | [] => JUndefined
  | (k', v) :: fs' => if String.eqb k k' then v else lookup_field k fs'
  end.

(** [v.k] for the property names this file reads (none of them is an own
    or inherited property of a string, number, boolean or array): reading a
    property of [undefined] or [null] throws a TypeError, reading an absent
    one gives [undefined]. *)
Definition get (v : JsVal) (k : string) : result JsVal :=
  match v with
  | JUndefined | JNull => Throw TypeError
  | JObj fs => Ret (lookup_field k fs)
  | _ => Ret JUndefined
  end.

(** [v?.k] *)
Definition get_opt (v : JsVal) (k : string) : JsVal :=
  match v with
  | JObj fs => lookup_field k fs
  | _ => JUndefined
  end.

(** ** Strings *)

Definition code (c : ascii) : N := N_of_ascii c.
Definition chr (n : N) : ascii := ascii_of_N n.
Definition str1 (n : N) : string := String (chr n) "".

Definition dquote : string := str1 34.

(** White space and line terminators, as [String.prototype.trim] strips
    them: U+0009..U+000D and U+0020 in one byte; U+00A0 in two; U+1680,
    U+2000..U+200A, U+2028, U+2029, U+202F, U+205F, U+3000 and U+FEFF in
    three. *)
Definition ws1 (a : ascii) : bool :=
  let n := code a in ((9 <=? n) && (n <=? 13) || (n =? 32))%N.
Definition ws2 (a b : ascii) : bool :=
  ((code a =? 194) && (code b =? 160))%N.
Definition ws3 (a b c : ascii) : bool :=
  let '(x, y, z) := (code a, code b, code c) in
  ((x =? 225) && (y =? 154) && (z =? 128)
   || (x =? 226) && (y =? 128) && ((128 <=? z) && (z <=? 138) || (z =? 168) || (z =? 169) || (z =? 175))
   || (x =? 226) && (y =? 129) && (z =? 159)
   || (x =? 227) && (y =? 128) && (z =? 128)
   || (x =? 239) && (y =? 187) && (z =? 191))%N.

(** Strips leading white space.  With [back] set the bytes are read in
    reverse order, which is how [trimEnd] sees them. *)
Fixpoint strip_ws (back : bool) (l : list ascii) : list ascii :=
  match l with
  | [] => []
  | a :: l1 =>
    if ws1 a then strip_ws back l1 else
    match l1 with
    | [] => l
    | b :: l2 =>
      if (if back then ws2 b a else ws2 a b) then strip_ws back l2 else
      match l2 with
      | [] => l
      | c :: l3 => if (if back then ws3 c b a else ws3 a b c) then strip_ws back l3 else l
      end
    end
  end.

(** [s.trim()] *)
Definition trim (s : string) : string :=
  string_of_list_ascii
    (rev (strip_ws true (rev (strip_ws false (list_ascii_of_string s))))).

(** [hay.includes(needle)] on strings *)
Fixpoint str_includes (needle hay : string) : bool :=
  String.prefix needle hay ||
  match hay with
  | "" => false
  | String _ hay' => str_includes needle hay'
  end.

(** [s.split(sep)] for a one-character separator *)
Fixpoint split_on (sep : ascii) (s : string) : list string :=
  match s with
  | "" => [""]
  | String c s' =>
    if Ascii.eqb c sep then "" :: split_on sep s'
    else match split_on sep s' with
         | h :: t => String c h :: t
         | [] => [String c ""]
         end
  end.

(** [s.replace(re, '')] for the global pattern matching one double quote,
    opening bracket or closing bracket (codes 34, 91, 93). *)
Fixpoint strip_quotes_brackets (s : string) : string :=
  match s with
  | "" => ""
  | String c s' =>
    if ((code c =? 34) || (code c =? 91) || (code c =? 93))%N
    then strip_quotes_brackets s'
    else String c (strip_quotes_brackets s')
  end.

(** What follows the prefix [p] in [s], when [s] starts with [p]. *)
Fixpoint strip_prefix (p s : string) : option string :=
  match p with
  | "" => Some s
  | String a p' =>
    match s with
    | "" => None
    | String b s' => if Ascii.eqb a b then strip_prefix p' s' else None
    end
  end.

Fixpoint take_while (p : ascii → bool) (s : string) : string * string :=
  match s with
  | "" => ("", "")
  | String c s' =>
    if p c then let '(h, t) := take_while p s' in (String c h, t) else ("", s)
  end.

(** ** Numbers *)

(** [n] as a number: array lengths and counters are small non-negative
    integers, which binary64 holds exactly. *)
Definition fnat (n : nat) : float := PrimFloat.of_uint63 (Uint63.of_Z (Z.of_nat n)).

(** The binary64 value nearest to [num / den] (ties to even), signed. *)
Definition float_of_ratio (neg : bool) (num den : positive) : float :=
  SF2Prim (SFdiv prec emax (S754_finite neg num 0) (S754_finite false den 0)).

(** The binary64 value of the decimal [m * 10 ^ e]. *)
Definition float_of_decimal (neg : bool) (m : N) (e : Z) : float :=
  match m with
  | N0 => if neg then (-0)%float else 0%float
  | Npos p =>
    if (0 <=? e)%Z then float_of_ratio neg (p * Z.to_pos (10 ^ e)) 1
    else float_of_ratio neg p (Z.to_pos (10 ^ (- e)))
  end.

Definition is_digit (c : ascii) : bool := ((48 <=? code c) && (code c <=? 57))%N.

Definition digit_val (c : ascii) : option N :=
  let n := code c in
  if ((48 <=? n) && (n <=? 57))%N then Some (n - 48)%N
  else if ((97 <=? n) && (n <=? 102))%N then Some (n - 87)%N
  else if ((65 <=? n) && (n <=? 70))%N then Some (n - 55)%N
  else None.

(** The value of a run of digits in [base]; [None] when a character is not
    a digit of that base, or the run is empty. *)
Fixpoint digits_from (base acc : N) (s : string) : option N :=
  match s with
  | "" => Some acc
  | String c s' =>
    d ← digit_val c;
    if (d <? base)%N then digits_from base (acc * base + d)%N s' else None
  end.
Definition digits_val (base : N) (s : string) : option N :=
  match s with "" => None | _ => digits_from base 0 s end.

(** An optional exponent part [e|E [+|-] digits]: the exponent and the rest. *)
Definition exponent_part (s : string) : option (Z * string) :=
  match s with
  | String c r =>
    if ((code c =? 101) || (code c =? 69))%N then
      let '(neg, r1) :=
        match r with
        | String sg r' =>
          if (code sg =? 45)%N then (true, r')
          else if (code sg =? 43)%N then (false, r') else (false, r)
        | "" => (false, r)
        end in
      let '(ds, r2) := take_while is_digit r1 in
      v ← digits_val 10 ds;
      Some (if neg then (- Z.of_N v)%Z else Z.of_N v, r2)
    else Some (0%Z, s)
  | "" => Some (0%Z, s)
  end.

(** The float of integer digits [ip], fraction digits [fp] and exponent [e];
    an empty run of digits counts for nothing. *)
Definition decimal_value (neg : bool) (ip fp : string) (e : Z) : option float :=
  m ← digits_from 10 0 (ip +:+ fp);
  Some (float_of_decimal neg m (e - Z.of_nat (String.length fp))).

(** A JSON number at the head of [s]: an optional minus sign; an integer
    part that is [0] or starts with a digit from 1 to 9; an optional
    fraction of a point and at least one digit; an optional exponent. *)
Definition parse_json_number (s : string) : option (float * string) :=
  let '(neg, s1) :=
    match s with
    | String c r => if (code c =? 45)%N then (true, r) else (false, s)
    | "" => (false, s)
    end in
  let '(ip, s2) := take_while is_digit s1 in
  match ip with
  | "" => None
  | String z more =>
    if (code z =? 48)%N && negb (String.eqb more "") then None else
    '(fp, s3) ← match s2 with
                | String d r =>
                  if (code d =? 46)%N then
                    let '(fp, r') := take_while is_digit r in
                    if String.eqb fp "" then None else Some (fp, r')
                  else Some ("", s2)
                | "" => Some ("", s2)
                end;
    '(e, s4) ← exponent_part s3;
    x ← decimal_value neg ip fp e;
    Some (x, s4)
  end.

(** StringToNumber: the number a string converts to ([NaN] when it is not
    a numeric literal).  White space around the literal is ignored, the
    empty string is 0, [0x], [0o] and [0b] prefix an unsigned integer, and
    a decimal literal may have a sign, no integer part or no fraction
    digits. *)
Definition radix_literal (t : string) : option float :=
  match t with
  | String z (String x ds) =>
    if (code z =? 48)%N then
      let n := code x in
      base ← (if ((n =? 120) || (n =? 88))%N then Some 16%N
              else if ((n =? 111) || (n =? 79))%N then Some 8%N
              else if ((n =? 98) || (n =? 66))%N then Some 2%N
              else None);
      v ← digits_val base ds;
      Some (float_of_decimal false v 0)
    else None
  | _ => None
  end.

Definition decimal_literal (t : string) : option float :=
  let '(neg, u) :=
    match t with
    | String sg r =>
      if (code sg =? 45)%N then (true, r)
      else if (code sg =? 43)%N then (false, r) else (false, t)
    | "" => (false, t)
    end in
  if String.eqb u "Infinity" then Some (if neg then neg_infinity else infinity) else
  let '(ip, u1) := take_while is_digit u in
  '(fp, u2) ← match u1 with
              | String d r =>
                if (code d =? 46)%N then Some (take_while is_digit r) else Some ("", u1)
              | "" => Some ("", u1)
              end;
  if String.eqb ip "" && String.eqb fp "" then None else
  '(e, u3) ← exponent_part u2;
  if String.eqb u3 "" then decimal_value neg ip fp e else None.

Definition StringToNumber (s : string) : float :=
  let t := trim s in
  if String.eqb t "" then 0%float else
  match radix_literal t with
  | Some x => x
  | None => default nan (decimal_literal t)
  end.

(** Whether the conversion of a value to a primitive (ToPrimitive)
    returns.  An object is converted by its [toString]: the inherited one
    returns a string, but an own property of that name, which in a value
    that JSON can carry is never callable, leaves no way to a primitive and
    the conversion throws a TypeError (an own [valueOf] is passed over, the
    inherited one returns the object itself).  An array is joined from the
    strings of its elements, so it throws when one of them does. *)
Fixpoint printable (v : JsVal) : bool :=
  match v with
  | JObj fields => negb (existsb (λ kv, String.eqb kv.1 "toString") fields)
  | JArr items => forallb printable items
  | _ => true
  end.

(** The number a value converts to when its conversion to a primitive
    returns.  An array converts through its string form, the elements
    joined by commas: no element gives the empty string, one element gives
    that element's string ([null] and [undefined] give the empty string),
    and a string with a comma is no numeric literal.  A number's string
    form converts back to the number, except that [-0] prints as [0]. *)
Fixpoint numberOf (v : JsVal) : float :=
  match v with
  | JUndefined => nan
  | JNull => 0
  | JBool b => if b then 1 else 0
  | JNum x => x
  | JStr s => StringToNumber s
  | JArr [] => 0
  | JArr [x] =>
    match x with
    | JUndefined | JNull => 0
    | JBool _ => nan
    | JNum y => if PrimFloat.eqb y 0 then 0 else y
    | JStr s => StringToNumber s
    | JArr _ => numberOf x
    | JObj _ => nan
    end
  | JArr _ => nan
  | JObj _ => nan
  end.

(** ToNumber *)
Definition ToNumber (v : JsVal) : result float :=
  if printable v then Ret (numberOf v) else Throw TypeError.

(** [a >= b] and [a > b] for a number [b]: false when [a] converts to
    [NaN]; the conversion of [a] may throw. *)
Definition js_ge (a : JsVal) (b : float) : result bool :=
  x ← ToNumber a; Ret (PrimFloat.leb b x).
Definition js_gt (a : JsVal) (b : float) : result bool :=
  x ← ToNumber a; Ret (PrimFloat.ltb b x).

(** ** JSON.parse *)

Fixpoint skip_json_ws (s : string) : string :=
  match s with
  | "" => ""
  | String c s' =>
    let n := code c in
    if ((n =? 32) || (n =? 9) || (n =? 10) || (n =? 13))%N then skip_json_ws s' else s
  end.

(** The UTF-8 bytes of a code point. *)
Definition utf8_encode (cp : N) : string :=
  (if cp <? 128 then str1 cp
   else if cp <? 2048 then str1 (192 + cp / 64) +:+ str1 (128 + cp mod 64)
   else if cp <? 65536 then
     str1 (224 + cp / 4096) +:+ str1 (128 + (cp / 64) mod 64) +:+ str1 (128 + cp mod 64)
   else
     str1 (240 + cp / 262144) +:+ str1 (128 + (cp / 4096) mod 64)
     +:+ str1 (128 + (cp / 64) mod 64) +:+ str1 (128 + cp mod 64))%N.

Definition hex4 (s : string) : option (N * string) :=
  match s with
  | String a (String b (String c (String d r))) =>
    v ← digits_val 16 (String a (String b (String c (String d ""))));
    Some (v, r)
  | _ => None
  end.

(** The character a one-letter escape stands for. *)
Definition simple_escape (c : ascii) : option N :=
  let n := code c in
  (if (n =? 34) || (n =? 92) || (n =? 47) then Some n
   else if n =? 98 then Some 8
   else if n =? 102 then Some 12
   else if n =? 110 then Some 10
   else if n =? 114 then Some 13
   else if n =? 116 then Some 9
   else None)%N.

(** A [\uXXXX] escape whose four digits gave [u], followed by [r]: a high
    surrogate directly followed by an escaped low surrogate is one code
    point. *)
Definition unicode_escape (u : N) (r : string) : string * string :=
  let alone := (utf8_encode u, r) in
  if ((55296 <=? u) && (u <=? 56319))%N then
    match strip_prefix (str1 92 +:+ "u") r ≫= hex4 with
    | Some (lo, r') =>
      if ((56320 <=? lo) && (lo <=? 57343))%N
      then (utf8_encode (65536 + (u - 55296) * 1024 + (lo - 56320))%N, r')
      else alone
    | None => alone
    end
  else alone.

(** The characters of a string literal after its opening quote, up to the
    closing quote: the string and what follows it. *)
Fixpoint parse_string_body (fuel : nat) (s : string) : option (string * string) :=
  match fuel with
  | O => None
  | S f =>
    match s with
    | "" => None
    | String c r =>
      let n := code c in
      if (n =? 34)%N then Some ("", r)
      else if (n <? 32)%N then None
      else if (n =? 92)%N then
        match r with
        | "" => None
        | String e r1 =>
          '(pre, r2) ←
            (if (code e =? 117)%N
             then '(u, r') ← hex4 r1; Some (unicode_escape u r')
             else b ← simple_escape e; Some (str1 b, r1));
          '(t, rest) ← parse_string_body f r2;
          Some (pre +:+ t, rest)
        end
      else '(t, rest) ← parse_string_body f r; Some (String c t, rest)
    end
  end.

Definition parse_string (s : string) : option (string * string) :=
  parse_string_body (S (String.length s)) s.

(** [obj[k] = v] on the list of an object's own properties: a repeated key
    keeps its place and takes the new value. *)
Fixpoint obj_set (k : string) (v : JsVal) (fs : list (string * JsVal)) : list (string * JsVal) :=
  match fs with
  | [] => [(k, v)]
  | (k', v') :: fs' => if String.eqb k k' then (k, v) :: fs' else (k', v') :: obj_set k v fs'
  end.

(** A JSON value at the head of [s] (after white space) and what follows
    it.  [parse_elements] reads the elements of an array up to its closing
    bracket, [parse_members] the members of an object up to its closing
    brace.  Each call spends one unit of fuel and at least every second
    call consumes a character. *)
Fixpoint parse_value (fuel : nat) (s : string) : option (JsVal * string) :=
  match fuel with
  | O => None
  | S f =>
    match skip_json_ws s with
    | "" => None
    | String c r as t =>
      let n := code c in
      if (n =? 34)%N then '(x, r') ← parse_string r; Some (JStr x, r')
      else if (n =? 91)%N then
        match skip_json_ws r with
        | "" => None
        | String c' r' =>
          if (code c' =? 93)%N then Some (JArr [], r')
          else '(vs, r'') ← parse_elements f r; Some (JArr vs, r'')
        end
      else if (n =? 123)%N then
        match skip_json_ws r with
        | "" => None
        | String c' r' =>
          if (code c' =? 125)%N then Some (JObj [], r')
          else '(ms, r'') ← parse_members f r;
               Some (JObj (fold_left (λ fs kv, obj_set kv.1 kv.2 fs) ms []), r'')
        end
      else if (n =? 110)%N then r' ← strip_prefix "null" t; Some (JNull, r')
      else if (n =? 116)%N then r' ← strip_prefix "true" t; Some (JBool true, r')
      else if (n =? 102)%N then r' ← strip_prefix "false" t; Some (JBool false, r')
      else '(x, r') ← parse_json_number t; Some (JNum x, r')
    end
  end
with parse_elements (fuel : nat) (s : string) : option (list JsVal * string) :=
  match fuel with
  | O => None
  | S f =>
    '(v, r) ← parse_value f s;
    match skip_json_ws r with
    | "" => None
    | String c r' =>
      if (code c =? 44)%N then '(vs, r'') ← parse_elements f r'; Some (v :: vs, r'')
      else if (code c =? 93)%N then Some ([v], r')
      else None
    end
  end
with parse_members (fuel : nat) (s : string) : option (list (string * JsVal) * string) :=
  match fuel with
  | O => None
  | S f =>
    match skip_json_ws s with
    | "" => None
    | String q r =>
      if (code q =? 34)%N then
        '(k, r1) ← parse_string r;
        match skip_json_ws r1 with
        | "" => None
        | String colon r2 =>
          if (code colon =? 58)%N then
            '(v, r3) ← parse_value f r2;
            match skip_json_ws r3 with
            | "" => None
            | String c r4 =>
              if (code c =? 44)%N then '(ms, r5) ← parse_members f r4; Some ((k, v) :: ms, r5)
              else if (code c =? 125)%N then Some ([(k, v)], r4)
              else None
            end
          else None
        end
      else None
    end
  end.

(** [JSON.parse(s)]: the value of the text, or a SyntaxError. *)
Definition JSON_parse (s : string) : result JsVal :=
  match parse_value (2 * String.length s + 2) s with
  | Some (v, r) => if String.eqb (skip_json_ws r) "" then Ret v else Throw SyntaxError
  | None => Throw SyntaxError
  end.

(** ** safeParseJSONArray *)

(** [function safeParseJSONArray(jsonString: any, fallback: any[] = []): any[]] *)
Definition safeParseJSONArray (jsonString : JsVal) (fallback : list JsVal) : result (list JsVal) :=
  match jsonString with
  | JArr items => Ret items
  | JStr s =>
    if negb (String.eqb (trim s) "") then
      try_catch
        (parsed ← JSON_parse s;
         Ret (match parsed with JArr items => items | _ => [parsed] end))
        (λ _,
           if str_includes "," s
           then Ret (List.filter truthy
                       (List.map (λ piece, JStr (strip_quotes_brackets (trim piece)))
                                 (split_on "," s)))
           else Ret [JStr (strip_quotes_brackets s)])
    else Ret fallback
  | _ => Ret fallback
  end.

(** ** Normalised patient summaries *)

(** The object literal the [map] callback of
    [transformJobResultsForFrontend] returns for one patient. *)
Module Patient.
Record t : Type := mk {
  patient_id : JsVal;
  total_comorbidities : JsVal;
  highest_confidence : JsVal;
  comorbidity_summary : JsVal;
  surgery_outcome : JsVal;
  failure_causes : JsVal;
  primary_concerns : JsVal;
  comprehensive_summary : JsVal;
  columns_analyzed : JsVal;
  mortality_status : JsVal;
  mortality_confidence : JsVal;
  mortality_causes : JsVal;
  time_of_death : JsVal
}.
End Patient.

(** [let surgeryOutcome = patient.surgery_outcome;
     if (!surgeryOutcome || surgeryOutcome === '') surgeryOutcome = 'unknown';] *)
Definition normalizeSurgeryOutcome (raw : JsVal) : JsVal :=
  if negb (truthy raw) || is_str raw "" then JStr "unknown" else raw.

(** [let mortalityStatus = patient.mortality_status;
     if (!mortalityStatus || mortalityStatus === '') mortalityStatus = 'alive';] *)
Definition normalizeMortalityStatus (raw : JsVal) : JsVal :=
  if negb (truthy raw) || is_str raw "" then JStr "alive" else raw.

(** The [map] callback: one raw patient to its normalised summary. *)
Definition transformPatient (patient : JsVal) : result Patient.t :=
  failureCauses ← get patient "failure_causes" ≫= (λ v, safeParseJSONArray v []);
  primaryConcerns ← get patient "primary_concerns" ≫= (λ v, safeParseJSONArray v []);
  mortalityCauses ← get patient "mortality_causes" ≫= (λ v, safeParseJSONArray v []);
  surgeryOutcome ← normalizeSurgeryOutcome <$> get patient "surgery_outcome";
  mortalityStatus ← normalizeMortalityStatus <$> get patient "mortality_status";
  patient_id ← get patient "patient_id";
  total_comorbidities ← get patient "total_comorbidities";
  highest_confidence ← get patient "highest_confidence";
  comorbidity_summary ← get patient "comorbidity_summary";
  comprehensive_summary ← get patient "comprehensive_summary";
  columns_analyzed ← get patient "columns_analyzed";
  mortality_confidence ← get patient "mortality_confidence";
  time_of_death ← get patient "time_of_death";
  Ret {|
    Patient.patient_id := patient_id;
    Patient.total_comorbidities := js_or total_comorbidities (JNum 0);
    Patient.highest_confidence := js_or highest_confidence (JNum 0);
    Patient.comorbidity_summary := js_or comorbidity_summary (JStr "");
    Patient.surgery_outcome := surgeryOutcome;
    Patient.failure_causes := JArr failureCauses;
    Patient.primary_concerns := JArr primaryConcerns;
    Patient.comprehensive_summary := js_or comprehensive_summary (JStr "");
    Patient.columns_analyzed := js_or columns_analyzed (JNum 0);
    Patient.mortality_status := mortalityStatus;
    Patient.mortality_confidence := js_or mortality_confidence (JNum 0);
    Patient.mortality_causes := JArr mortalityCauses;
    Patient.time_of_death := js_or time_of_death JNull
  |}.

(** ** The analytics summary *)

(** What a frequency table holds under a key: the number [n]; or, under
    the name of a member of [Object.prototype], the string that the first
    increment makes of the inherited function and every further one
    extends: the function's text followed by [n] digits 1. *)
Inductive Entry : Type :=
| Count (n : nat)
| MemberText (n : nat).

(** The names of the function members of [Object.prototype]. *)
Definition isObjectMember (k : string) : bool :=
  existsb (String.eqb k)
    ["constructor"; "hasOwnProperty"; "isPrototypeOf"; "propertyIsEnumerable";
     "toLocaleString"; "toString"; "valueOf"; "__defineGetter__"; "__defineSetter__";
     "__lookupGetter__"; "__lookupSetter__"].

Record SurgeryOutcomes : Type := {
  successful : nat;
  failed : nat;
  unknown : nat;
  success_rate : float
}.

Record RiskDistribution : Type := {
  Critical : nat;
  High : nat;
  Medium : nat;
  Low : nat
}.

Record MortalityAnalytics : Type := {
  deceased_patients : nat;
  alive_patients : nat;
  mortality_rate : float;
  mortality_causes : gmap string Entry;
  failed_surgery_deaths : nat;
  success_surgery_deaths : nat;
  death_rate_in_failed : float;
  death_rate_in_successful : float;
  high_risk_comorbidities : gmap string float;
  risk_distribution : RiskDistribution
}.

Record PatientAnalytics : Type := {
  total_patients : nat;
  avg_comorbidities_per_patient : float;
  most_common_comorbidities : gmap string Entry;
  most_effective_columns : gmap string Entry;
  surgery_outcomes : SurgeryOutcomes;
  mortality_analytics : MortalityAnalytics;
  failure_causes : gmap string Entry
}.

(** [table[k] = (table[k] || 0) + 1] on a table that started as [{}].
    An own number is incremented and an own string extended by the digit;
    a fresh key reads as [undefined] and is set to 1, unless it names a
    member of [Object.prototype]: then it reads as that function, whose sum
    with 1 is a string.  Under [__proto__] the table reads its prototype,
    and the assignment of the resulting string goes to the accessor, which
    ignores it: the table is left as it is. *)
Definition bump (k : string) (table : gmap string Entry) : gmap string Entry :=
  if String.eqb k "__proto__" then table else
  let next :=
    match table !! k with
    | Some (Count n) => Count (S n)
    | Some (MemberText n) => MemberText (S n)
    | None => if isObjectMember k then MemberText 1 else Count 1
    end in
  <[k := next]> table.

(** [table[k] = v] for a number [v] on a table that started as [{}]: the
    accessor [__proto__] ignores a number. *)
Definition setRate (k : string) (v : float) (table : gmap string float) : gmap string float :=
  if String.eqb k "__proto__" then table else <[k := v]> table.

(** [v.trim()]: a string is trimmed; any other value that passed a
    truthiness test has no callable [trim], and the call throws. *)
Definition call_trim (v : JsVal) : result string :=
  match v with
  | JStr s => Ret (trim s)
  | _ => Throw TypeError
  end.

(** ** extractFailureCauses *)

(** The inner [causes.forEach] callback. *)
Definition countFailureCause (failureCauses : gmap string Entry) (cause : JsVal) : gmap string Entry :=
  match cause with
  | JStr s =>
    if truthy cause && negb (String.eqb (trim s) "") then
      let cleanCause := trim s in
      if negb (String.eqb cleanCause "null") && negb (String.eqb cleanCause "")
         && negb (String.eqb cleanCause "undefined")
      then bump cleanCause failureCauses
      else failureCauses
    else failureCauses
  | _ => failureCauses
  end.

Definition extractFailureCauses (patientSummaries : list Patient.t) : gmap string Entry :=
  fold_left
    (λ failureCauses patient,
       if is_str (Patient.surgery_outcome patient) "failure"
          && truthy (Patient.failure_causes patient)
       then
         let causes :=
           match Patient.failure_causes patient with
           | JArr items => items
           | other => [other]
           end in
         fold_left countFailureCause causes failureCauses
       else failureCauses)
    patientSummaries ∅.

(** ** generateEnhancedPatientAnalytics *)

(** The summary returned for an empty list of patients. *)
Definition emptyAnalytics : PatientAnalytics := {|
  total_patients := 0;
  avg_comorbidities_per_patient := 0;
  most_common_comorbidities := ∅;
  most_effective_columns := ∅;
  surgery_outcomes := {| successful := 0; failed := 0; unknown := 0; success_rate := 0 |};
  mortality_analytics := {|
    deceased_patients := 0;
    alive_patients := 0;
    mortality_rate := 0;
    mortality_causes := ∅;
    failed_surgery_deaths := 0;
    success_surgery_deaths := 0;
    death_rate_in_failed := 0;
    death_rate_in_successful := 0;
    high_risk_comorbidities := ∅;
    risk_distribution := {| Critical := 0; High := 0; Medium := 0; Low := 0 |}
  |};
  failure_causes := ∅
|}.

(** [total > 0 ? (count / total) * 100 : 0] *)
Definition percentage (count total : nat) : float :=
  if (0 <? total)%nat then (fnat count / fnat total * 100)%float else 0%float.

Definition isSuccess (p : Patient.t) : bool := is_str (Patient.surgery_outcome p) "success".
Definition isFailed (p : Patient.t) : bool := is_str (Patient.surgery_outcome p) "failure".
Definition isUnknown (p : Patient.t) : bool :=
  is_str (Patient.surgery_outcome p) "unknown" || negb (truthy (Patient.surgery_outcome p)).
Definition isDeceased (p : Patient.t) : bool := is_str (Patient.mortality_status p) "deceased".
Definition isAlive (p : Patient.t) : bool :=
  is_str (Patient.mortality_status p) "alive" || negb (truthy (Patient.mortality_status p)).

(** The [surgeryOutcomes] object literal. *)
Definition surgeryOutcomesOf (patientSummaries : list Patient.t) : SurgeryOutcomes :=
  let totalPatients := length patientSummaries in
  {| successful := length (List.filter isSuccess patientSummaries);
     failed := length (List.filter isFailed patientSummaries);
     unknown := length (List.filter isUnknown patientSummaries);
     success_rate := percentage (length (List.filter isSuccess patientSummaries)) totalPatients |}.

(** The callback collecting one cause of a deceased patient:
    [if (cause && cause.trim() && cause !== 'null') allMortalityCauses.push(cause.trim())] *)
Definition collectMortalityCause (allMortalityCauses : list string) (cause : JsVal)
  : result (list string) :=
  if truthy cause then
    trimmed ← call_trim cause;
    if negb (String.eqb trimmed "") && negb (is_str cause "null")
    then Ret (allMortalityCauses ++ [trimmed])%list
    else Ret allMortalityCauses
  else Ret allMortalityCauses.

(** The first [patientSummaries.forEach]: its state is
    [(allMortalityCauses, failedSurgeryDeaths, successSurgeryDeaths)]. *)
Definition mortalityStep (st : list string * nat * nat) (patient : Patient.t)
  : result (list string * nat * nat) :=
  let '(allMortalityCauses, failedSurgeryDeaths, successSurgeryDeaths) := st in
  if isDeceased patient then
    let '(failedSurgeryDeaths, successSurgeryDeaths) :=
      if isFailed patient then (S failedSurgeryDeaths, successSurgeryDeaths)
      else if isSuccess patient then (failedSurgeryDeaths, S successSurgeryDeaths)
      else (failedSurgeryDeaths, successSurgeryDeaths) in
    match Patient.mortality_causes patient with
    | JArr causes =>
      allMortalityCauses ← forEach collectMortalityCause causes allMortalityCauses;
      Ret (allMortalityCauses, failedSurgeryDeaths, successSurgeryDeaths)
    | _ => Ret (allMortalityCauses, failedSurgeryDeaths, successSurgeryDeaths)
    end
  else Ret st.

(** The callback counting one entry of [primary_concerns]. *)
Definition countConcern (comorbidityCounts : gmap string Entry) (concern : JsVal)
  : result (gmap string Entry) :=
  let comorbidityName :=
    if typeof_string concern then concern
    else if truthy concern && typeof_object concern && truthy (get_opt concern "comorbidity")
         then get_opt concern "comorbidity"
         else JStr "" in
  if truthy comorbidityName then
    cleanName ← call_trim comorbidityName;
    if negb (String.eqb cleanName "") then Ret (bump cleanName comorbidityCounts)
    else Ret comorbidityCounts
  else Ret comorbidityCounts.

Definition countConcerns (comorbidityCounts : gmap string Entry) (patient : Patient.t)
  : result (gmap string Entry) :=
  match Patient.primary_concerns patient with
  | JArr concerns => forEach countConcern concerns comorbidityCounts
  | _ => Ret comorbidityCounts
  end.

(** [matches.forEach(match => ...)] counting the string under [field]; the
    key is the field as it stands.  A value that is not an array has no
    callable [forEach]. *)
Definition countMatchField (field : string) (counts : gmap string Entry) (m : JsVal)
  : result (gmap string Entry) :=
  name ← get m field;
  if truthy name then
    trimmed ← call_trim name;
    match name with
    | JStr key => if negb (String.eqb trimmed "") then Ret (bump key counts) else Ret counts
    | _ => Ret counts
    end
  else Ret counts.

Definition forEachMatch (field : string) (matches : JsVal) (counts : gmap string Entry)
  : result (gmap string Entry) :=
  match matches with
  | JArr ms => forEach (countMatchField field) ms counts
  | _ => Throw TypeError
  end.

(** [matches.length > 0] *)
Definition lengthPositive (matches : JsVal) : result bool :=
  match matches with
  | JUndefined | JNull => Throw TypeError
  | JArr ms => Ret (negb (Nat.eqb (length ms) 0))
  | JStr s => Ret (negb (String.eqb s ""))
  | JObj fs => js_gt (lookup_field "length" fs) 0
  | _ => Ret false
  end.

(** [p.primary_concerns && p.primary_concerns.includes(comorbidity)]: an
    array includes the name when one of its elements is that string, a
    string when the name is a substring of it; another truthy value has
    no callable [includes]. *)
Definition concernsInclude (comorbidity : string) (p : Patient.t) : result bool :=
  match Patient.primary_concerns p with
  | JArr concerns => Ret (existsb (λ c, is_str c comorbidity) concerns)
  | JStr s => Ret (negb (String.eqb s "") && str_includes comorbidity s)
  | other => if truthy other then Throw TypeError else Ret false
  end.

(** [arr.filter(pred)] for a predicate that may throw. *)
Fixpoint filterM {A} (pred : A → result bool) (l : list A) : result (list A) :=
  match l with
  | [] => Ret []
  | x :: l' =>
    keep ← pred x;
    rest ← filterM pred l';
    Ret (if (keep : bool) then x :: rest else rest)
  end.

(** The callback of [Object.keys(comorbidityCounts).forEach]. *)
Definition highRiskStep (patientSummaries : list Patient.t)
    (highRiskComorbidities : gmap string float) (comorbidity : string)
  : result (gmap string float) :=
  patientsWithComorbidity ← filterM (concernsInclude comorbidity) patientSummaries;
  let deceasedWithComorbidity := List.filter isDeceased patientsWithComorbidity in
  if (0 <? length patientsWithComorbidity)%nat then
    let mortalityRate :=
      (fnat (length deceasedWithComorbidity) / fnat (length patientsWithComorbidity) * 100)%float in
    if PrimFloat.ltb 20 mortalityRate
    then Ret (setRate comorbidity mortalityRate highRiskComorbidities)
    else Ret highRiskComorbidities
  else Ret highRiskComorbidities.

(** [Object.keys(table)] *)
Definition keys {V} (table : gmap string V) : list string := (map_to_list table).*1.

(** [a || b] and [a && b] where [a] is known and [b] is evaluated, and may
    throw, only when [a] does not decide. *)
Definition orElse (a : bool) (b : result bool) : result bool := if a then Ret true else b.
Definition andThen (a : bool) (b : result bool) : result bool := if a then b else Ret false.

(** The callback of the risk-distribution [forEach]: a comparison is made
    only where the tests before it leave the level open. *)
Definition riskStep (risk_distribution : RiskDistribution) (patient : Patient.t)
  : result RiskDistribution :=
  let comorbidityCount := js_or (Patient.total_comorbidities patient) (JNum 0) in
  let isDeceased := isDeceased patient in
  let isFailed := isFailed patient in
  let '{| Critical := c; High := h; Medium := m; Low := l |} := risk_distribution in
  if isDeceased && isFailed then
    Ret {| Critical := S c; High := h; Medium := m; Low := l |}
  else
    high ← orElse isDeceased (andThen isFailed (js_ge comorbidityCount 3));
    if (high : bool) then
      Ret {| Critical := c; High := S h; Medium := m; Low := l |}
    else
      medium ← orElse isFailed (js_ge comorbidityCount 2);
      if (medium : bool) then
        Ret {| Critical := c; High := h; Medium := S m; Low := l |}
      else
        Ret {| Critical := c; High := h; Medium := m; Low := S l |}.

Definition riskDistributionOf (patientSummaries : list Patient.t) : result RiskDistribution :=
  forEach riskStep patientSummaries {| Critical := 0; High := 0; Medium := 0; Low := 0 |}.

(** The comorbidity table: counted from the patients' concerns, and from
    the matches when the concerns gave no name and there are matches. *)
Definition comorbidityCountsOf (patientSummaries : list Patient.t) (matches : JsVal)
  : result (gmap string Entry) :=
  comorbidityCounts ← forEach countConcerns patientSummaries ∅;
  if Nat.eqb (length (keys comorbidityCounts)) 0 then
    nonEmpty ← lengthPositive matches;
    if (nonEmpty : bool) then forEachMatch "comorbidity_name" matches comorbidityCounts
    else Ret comorbidityCounts
  else Ret comorbidityCounts.

Definition highRiskComorbiditiesOf (patientSummaries : list Patient.t)
    (comorbidityCounts : gmap string Entry) : result (gmap string float) :=
  forEach (highRiskStep patientSummaries) (keys comorbidityCounts) ∅.

(** [mortalityCauseFreq], built from the collected causes. *)
Definition mortalityCauseFreqOf (allMortalityCauses : list string) : gmap string Entry :=
  fold_left (λ freq cause, bump cause freq) allMortalityCauses ∅.

(** The runtime's rendering of a number as a string (Number::toString) is
    left open: in the aggregator the sum of the comorbidity counts below is
    the only place that can reach it, when a count is not a number, and
    nothing proved here depends on the digits it prints. *)
Section Runtime.
Variable NumberToString : float → string.

Definition join_comma (l : list string) : string :=
  match l with
  | [] => ""
  | s :: l' => fold_left (λ acc t, acc +:+ "," +:+ t) l' s
  end.

(** The string a value converts to when its conversion to a primitive
    returns: an array prints its elements joined by commas, [null] and
    [undefined] elements as nothing; an object prints as [[object Object]]. *)
Fixpoint stringOf (v : JsVal) : string :=
  match v with
  | JUndefined => "undefined"
  | JNull => "null"
  | JBool b => if b then "true" else "false"
  | JNum x => NumberToString x
  | JStr s => s
  | JArr items =>
    join_comma (List.map (λ x, match x with
                               | JUndefined | JNull => ""
                               | _ => stringOf x
                               end) items)
  | JObj _ => "[object Object]"
  end.

(** ToString, and [String(v)] *)
Definition ToString (v : JsVal) : result string :=
  if printable v then Ret (stringOf v) else Throw TypeError.

(** ToPrimitive: arrays and objects become their strings. *)
Definition ToPrimitive (v : JsVal) : result JsVal :=
  match v with
  | JArr _ | JObj _ => JStr <$> ToString v
  | _ => Ret v
  end.

(** [a + b]: both operands are made primitive, the left one first; then
    concatenation when either is a string, addition of numbers otherwise. *)
Definition js_add (a b : JsVal) : result JsVal :=
  pa ← ToPrimitive a;
  pb ← ToPrimitive b;
  if typeof_string pa || typeof_string pb
  then Ret (JStr (stringOf pa +:+ stringOf pb))
  else Ret (JNum (numberOf pa + numberOf pb)%float).

(** [patientSummaries.reduce((sum, p) => sum + (p.total_comorbidities || 0), 0)
     / patientSummaries.length] *)
Definition avgComorbiditiesOf (patientSummaries : list Patient.t) : result float :=
  totalComorbidities ←
    forEach (λ sum p, js_add sum (js_or (Patient.total_comorbidities p) (JNum 0)))
            patientSummaries (JNum 0);
  total ← ToNumber totalComorbidities;
  Ret (total / fnat (length patientSummaries))%float.

(** The six fields of [transformedData.stats]. *)
Record Stats : Type := {
  rows_processed : JsVal;
  matches_found : JsVal;
  processing_time : JsVal;
  successful_surgeries : JsVal;
  failed_surgeries : JsVal;
  output_file_path : JsVal
}.

(** [function generateEnhancedPatientAnalytics(patientSummaries: any[],
      stats: any, matches: any[] = [], existingAnalytics: any = {})] *)
Definition generateEnhancedPatientAnalytics (patientSummaries : list Patient.t)
    (stats : Stats) (matches : JsVal) (existingAnalytics : JsVal) : result PatientAnalytics :=
  let matches := match matches with JUndefined => JArr [] | _ => matches end in
  if Nat.eqb (length patientSummaries) 0 then Ret emptyAnalytics else
  let totalPatients := length patientSummaries in
  let surgeryOutcomes := surgeryOutcomesOf patientSummaries in
  let deceased_patients := length (List.filter isDeceased patientSummaries) in
  let alive_patients := length (List.filter isAlive patientSummaries) in
  let mortality_rate := percentage deceased_patients totalPatients in
  '(allMortalityCauses, failedSurgeryDeaths, successSurgeryDeaths) ←
    forEach mortalityStep patientSummaries ([], 0, 0);
  let mortalityCauseFreq := mortalityCauseFreqOf allMortalityCauses in
  let death_rate_in_failed := percentage failedSurgeryDeaths (failed surgeryOutcomes) in
  let death_rate_in_successful := percentage successSurgeryDeaths (successful surgeryOutcomes) in
  comorbidityCounts ← comorbidityCountsOf patientSummaries matches;
  highRiskComorbidities ← highRiskComorbiditiesOf patientSummaries comorbidityCounts;
  risk_distribution ← riskDistributionOf patientSummaries;
  avgComorbidities ← avgComorbiditiesOf patientSummaries;
  columnCounts ← forEachMatch "column_name" matches ∅;
  Ret {|
    total_patients := length patientSummaries;
    avg_comorbidities_per_patient := avgComorbidities;
    most_common_comorbidities := comorbidityCounts;
    most_effective_columns := columnCounts;
    surgery_outcomes := surgeryOutcomes;
    mortality_analytics := {|
      deceased_patients := deceased_patients;
      alive_patients := alive_patients;
      mortality_rate := mortality_rate;
      mortality_causes := mortalityCauseFreq;
      failed_surgery_deaths := failedSurgeryDeaths;
      success_surgery_deaths := successSurgeryDeaths;
      death_rate_in_failed := death_rate_in_failed;
      death_rate_in_successful := death_rate_in_successful;
      high_risk_comorbidities := highRiskComorbidities;
      risk_distribution := risk_distribution
    |};
    failure_causes := extractFailureCauses patientSummaries
  |}.

(** ** transformJobResultsForFrontend *)

Record Summary : Type := {
  matches_by_comorbidity : JsVal;
  matches_by_column : JsVal
}.

Record TransformedData : Type := {
  stats : Stats;
  matches : JsVal;
  summary : Summary;
  patient_summaries : option (list Patient.t);
  patient_analytics : option PatientAnalytics
}.

(** What the function returns: the transformed object, or, from the
    [catch] block, the backend's data as it came. *)
Inductive TransformOutput : Type :=
| Transformed (transformedData : TransformedData)
| Untransformed (backendData : JsVal).

(** [backendData.patient_summaries.map(...)]: only an array has a callable
    [map]. *)
Definition mapPatients (patient_summaries : JsVal) : result (list Patient.t) :=
  match patient_summaries with
  | JArr patients => mapM transformPatient patients
  | _ => Throw TypeError
  end.

(** The body of the [try] block. *)
Definition transformBody (backendData : JsVal) (format : string) : result TransformedData :=
  backendStats ← get backendData "stats";
  let stats := {|
    rows_processed := js_or (get_opt backendStats "rows_processed") (JNum 0);
    matches_found := js_or (get_opt backendStats "matches_found") (JNum 0);
    processing_time := js_or (get_opt backendStats "processing_time") (JNum 0);
    successful_surgeries := js_or (get_opt backendStats "successful_surgeries") (JNum 0);
    failed_surgeries := js_or (get_opt backendStats "failed_surgeries") (JNum 0);
    output_file_path := js_or (get_opt backendStats "output_file_path") JNull
  |} in
  backendMatches ← get backendData "matches";
  let matches := js_or backendMatches (JArr []) in
  backendSummary ← get backendData "summary";
  let summary := {|
    matches_by_comorbidity := js_or (get_opt backendSummary "matches_by_comorbidity") (JObj []);
    matches_by_column := js_or (get_opt backendSummary "matches_by_column") (JObj [])
  |} in
  rawSummaries ← get backendData "patient_summaries";
  patient_summaries ←
    (if truthy rawSummaries then Some <$> mapPatients rawSummaries else Ret None);
  patient_analytics ←
    (if String.eqb format "enhanced" || truthy rawSummaries then
       existingAnalytics ← get backendData "patient_analytics";
       Some <$> generateEnhancedPatientAnalytics
                  (default [] patient_summaries) stats (js_or matches (JArr []))
                  existingAnalytics
     else Ret None);
  Ret {|
    stats := stats;
    matches := matches;
    summary := summary;
    patient_summaries := patient_summaries;
    patient_analytics := patient_analytics
  |}.

(** [function transformJobResultsForFrontend(backendData: any, format: string)] *)
Definition transformJobResultsForFrontend (backendData : JsVal) (format : string)
  : TransformOutput :=
  match transformBody backendData format with
  | Ret transformedData => Transformed transformedData
  | Throw _ => Untransformed backendData
  end.

End Runtime.

(** ** Vocabulary of the statements *)

(** A surgery outcome that none of the three filters of [surgeryOutcomesOf]
    counts: a truthy value other than the three literals. *)
Definition isOtherOutcome (p : Patient.t) : bool :=
  negb (isSuccess p) && negb (isFailed p) && negb (isUnknown p).

(** The risk levels, and the level the specification's precedence table
    gives (first match wins) to a patient who is or is not deceased, whose
    surgery has or has not failed, and who has a number of comorbidities:
    Critical when deceased and failed; High when deceased, or failed with
    at least 3 comorbidities; Medium when failed, or with at least 2
    comorbidities; Low otherwise.  The comparisons are those of binary64
    numbers. *)
Inductive RiskLevel : Type := LevelCritical | LevelHigh | LevelMedium | LevelLow.

Definition spec_riskLevel (deceased failed : bool) (totalComorbidities : float) : RiskLevel :=
  if deceased && failed then LevelCritical
  else if deceased || (failed && PrimFloat.leb 3 totalComorbidities) then LevelHigh
  else if failed || PrimFloat.leb 2 totalComorbidities then LevelMedium
  else LevelLow.

(** A patient whose count of comorbidities is a number, the count, and the
    level the table gives the patient. *)
Definition hasNumericCount (p : Patient.t) : bool :=
  match Patient.total_comorbidities p with
  | JNum _ => true
  | _ => false
  end.

Definition comorbiditiesOf (p : Patient.t) : float :=
  match Patient.total_comorbidities p with
  | JNum x => x
  | _ => 0%float
  end.

Definition levelOf (p : Patient.t) : RiskLevel :=
  spec_riskLevel (isDeceased p) (isFailed p) (comorbiditiesOf p).

(** One more patient at a level. *)
Definition addToLevel (lvl : RiskLevel) (rd : RiskDistribution) : RiskDistribution :=
  let '{| Critical := c; High := h; Medium := m; Low := l |} := rd in
  match lvl with
  | LevelCritical => {| Critical := S c; High := h; Medium := m; Low := l |}
  | LevelHigh => {| Critical := c; High := S h; Medium := m; Low := l |}
  | LevelMedium => {| Critical := c; High := h; Medium := S m; Low := l |}
  | LevelLow => {| Critical := c; High := h; Medium := m; Low := S l |}
  end.

Definition RiskLevel_eqb (a b : RiskLevel) : bool :=
  match a, b with
  | LevelCritical, LevelCritical | LevelHigh, LevelHigh
  | LevelMedium, LevelMedium | LevelLow, LevelLow => true
  | _, _ => false
  end.

Definition countLevel (lvl : RiskLevel) (ps : list Patient.t) : nat :=
  length (List.filter (λ p, RiskLevel_eqb (levelOf p) lvl) ps).

(** A list element as the data model describes a normalised cause or
    concern: a trimmed, non-empty string that is neither of the tokens
    [null] and [undefined]. *)
Definition isCleanToken (v : JsVal) : bool :=
  match v with
  | JStr s =>
    String.eqb (trim s) s && negb (String.eqb s "")
    && negb (String.eqb s "null") && negb (String.eqb s "undefined")
  | _ => false
  end.

(** A non-empty string without double quote or bracket. *)
Definition isStrippedPiece (v : JsVal) : bool :=
  match v with
  | JStr s => negb (String.eqb s "") && String.eqb (strip_quotes_brackets s) s
  | _ => false
  end.

(** A normalised patient with the given outcome, status, comorbidity count
    and concerns, every other field at its default. *)
Definition samplePatient (outcome status : string) (comorbidities : float)
    (concerns : list string) : Patient.t := {|
  Patient.patient_id := JUndefined;
  Patient.total_comorbidities := JNum comorbidities;
  Patient.highest_confidence := JNum 0;
  Patient.comorbidity_summary := JStr "";
  Patient.surgery_outcome := JStr outcome;
  Patient.failure_causes := JArr [];
  Patient.primary_concerns := JArr (List.map JStr concerns);
  Patient.comprehensive_summary := JStr "";
  Patient.columns_analyzed := JNum 0;
  Patient.mortality_status := JStr status;
  Patient.mortality_confidence := JNum 0;
  Patient.mortality_causes := JArr [];
  Patient.time_of_death := JNull
|}.

Definition zeroStats : Stats := {|
  rows_processed := JNum 0;
  matches_found := JNum 0;
  processing_time := JNum 0;
  successful_surgeries := JNum 0;
  failed_surgeries := JNum 0;
  output_file_path := JNull
|}.

(** A raw backend patient: the fields as the backend's JSON names them. *)
Definition rawPatient (outcome status concerns : JsVal) : JsVal :=
  JObj [("surgery_outcome", outcome); ("mortality_status", status);
        ("primary_concerns", concerns)].

(** A stand-in for the runtime's number printing in sample runs whose
    comorbidity counts are all numbers, so that it is never called. *)
Definition noDigits : float → string := λ _, "".

(** Six successes, three failures and one unknown outcome. *)
Definition tenPatients : list Patient.t :=
  List.map (λ outcome, samplePatient outcome "alive" 0 [])
    ["success"; "failure"; "success"; "unknown"; "success"; "failure";
     "success"; "success"; "failure"; "success"].

(** The JSON text of the array holding the strings [a] and [b]. *)
Definition jsonArrayAB : string :=
  "[" +:+ dquote +:+ "a" +:+ dquote +:+ "," +:+ dquote +:+ "b" +:+ dquote +:+ "]".

(** A deceased patient with a failed surgery and the given causes. *)
Definition deceasedPatient (failureCauses mortalityCauses concerns : list JsVal) : Patient.t := {|
  Patient.patient_id := JUndefined;
  Patient.total_comorbidities := JNum 0;
  Patient.highest_confidence := JNum 0;
  Patient.comorbidity_summary := JStr "";
  Patient.surgery_outcome := JStr "failure";
  Patient.failure_causes := JArr failureCauses;
  Patient.primary_concerns := JArr concerns;
  Patient.comprehensive_summary := JStr "";
  Patient.columns_analyzed := JNum 0;
  Patient.mortality_status := JStr "deceased";
  Patient.mortality_confidence := JNum 0;
  Patient.mortality_causes := JArr mortalityCauses;
  Patient.time_of_death := JNull
|}.

(** Whether the list of a patient's concerns has the string [name] among
    its elements. *)
Definition hasConcern (name : string) (p : Patient.t) : bool :=
  match Patient.primary_concerns p with
  | JArr concerns => existsb (λ c, is_str c name) concerns
  | _ => false
  end.

(** The mortality rate, in percent, among the patients of [ps] whose
    concerns have [name]. *)
Definition mortalityRateWith (name : string) (ps : list Patient.t) : float :=
  (fnat (length (List.filter isDeceased (List.filter (hasConcern name) ps)))
   / fnat (length (List.filter (hasConcern name) ps)) * 100)%float.

(** Five patients with Diabetes, two of them deceased; ten patients with
    Mild Allergy, one of them deceased. *)
Definition diabetesPatients : list Patient.t :=
  List.map (λ status, samplePatient "success" status 1 ["Diabetes"])
    ["deceased"; "alive"; "alive"; "deceased"; "alive"].

Definition allergyPatients : list Patient.t :=
  List.map (λ status, samplePatient "success" status 1 ["Mild Allergy"])
    ["alive"; "alive"; "alive"; "deceased"; "alive"; "alive"; "alive"; "alive"; "alive"; "alive"].

(** Inputs typed as the front end's interfaces declare them: the list
    fields of a patient are arrays of strings, and a match is an object
    whose two names are strings or absent. *)
Definition isStringArray (v : JsVal) : bool :=
  match v with
  | JArr items => forallb typeof_string items
  | _ => false
  end.

Definition wellTypedPatient (p : Patient.t) : bool :=
  isStringArray (Patient.primary_concerns p) && isStringArray (Patient.mortality_causes p)
  && hasNumericCount p.

Definition stringOrAbsent (v : JsVal) : bool :=
  match v with
  | JStr _ | JUndefined | JNull => true
  | _ => false
  end.

Definition wellTypedMatch (m : JsVal) : bool :=
  match m with
  | JObj fs =>
    stringOrAbsent (lookup_field "comorbidity_name" fs)
    && stringOrAbsent (lookup_field "column_name" fs)
  | _ => false
  end.

(** Runs a sample through the aggregator: the run returns a summary, named
    [a], and the equation of the run is [Hrun]. *)
Ltac run_sample a Hrun :=
  match goal with
  | |- ∃ _, ?run = Ret _ ∧ _ =>
    destruct run as [a|?] eqn:Hrun; [|vm_compute in Hrun; discriminate];
    exists a; split; [reflexivity|]
  end.

(** Evaluates a closed run, whatever the runtime prints numbers as. *)
Ltac evaluate_run :=
  eexists; split; [intros; vm_compute; reflexivity|]; repeat split; vm_compute; reflexivity.

(** * The rest of the route *)

(** ** Own properties *)

(** The own properties of an object: of the fields listed under one key
    the first is the property, as [lookup_field] reads it.  They come in
    the order of the fields, which for keys that are array indices is not
    the runtime's; the functions below put them into tables, or count
    them, so that the order is of no account. *)
Fixpoint own_fields (fs : list (string * JsVal)) : list (string * JsVal) :=
  match fs with
  | [] => []
  | (k, v) :: fs' => (k, v) :: List.filter (λ kv, negb (String.eqb kv.1 k)) (own_fields fs')
  end.

(** The elements of an array under their indices, from [i] on. *)
Fixpoint indexed {A} (i : nat) (l : list A) : list (string * A) :=
  match l with
  | [] => []
  | x :: l' => (pretty i, x) :: indexed (S i) l'
  end.

(** The two halves of the code point that the four bytes encode, each
    encoded on its own. *)
Definition surrogates (a b c d : ascii) : list string :=
  let cp := ((code a mod 8) * 262144 + (code b mod 64) * 4096
             + (code c mod 64) * 64 + code d mod 64)%N in
  [utf8_encode (55296 + (cp - 65536) / 1024)%N; utf8_encode (56320 + (cp - 65536) mod 1024)%N].

(** The UTF-16 code units of a string, each as a string of its own: a
    character of one, two or three bytes is one unit, a character of four
    bytes is two. *)
Fixpoint code_units (l : list ascii) : list string :=
  match l with
  | [] => []
  | a :: l1 =>
    if (code a <? 192)%N then string_of_list_ascii [a] :: code_units l1 else
    match l1 with
    | [] => [string_of_list_ascii [a]]
    | b :: l2 =>
      if (code a <? 224)%N then string_of_list_ascii [a; b] :: code_units l2 else
      match l2 with
      | [] => [string_of_list_ascii [a; b]]
      | c :: l3 =>
        if (code a <? 240)%N then string_of_list_ascii [a; b; c] :: code_units l3 else
        match l3 with
        | [] => [string_of_list_ascii [a; b; c]]
        | d :: l4 => (surrogates a b c d ++ code_units l4)%list
        end
      end
    end
  end.

(** The enumerable own properties of a value, with string keys: the
    fields of an object, the elements of an array and the code units of a
    string under their indices; a number or a boolean has none. *)
Definition own_properties (v : JsVal) : list (string * JsVal) :=
  match v with
  | JObj fields => own_fields fields
  | JArr items => indexed 0 items
  | JStr s => indexed 0 (List.map JStr (code_units (list_ascii_of_string s)))
  | _ => []
  end.

(** [Object.entries(v)] *)
Definition Object_entries (v : JsVal) : result (list (string * JsVal)) :=
  match v with
  | JUndefined | JNull => Throw TypeError
  | _ => Ret (own_properties v)
  end.

(** [Object.fromEntries(entries)]: a later entry replaces an earlier one
    of the same key. *)
Definition Object_fromEntries (entries : list (string * JsVal)) : gmap string JsVal :=
  fold_left (λ obj kv, <[kv.1 := kv.2]> obj) entries ∅.

(** [obj[key] = value] on an object created by a literal: the key
    [__proto__] names the prototype's accessor, and assigning to it adds
    no property. *)
Definition assign (key : string) (value : JsVal) (obj : gmap string JsVal)
  : gmap string JsVal :=
  if String.eqb key "__proto__" then obj else <[key := value]> obj.

(** ** safeParseJSON and getParsedBody *)

(** [function safeParseJSON(jsonString: any, fallback: any = null)] *)
Definition safeParseJSON (jsonString fallback : JsVal) : JsVal :=
  let fallback := match fallback with JUndefined => JNull | _ => fallback end in
  match jsonString with
  | JStr s =>
    match JSON_parse s with
    | Ret parsed => parsed
    | Throw _ => fallback
    end
  | _ => js_or jsonString fallback
  end.

(** [v && typeof v === 'object' && Object.keys(v).length > 0] *)
Definition isNonEmptyObject (v : JsVal) : bool :=
  truthy v && typeof_object v && (0 <? length (own_properties v))%nat.

(** [async function getParsedBody(req)]: [body] is [req.body], and
    [rawBody] what reading the request stream gives, [None] when the stream
    fails.  The three methods are tried in turn; the result is [null] when
    all of them fail. *)
Definition getParsedBody (body : JsVal) (rawBody : option string) : JsVal :=
  if isNonEmptyObject body then body else
  let method2 :=
    match body with
    | JStr s =>
      if truthy body then
        match JSON_parse s with
        | Ret parsed => Some parsed
        | Throw _ => None
        end
      else None
    | _ => None
    end in
  match method2 with
  | Some parsed => parsed
  | None =>
    match rawBody with
    | Some raw =>
      if negb (String.eqb (trim raw) "") then
        match JSON_parse raw with
        | Ret parsed => parsed
        | Throw _ => JNull
        end
      else JNull
    | None => JNull
    end
  end.

(** ** The router *)

(** [req.query.slug]: the segments of a catch-all route, a single string,
    or nothing. *)
Inductive Slug : Type :=
| SlugArray (segments : list string)
| SlugString (s : string)
| SlugUndefined.

(** [arr.join(sep)] on strings *)
Definition join (sep : string) (l : list string) : string :=
  match l with
  | [] => ""
  | s :: l' => fold_left (λ acc t, acc +:+ sep +:+ t) l' s
  end.

(** [Array.isArray(slug) ? slug.join('/') : slug || ''] *)
Definition pathOf (slug : Slug) : string :=
  match slug with
  | SlugArray segments => join "/" segments
  | SlugString s => s
  | SlugUndefined => ""
  end.

(** What the router does with a request: it ends the response, answers
    404, or calls one of the handlers; an index past the end of
    [path.split('/')] gives [undefined], here [None]. *)
Module Route.
Inductive t : Type :=
| end200
| handleIcmpCodes
| handleConfigurations
| handleSaveConfiguration
| handleAnalyzeColumnsWithFormData
| handleAnalyzeFileStructure
| handleProcessFileEnhanced
| handleProcessFileWithFormData
| handleDashboardStats
| handleConsolidateFiles
| handleComorbidities (code : option string)
| handleIndividualComorbidity (code comorbidityId : option string)
| handleGenericFileUpload (path : string)
| handleJobResults (jobId : option string)
| handleDeleteJobRequest (path : string)
| handleJobStatus (jobId : option string)
| handleDownloadResults (jobId : option string)
| notFound.
End Route.

(** The [default] branch of the [switch]. *)
Definition dynamicRoute (path : string) : Route.t :=
  let comorbidity :=
    if String.prefix "comorbidities/" path then
      let pathParts := split_on "/" path in
      let code := pathParts !! 1%nat in
      if Nat.eqb (length pathParts) 2 then Some (Route.handleComorbidities code)
      else if Nat.eqb (length pathParts) 3
           then Some (Route.handleIndividualComorbidity code (pathParts !! 2%nat))
           else None
    else None in
  match comorbidity with
  | Some route => route
  | None =>
    if String.prefix "upload/" path then Route.handleGenericFileUpload path
    else if String.prefix "job-results/" path
         then Route.handleJobResults (split_on "/" path !! 1%nat)
    else if String.prefix "jobs/" path then Route.handleDeleteJobRequest path
    else if String.prefix "job-status/" path
         then Route.handleJobStatus (split_on "/" path !! 1%nat)
    else if String.prefix "download-results/" path
         then Route.handleDownloadResults (split_on "/" path !! 1%nat)
    else Route.notFound
  end.

(** [export default async function handler(req, res)], up to the call of
    a handler. *)
Definition handler (method : string) (slug : Slug) : Route.t :=
  let path := pathOf slug in
  if String.eqb method "OPTIONS" then Route.end200 else
  if String.eqb path "icmp-codes" then Route.handleIcmpCodes
  else if String.eqb path "configurations" then Route.handleConfigurations
  else if String.eqb path "save-configuration" then Route.handleSaveConfiguration
  else if String.eqb path "analyze-columns" then Route.handleAnalyzeColumnsWithFormData
  else if String.eqb path "analyze-file-structure" then Route.handleAnalyzeFileStructure
  else if String.eqb path "process-file-enhanced" then Route.handleProcessFileEnhanced
  else if String.eqb path "process-file" then Route.handleProcessFileWithFormData
  else if String.eqb path "dashboard-stats" then Route.handleDashboardStats
  else if String.eqb path "consolidate-files" then Route.handleConsolidateFiles
  else dynamicRoute path.

(** ** transformDashboardStatsForFrontend *)

Module Dashboard.
Record Overall : Type := {
  total_jobs : JsVal;
  total_rows : JsVal;
  total_matches : JsVal;
  avg_processing_time : JsVal
}.

Record Job : Type := {
  job_id : JsVal;
  procedure_code : JsVal;
  processing_time : JsVal;
  rows_processed : JsVal;
  comorbidities_checked : JsVal;
  matches_found : JsVal;
  successful_surgeries : JsVal;
  failed_surgeries : JsVal;
  processed_at : JsVal;
  file_name : JsVal
}.

Record Enhanced : Type := {
  patient_analytics : JsVal;
  surgery_analytics : JsVal;
  top_comorbidities : gmap string JsVal;
  top_failure_causes : gmap string JsVal;
  column_effectiveness : JsVal
}.

Record t : Type := {
  overall : Overall;
  recent_jobs : list Job;
  enhanced : option Enhanced
}.
End Dashboard.

(** What the function returns: the transformed object, or, from the
    [catch] block, the backend's data as it came. *)
Inductive DashboardOutput : Type :=
| DashboardTransformed (transformedData : Dashboard.t)
| DashboardUntransformed (backendData : JsVal).

(** The callback of [recent_jobs.map]. *)
Definition transformJob (job : JsVal) : result Dashboard.Job :=
  job_id ← get job "job_id";
  procedure_code ← get job "procedure_code";
  processing_time ← get job "processing_time";
  rows_processed ← get job "rows_processed";
  comorbidities_checked ← get job "comorbidities_checked";
  matches_found ← get job "matches_found";
  successful_surgeries ← get job "successful_surgeries";
  failed_surgeries ← get job "failed_surgeries";
  processed_at ← get job "processed_at";
  file_name ← get job "file_name";
  Ret {|
    Dashboard.job_id := job_id;
    Dashboard.procedure_code := js_or procedure_code (JStr "Unknown");
    Dashboard.processing_time := js_or processing_time (JNum 0);
    Dashboard.rows_processed := js_or rows_processed (JNum 0);
    Dashboard.comorbidities_checked := js_or comorbidities_checked (JNum 0);
    Dashboard.matches_found := js_or matches_found (JNum 0);
    Dashboard.successful_surgeries := js_or successful_surgeries (JNum 0);
    Dashboard.failed_surgeries := js_or failed_surgeries (JNum 0);
    Dashboard.processed_at := processed_at;
    Dashboard.file_name := js_or file_name (JStr "Unknown")
  |}.

(** [(backendData.recent_jobs || []).map(...)]: only an array has a
    callable [map]. *)
Definition mapJobs (recent_jobs : JsVal) : result (list Dashboard.Job) :=
  match js_or recent_jobs (JArr []) with
  | JArr jobs => mapM transformJob jobs
  | _ => Throw TypeError
  end.

(** [key && key.trim() && value > 0]: the value is compared, and its
    conversion may throw, only under a key that is not blank. *)
Definition keepComorbidity (key : string) (value : JsVal) : result bool :=
  andThen (negb (String.eqb key "") && negb (String.eqb (trim key) "")) (js_gt value 0).

(** [key && key.trim() && value > 0 && key !== 'null' && key !== 'undefined'] *)
Definition keepFailureCause (key : string) (value : JsVal) : result bool :=
  positive ← andThen (negb (String.eqb key "") && negb (String.eqb (trim key) ""))
                     (js_gt value 0);
  Ret (positive && negb (String.eqb key "null") && negb (String.eqb key "undefined")).

(** [if (table) Object.entries(table).forEach(([key, value]) => {
       if (keep(key, value)) target[key] = value })], from an empty target. *)
Definition filterTable (keep : string → JsVal → result bool) (table : JsVal)
  : result (gmap string JsVal) :=
  if truthy table then
    entries ← Object_entries table;
    forEach (λ target kv,
               kept ← keep kv.1 kv.2;
               Ret (if (kept : bool) then assign kv.1 kv.2 target else target))
            entries ∅
  else Ret ∅.

(** The default of [surgery_analytics]. *)
Definition noSurgeryAnalytics : JsVal :=
  JObj [("total_successful_surgeries", JNum 0); ("total_failed_surgeries", JNum 0);
        ("overall_success_rate", JNum 0); ("avg_success_rate", JNum 0)].

(** The body of the [try] block. *)
Definition transformDashboardBody (backendData : JsVal) : result Dashboard.t :=
  backendOverall ← get backendData "overall";
  let overall := {|
    Dashboard.total_jobs := js_or (get_opt backendOverall "total_jobs") (JNum 0);
    Dashboard.total_rows := js_or (get_opt backendOverall "total_rows") (JNum 0);
    Dashboard.total_matches := js_or (get_opt backendOverall "total_matches") (JNum 0);
    Dashboard.avg_processing_time :=
      js_or (get_opt backendOverall "avg_processing_time") (JNum 0)
  |} in
  recent_jobs ← get backendData "recent_jobs" ≫= mapJobs;
  backendEnhanced ← get backendData "enhanced";
  enhanced ←
    (if truthy backendEnhanced then
       patient_analytics ← get backendEnhanced "patient_analytics";
       surgery_analytics ← get backendEnhanced "surgery_analytics";
       column_effectiveness ← get backendEnhanced "column_effectiveness";
       top_comorbidities ←
         get backendEnhanced "top_comorbidities" ≫= filterTable keepComorbidity;
       top_failure_causes ←
         get backendEnhanced "top_failure_causes" ≫= filterTable keepFailureCause;
       Ret (Some {|
         Dashboard.patient_analytics := js_or patient_analytics (JObj []);
         Dashboard.surgery_analytics := js_or surgery_analytics noSurgeryAnalytics;
         Dashboard.top_comorbidities := top_comorbidities;
         Dashboard.top_failure_causes := top_failure_causes;
         Dashboard.column_effectiveness := js_or column_effectiveness (JArr [])
       |})
     else Ret None);
  Ret {|
    Dashboard.overall := overall;
    Dashboard.recent_jobs := recent_jobs;
    Dashboard.enhanced := enhanced
  |}.

(** [function transformDashboardStatsForFrontend(backendData: any)] *)
Definition transformDashboardStatsForFrontend (backendData : JsVal) : DashboardOutput :=
  match transformDashboardBody backendData with
  | Ret transformedData => DashboardTransformed transformedData
  | Throw _ => DashboardUntransformed backendData
  end.

(** ** handleComorbidities and handleIndividualComorbidity, up to the request
       to the backend *)

(** The [cleanedData] of a POST. *)
Module Comorbidity.
Record t : Type := mk {
  name : string;
  description : string;
  keywords : string
}.
End Comorbidity.

(** What a handler does first: it answers with a status and an error
    message, or sends a request to the backend's [comorbidities] of a code
    (and, for a single comorbidity, its identifier), with the cleaned data
    as the body of a POST or PUT.  An exception before the request is
    caught by the handler's [catch] block, which answers with status 500
    (and, in [handleComorbidities], with the exception's message besides
    the error message). *)
Inductive Step : Type :=
| respond (status : nat) (error : string)
| fetchGet (code : string)
| fetchPost (code : string) (cleanedData : Comorbidity.t)
| fetchPut (code comorbidityId : string) (cleanedData : gmap string JsVal)
| fetchDelete (code comorbidityId : string).

(** [!code] for an identifier taken from the path. *)
Definition missing (id : option string) : bool :=
  match id with
  | Some s => String.eqb s ""
  | None => true
  end.

(** [!name || typeof name !== 'string' || !name.trim()] *)
Definition isBlankName (name : JsVal) : bool :=
  negb (truthy name) || negb (typeof_string name)
  || match name with
     | JStr s => String.eqb (trim s) ""
     | _ => true
     end.

(** [value !== undefined && value !== null && value !== ''] *)
Definition isGiven (value : JsVal) : bool :=
  match value with
  | JUndefined | JNull => false
  | JStr s => negb (String.eqb s "")
  | _ => true
  end.

Section Handlers.
Variable NumberToString : float → string.

(** [String(v).trim()] *)
Definition trimmedString (v : JsVal) : result string := trim <$> ToString NumberToString v.

(** [async function handleComorbidities(req, res, code)]: [reqBody] is
    [req.body] and [rawBody] the text of the request stream. *)
Definition handleComorbidities (method : string) (reqBody : JsVal) (rawBody : option string)
    (code : option string) : Step :=
  if missing code then respond 400 "Invalid ICMP code" else
  if String.eqb method "GET" then fetchGet (default "" code)
  else if String.eqb method "POST" then
    let body := getParsedBody reqBody rawBody in
    if negb (truthy body) || negb (typeof_object body)
    then respond 400 "No valid request body provided"
    else if isBlankName (get_opt body "name")
    then respond 400 "Comorbidity name is required"
    else
      let cleanedData :=
        name ← trimmedString (get_opt body "name");
        description ← trimmedString (js_or (get_opt body "description") (JStr ""));
        keywords ← trimmedString (js_or (get_opt body "keywords") (JStr ""));
        Ret {|
          Comorbidity.name := name;
          Comorbidity.description := description;
          Comorbidity.keywords := keywords
        |} in
      match cleanedData with
      | Ret cleanedData => fetchPost (default "" code) cleanedData
      | Throw _ => respond 500 "Failed to handle comorbidities request"
      end
  else respond 405 "Method not allowed".

(** [async function handleIndividualComorbidity(req, res, code, comorbidityId)] *)
Definition handleIndividualComorbidity (method : string) (reqBody : JsVal)
    (rawBody : option string) (code comorbidityId : option string) : Step :=
  if missing code || missing comorbidityId
  then respond 400 "Invalid ICMP code or comorbidity ID" else
  if String.eqb method "PUT" then
    let body := getParsedBody reqBody rawBody in
    if negb (truthy body) || negb (typeof_object body)
       || Nat.eqb (length (own_properties body)) 0
    then respond 400 "No update data provided"
    else
      fetchPut (default "" code) (default "" comorbidityId)
        (Object_fromEntries (List.filter (λ kv, isGiven kv.2) (own_properties body)))
  else if String.eqb method "DELETE"
  then fetchDelete (default "" code) (default "" comorbidityId)
  else respond 405 "Method not allowed".

End Handlers.

(** ** Vocabulary of the further properties *)

(** A mortality status that neither filter of the aggregator counts. *)
Definition isOtherStatus (p : Patient.t) : bool := negb (isDeceased p) && negb (isAlive p).

(** The number of elements of [l] equal to [k]. *)
Definition occurrences (k : string) (l : list string) : nat :=
  length (List.filter (String.eqb k) l).

(** The entry a table built by counting the elements of [l] has for [k]:
    none under [__proto__] and for a key that does not occur; otherwise
    the number of occurrences, held as a count, or, when [k] names a
    member of [Object.prototype], as the digits after that member's text. *)
Definition tally (k : string) (l : list string) : option Entry :=
  if String.eqb k "__proto__" then None
  else match occurrences k l with
       | 0 => None
       | S n => Some (if isObjectMember k then MemberText (S n) else Count (S n))
       end.

(** The names that a table built by counting keeps: all but [__proto__]. *)
Definition storedNames (l : list string) : list string :=
  List.filter (λ t, negb (String.eqb t "__proto__")) l.

(** The token a failure cause is counted under, if it is counted: the
    trimmed string, unless it is empty, [null] or [undefined]. *)
Definition cleanFailureCause (cause : JsVal) : option string :=
  match cause with
  | JStr s =>
    if negb (String.eqb (trim s) "") && negb (String.eqb (trim s) "null")
       && negb (String.eqb (trim s) "undefined")
    then Some (trim s) else None
  | _ => None
  end.

(** The tokens of all patients with a failed surgery, in order. *)
Definition failureCauseTokens (ps : list Patient.t) : list string :=
  flat_map
    (λ p, if isFailed p && truthy (Patient.failure_causes p)
          then omap cleanFailureCause
                 (match Patient.failure_causes p with
                  | JArr items => items
                  | other => [other]
                  end)
          else [])
    ps.

(** The token a mortality cause is collected as: the trimmed string,
    unless it is empty or the cause is the string [null] as it stands. *)
Definition mortalityCauseToken (cause : JsVal) : option string :=
  match cause with
  | JStr s => if negb (String.eqb (trim s) "") && negb (String.eqb s "null")
              then Some (trim s) else None
  | _ => None
  end.

(** The tokens of all deceased patients, in order. *)
Definition mortalityCauseTokens (ps : list Patient.t) : list string :=
  flat_map
    (λ p, if isDeceased p
          then match Patient.mortality_causes p with
               | JArr causes => omap mortalityCauseToken causes
               | _ => []
               end
          else [])
    ps.

(** The name a concern is counted under: the trimmed string, or the
    trimmed [comorbidity] of an object, unless it is empty. *)
Definition concernToken (concern : JsVal) : option string :=
  match concern with
  | JStr s => if String.eqb (trim s) "" then None else Some (trim s)
  | JObj fs =>
    match lookup_field "comorbidity" fs with
    | JStr s => if String.eqb (trim s) "" then None else Some (trim s)
    | _ => None
    end
  | _ => None
  end.

Definition concernTokens (ps : list Patient.t) : list string :=
  flat_map
    (λ p, match Patient.primary_concerns p with
          | JArr concerns => omap concernToken concerns
          | _ => []
          end)
    ps.

(** The name a match is counted under: the string of [field] as it
    stands, unless its trimmed form is empty. *)
Definition matchToken (field : string) (m : JsVal) : option string :=
  match m with
  | JObj fs =>
    match lookup_field field fs with
    | JStr s => if String.eqb (trim s) "" then None else Some s
    | _ => None
    end
  | _ => None
  end.

(** The object literal of a normalised patient, as a value. *)
Definition patientToJs (p : Patient.t) : JsVal :=
  JObj [("patient_id", Patient.patient_id p);
        ("total_comorbidities", Patient.total_comorbidities p);
        ("highest_confidence", Patient.highest_confidence p);
        ("comorbidity_summary", Patient.comorbidity_summary p);
        ("surgery_outcome", Patient.surgery_outcome p);
        ("failure_causes", Patient.failure_causes p);
        ("primary_concerns", Patient.primary_concerns p);
        ("comprehensive_summary", Patient.comprehensive_summary p);
        ("columns_analyzed", Patient.columns_analyzed p);
        ("mortality_status", Patient.mortality_status p);
        ("mortality_confidence", Patient.mortality_confidence p);
        ("mortality_causes", Patient.mortality_causes p);
        ("time_of_death", Patient.time_of_death p)].

(** The number a patient's count of comorbidities adds to the sum, when
    the count is a number: [NaN] and 0 count as 0. *)
Definition countOf (p : Patient.t) : float :=
  match Patient.total_comorbidities p with
  | JNum x => if truthy (JNum x) then x else 0%float
  | _ => 0%float
  end.

(** Whether the bytes of [l] start with a white-space character, read
    forwards or, with [back] set, backwards. *)
Definition ws_head (back : bool) (l : list ascii) : bool :=
  match l with
  | [] => false
  | a :: l1 =>
    ws1 a ||
    match l1 with
    | [] => false
    | b :: l2 =>
      (if back then ws2 b a else ws2 a b) ||
      match l2 with
      | [] => false
      | c :: _ => if back then ws3 c b a else ws3 a b c
      end
    end
  end.

(** Bytes that are white-space characters from end to end. *)
Inductive AllWs : list ascii → Prop :=
| AllWs_nil : AllWs []
| AllWs_1 a l : ws1 a = true → AllWs l → AllWs (a :: l)
| AllWs_2 a b l : ws2 a b = true → AllWs l → AllWs (a :: b :: l)
| AllWs_3 a b c l : ws3 a b c = true → AllWs l → AllWs (a :: b :: c :: l).

(** The paths with a handler of their own. *)
Definition staticRoutes : list (string * Route.t) :=
  [("icmp-codes", Route.handleIcmpCodes);
   ("configurations", Route.handleConfigurations);
   ("save-configuration", Route.handleSaveConfiguration);
   ("analyze-columns", Route.handleAnalyzeColumnsWithFormData);
   ("analyze-file-structure", Route.handleAnalyzeFileStructure);
   ("process-file-enhanced", Route.handleProcessFileEnhanced);
   ("process-file", Route.handleProcessFileWithFormData);
   ("dashboard-stats", Route.handleDashboardStats);
   ("consolidate-files", Route.handleConsolidateFiles)].

(** A segment without a slash. *)
Definition isSegment (s : string) : bool := negb (str_includes "/" s).

(** A backend payload with one job and enhanced statistics. *)
Definition sampleDashboard : JsVal :=
  JObj [("overall", JObj [("total_jobs", JNum 1)]);
        ("recent_jobs", JArr [JObj [("job_id", JStr "j1"); ("file_name", JStr "")]]);
        ("enhanced",
         JObj [("top_comorbidities",
                JObj [("Diabetes", JNum 3); (" ", JNum 2); ("Asthma", JNum 0)]);
               ("top_failure_causes",
                JObj [("null", JNum 4); ("Infection", JNum 1)])])].

(** A job that can be read: any value but [undefined] and [null]. *)
Definition isReadable (v : JsVal) : bool :=
  match v with
  | JUndefined | JNull => false
  | _ => true
  end.

(** An entry that the filters of the dashboard can test: its key is blank,
    so that the value is not compared, or its value can be converted. *)
Definition comparableEntry (kv : string * JsVal) : bool :=
  String.eqb kv.1 "" || String.eqb (trim kv.1) "" || printable kv.2.

(** The two tables of the backend's enhanced statistics, when there are
    enhanced statistics, have only such entries. *)
Definition comparableTables (backendData : JsVal) : bool :=
  let backendEnhanced := get_opt backendData "enhanced" in
  negb (truthy backendEnhanced)
  || (forallb comparableEntry (own_properties (get_opt backendEnhanced "top_comorbidities"))
      && forallb comparableEntry (own_properties (get_opt backendEnhanced "top_failure_causes"))).

(** A payload with a comorbidity whose value cannot be converted. *)
Definition unconvertibleDashboard : JsVal :=
  JObj [("enhanced",
         JObj [("top_comorbidities", JObj [("k", JObj [("toString", JNum 1)])])])].


(** * Properties *)

(** ** The runtime model on known values *)

Example trim_strips_both_ends :
  trim (str1 9 +:+ " a b " +:+ str1 10) = "a b"
  ∧ trim (str1 194 +:+ str1 160 +:+ "x" +:+ str1 226 +:+ str1 128 +:+ str1 168) = "x"
  ∧ trim "   " = "".
Proof. repeat split; vm_compute; reflexivity. Qed.

Example split_keeps_empty_pieces :
  split_on "," "a,b,,c" = ["a"; "b"; ""; "c"] ∧ split_on "," "," = [""; ""].
Proof. split; reflexivity. Qed.

Example StringToNumber_literals :
  StringToNumber " 3 " = 3%float
  ∧ StringToNumber "" = 0%float
  ∧ StringToNumber "0x1F" = 31%float
  ∧ StringToNumber ".5" = 0.5%float
  ∧ StringToNumber "12.5e1" = 125%float
  ∧ StringToNumber "-Infinity" = neg_infinity
  ∧ StringToNumber "three" = nan
  ∧ StringToNumber "1,2" = nan.
Proof. repeat split; vm_compute; reflexivity. Qed.

Example comparison_converts_its_operand :
  js_ge (JNum 3) 3 = Ret true
  ∧ js_ge (JStr "3") 3 = Ret true
  ∧ js_ge (JArr [JStr "3"]) 3 = Ret true
  ∧ js_ge (JStr "many") 2 = Ret false
  ∧ js_ge (JBool true) 2 = Ret false
  ∧ js_ge (JObj [("valueOf", JNum 5)]) 2 = Ret false
  ∧ js_ge (JObj [("toString", JNum 1)]) 2 = Throw TypeError
  ∧ js_ge (JArr [JObj [("toString", JNull)]]) 2 = Throw TypeError.
Proof. repeat split; vm_compute; reflexivity. Qed.

Example bump_on_inherited_names :
  bump "Sepsis" (bump "Sepsis" ∅) = {[ "Sepsis" := Count 2 ]}
  ∧ bump "__proto__" ∅ = ∅
  ∧ bump "constructor" (bump "constructor" ∅) = {[ "constructor" := MemberText 2 ]}.
Proof. repeat split; vm_compute; reflexivity. Qed.

Example JSON_parse_values :
  JSON_parse " [1, 2.5, [], {}, [[true], false], null] "
  = Ret (JArr [JNum 1; JNum 2.5; JArr []; JObj []; JArr [JArr [JBool true]; JBool false]; JNull])
  ∧ JSON_parse ("{" +:+ dquote +:+ "k" +:+ dquote +:+ ": -0.5e1}") = Ret (JObj [("k", JNum (-5))])
  ∧ JSON_parse (dquote +:+ "a" +:+ str1 92 +:+ "u0041" +:+ str1 92 +:+ "n" +:+ dquote)
    = Ret (JStr ("aA" +:+ str1 10)).
Proof. repeat split; vm_compute; reflexivity. Qed.

Example JSON_parse_rejects :
  JSON_parse "a,b,c" = Throw SyntaxError
  ∧ JSON_parse "" = Throw SyntaxError
  ∧ JSON_parse "[1,]" = Throw SyntaxError
  ∧ JSON_parse "01" = Throw SyntaxError
  ∧ JSON_parse "undefined" = Throw SyntaxError
  ∧ JSON_parse "[1] x" = Throw SyntaxError
  ∧ JSON_parse "'a'" = Throw SyntaxError.
Proof. repeat split; vm_compute; reflexivity. Qed.

(** ** Loops and tables *)

Lemma forEach_cons {A S} (body : S → A → result S) x l s r :
  forEach body (x :: l) s = Ret r ↔ ∃ s', body s x = Ret s' ∧ forEach body l s' = Ret r.
Proof.
  simpl. destruct (body s x) as [s'|e]; simpl.
  - split; [intros H; exists s'; auto | intros (s'' & [= <-] & H); exact H].
  - split; [discriminate | intros (s'' & [=] & _)].
Qed.

(** An invariant kept by every successful step holds when the loop ends. *)
Lemma forEach_invariant {A S} (P : S → Prop) (body : S → A → result S) l :
  (∀ s x s', P s → body s x = Ret s' → P s') →
  ∀ s r, P s → forEach body l s = Ret r → P r.
Proof.
  intros Hstep. induction l as [|x l IH]; intros s r Hs Hrun.
  - simpl in Hrun. by injection Hrun as <-.
  - apply forEach_cons in Hrun as (s' & Hx & Hl). eauto.
Qed.

Lemma fold_left_invariant {A S} (P : S → Prop) (f : S → A → S) l :
  (∀ s x, P s → P (f s x)) → ∀ s, P s → P (fold_left f l s).
Proof.
  intros Hstep. induction l as [|x l IH]; intros s Hs; simpl; auto.
Qed.

Lemma bump_lookup_ne k k' (table : gmap string Entry) :
  k ≠ k' → bump k table !! k' = table !! k'.
Proof.
  intros Hne. unfold bump. destruct (String.eqb k "__proto__"); [done|].
  by rewrite lookup_insert_ne.
Qed.

Lemma bump_proto (table : gmap string Entry) : bump "__proto__" table = table.
Proof. reflexivity. Qed.

Lemma bump_lookup_eq k (table : gmap string Entry) :
  k ≠ "__proto__" →
  bump k table !! k
  = Some match table !! k with
         | Some (Count n) => Count (S n)
         | Some (MemberText n) => MemberText (S n)
         | None => if isObjectMember k then MemberText 1 else Count 1
         end.
Proof.
  intros Hk%String.eqb_neq. unfold bump. rewrite Hk. by rewrite lookup_insert_eq.
Qed.

Lemma bump_absent k k' (table : gmap string Entry) :
  k ≠ k' → table !! k' = None → bump k table !! k' = None.
Proof. intros Hne Hnone. by rewrite bump_lookup_ne. Qed.

Lemma String_eqb_false_ne (a b : string) : String.eqb a b = false → a ≠ b.
Proof. intros H. by apply String.eqb_neq. Qed.

Lemma trim_empty : trim "" = "".
Proof. reflexivity. Qed.

Lemma trim_nonempty_arg s : String.eqb (trim s) "" = false → s ≠ "".
Proof. intros H ->. by rewrite trim_empty in H. Qed.

(** Four tests of which every element passes exactly one split a list. *)
Lemma filter_partition4 {A} (f1 f2 f3 f4 : A → bool) (l : list A) :
  (∀ x, (if f1 x then 1 else 0) + (if f2 x then 1 else 0)
        + (if f3 x then 1 else 0) + (if f4 x then 1 else 0) = 1) →
  length (List.filter f1 l) + length (List.filter f2 l)
  + length (List.filter f3 l) + length (List.filter f4 l) = length l.
Proof.
  intros Hone. induction l as [|x l IH]; [reflexivity|].
  specialize (Hone x). simpl.
  destruct (f1 x), (f2 x), (f3 x), (f4 x); simpl in *; lia.
Qed.

(** ** The shape of a returned summary *)

(** What a successful run over a non-empty list returns, pass by pass. *)
Lemma generate_nonempty nts ps stats ms ex a :
  generateEnhancedPatientAnalytics nts ps stats ms ex = Ret a →
  ps ≠ [] →
  ∃ causes fsd ssd counts high cols,
    forEach mortalityStep ps ([], 0, 0) = Ret (causes, fsd, ssd)
    ∧ comorbidityCountsOf ps (match ms with JUndefined => JArr [] | _ => ms end) = Ret counts
    ∧ highRiskComorbiditiesOf ps counts = Ret high
    ∧ forEachMatch "column_name" (match ms with JUndefined => JArr [] | _ => ms end) ∅ = Ret cols
    ∧ ∃ rd avg,
      riskDistributionOf ps = Ret rd
      ∧ avgComorbiditiesOf nts ps = Ret avg
      ∧ a = {|
        total_patients := length ps;
        avg_comorbidities_per_patient := avg;
        most_common_comorbidities := counts;
        most_effective_columns := cols;
        surgery_outcomes := surgeryOutcomesOf ps;
        mortality_analytics := {|
          deceased_patients := length (List.filter isDeceased ps);
          alive_patients := length (List.filter isAlive ps);
          mortality_rate := percentage (length (List.filter isDeceased ps)) (length ps);
          mortality_causes := mortalityCauseFreqOf causes;
          failed_surgery_deaths := fsd;
          success_surgery_deaths := ssd;
          death_rate_in_failed := percentage fsd (failed (surgeryOutcomesOf ps));
          death_rate_in_successful := percentage ssd (successful (surgeryOutcomesOf ps));
          high_risk_comorbidities := high;
          risk_distribution := rd
        |};
        failure_causes := extractFailureCauses ps
      |}.
Proof.
  intros Hrun Hne. unfold generateEnhancedPatientAnalytics in Hrun.
  destruct ps as [|p ps']; [done|]. cbn [length Nat.eqb] in Hrun.
  set (ps := p :: ps') in *.
  destruct (forEach mortalityStep ps ([], 0, 0)) as [[[causes fsd] ssd]|e] eqn:Hm;
    [|discriminate].
  cbn [mbind result_bind] in Hrun.
  destruct (comorbidityCountsOf ps _) as [counts|e] eqn:Hc; [|discriminate].
  cbn [mbind result_bind] in Hrun.
  destruct (highRiskComorbiditiesOf ps counts) as [high|e] eqn:Hh; [|discriminate].
  cbn [mbind result_bind] in Hrun.
  destruct (riskDistributionOf ps) as [rd|e] eqn:Hrd; [|discriminate].
  cbn [mbind result_bind] in Hrun.
  destruct (avgComorbiditiesOf nts ps) as [avg|e] eqn:Havg; [|discriminate].
  cbn [mbind result_bind] in Hrun.
  destruct (forEachMatch "column_name" _ ∅) as [cols|e] eqn:Hcol; [|discriminate].
  cbn [mbind result_bind] in Hrun. injection Hrun as <-.
  exists causes, fsd, ssd, counts, high, cols. do 4 (split; [done|]).
  by exists rd, avg.
Qed.

Lemma generate_empty nts stats ms ex :
  generateEnhancedPatientAnalytics nts [] stats ms ex = Ret emptyAnalytics.
Proof. reflexivity. Qed.

Lemma generate_surgery_outcomes nts ps stats ms ex a :
  generateEnhancedPatientAnalytics nts ps stats ms ex = Ret a →
  surgery_outcomes a = surgeryOutcomesOf ps ∧ total_patients a = length ps.
Proof.
  intros Hrun. destruct ps as [|p ps'].
  - rewrite generate_empty in Hrun. by injection Hrun as <-.
  - apply generate_nonempty in Hrun as (? & ? & ? & ? & ? & ? & _ & _ & _ & _ & ? & ? & _ & _ & ->); done.
Qed.

Lemma riskDistributionOf_nil :
  riskDistributionOf [] = Ret {| Critical := 0; High := 0; Medium := 0; Low := 0 |}.
Proof. reflexivity. Qed.

Lemma generate_risk_distribution nts ps stats ms ex a :
  generateEnhancedPatientAnalytics nts ps stats ms ex = Ret a →
  riskDistributionOf ps = Ret (risk_distribution (mortality_analytics a)).
Proof.
  intros Hrun. destruct ps as [|p ps'].
  - rewrite generate_empty in Hrun. by injection Hrun as <-.
  - by apply generate_nonempty in Hrun
      as (? & ? & ? & ? & ? & ? & _ & _ & _ & _ & ? & ? & Hrd & _ & ->).
Qed.

(** ** C1: normalisation of the surgery outcome *)

Lemma normalizeSurgeryOutcome_truthy raw :
  normalizeSurgeryOutcome raw = if truthy raw then raw else JStr "unknown".
Proof.
  unfold normalizeSurgeryOutcome.
  destruct raw as [| |b|x|s|l|fs]; simpl; try reflexivity.
  - by destruct b.
  - by destruct (PrimFloat.eqb x 0 || PrimFloat.is_nan x).
  - by destruct (String.eqb s "").
Qed.

Lemma transformPatient_runs patient :
  (∃ p, transformPatient patient = Ret p) ∨
  (transformPatient patient = Throw TypeError ∧ (patient = JUndefined ∨ patient = JNull)).
Proof.
  assert (Hsafe : ∀ v, ∃ l, safeParseJSONArray v [] = Ret l).
  { intros v. unfold safeParseJSONArray.
    destruct v; eauto. destruct (negb _); eauto.
    destruct (JSON_parse s) as [parsed|e]; simpl; eauto.
    destruct (str_includes "," s); eauto. }
  unfold transformPatient.
  destruct patient as [| |b|x|s|l|fs]; simpl; auto; left.
  all: repeat match goal with
       | |- context [safeParseJSONArray ?v []] =>
         let l := fresh "l" in let H := fresh "H" in
         destruct (Hsafe v) as [l H]; rewrite H; simpl
       end; eauto.
Qed.

(** The outcome field of a normalised patient is the normalised raw field. *)
Lemma transformPatient_surgery_outcome patient :
  Patient.surgery_outcome <$> transformPatient patient
  = normalizeSurgeryOutcome <$> get patient "surgery_outcome".
Proof.
  destruct (transformPatient_runs patient) as [[p Hp]|[Hthrow Hpat]].
  - rewrite Hp. unfold transformPatient in Hp.
    destruct patient as [| |b|x|s|l|fs]; try discriminate; simpl in *.
    all: repeat match type of Hp with
         | context [safeParseJSONArray ?v []] =>
           destruct (safeParseJSONArray v []); simpl in Hp; [|discriminate]
         end; by injection Hp as <-.
  - rewrite Hthrow. by destruct Hpat as [-> | ->].
Qed.

(** C1, as stated, fails: a raw outcome that is not one of the three
    literals (here [partial]) is kept as it is, not replaced by [unknown];
    the normalised patient carries it into the aggregator. *)
Lemma C1_other_outcome_is_kept :
  normalizeSurgeryOutcome (JStr "partial") = JStr "partial"
  ∧ is_str (JStr "partial") "success" || is_str (JStr "partial") "failure"
    || is_str (JStr "partial") "unknown" = false
  ∧ is_str (normalizeSurgeryOutcome (JStr "partial")) "unknown" = false
  ∧ Patient.surgery_outcome
      <$> transformPatient (rawPatient (JStr "partial") (JStr "alive") (JArr []))
    = Ret (JStr "partial").
Proof. repeat split; vm_compute; reflexivity. Qed.

(** C1, amended: the normalisation returns the raw value whenever it is
    truthy (so each of [success], [failure], [unknown] is returned as it
    is, and so is any other non-empty string), and [unknown] whenever it is
    falsy; a missing ([undefined]), [null] or empty outcome gives [unknown];
    the result is [success] only for the raw value [success]; and this is
    the outcome field of the normalised patient. *)
Theorem C1_normalizeSurgeryOutcome raw :
  normalizeSurgeryOutcome raw = (if truthy raw then raw else JStr "unknown")
  ∧ normalizeSurgeryOutcome (JStr "success") = JStr "success"
  ∧ normalizeSurgeryOutcome (JStr "failure") = JStr "failure"
  ∧ normalizeSurgeryOutcome (JStr "unknown") = JStr "unknown"
  ∧ normalizeSurgeryOutcome JUndefined = JStr "unknown"
  ∧ normalizeSurgeryOutcome JNull = JStr "unknown"
  ∧ normalizeSurgeryOutcome (JStr "") = JStr "unknown"
  ∧ (normalizeSurgeryOutcome raw = JStr "success" ↔ raw = JStr "success")
  ∧ (∀ patient, Patient.surgery_outcome <$> transformPatient patient
                = normalizeSurgeryOutcome <$> get patient "surgery_outcome").
Proof.
  split; [apply normalizeSurgeryOutcome_truthy|].
  do 6 (split; [reflexivity|]).
  split; [|apply transformPatient_surgery_outcome].
  rewrite normalizeSurgeryOutcome_truthy. split.
  - destruct (truthy raw); [done | discriminate].
  - by intros ->.
Qed.

(** ** C2: the three outcome counts *)

Lemma outcome_classes p :
  (if isSuccess p then 1 else 0) + (if isFailed p then 1 else 0)
  + (if isUnknown p then 1 else 0) + (if isOtherOutcome p then 1 else 0) = 1.
Proof.
  unfold isOtherOutcome. unfold isSuccess, isFailed, isUnknown.
  destruct (Patient.surgery_outcome p) as [| |b|x|s|l|fs]; simpl; try reflexivity.
  - by destruct b.
  - by destruct (PrimFloat.eqb x 0 || PrimFloat.is_nan x).
  - destruct (String.eqb_spec s "success") as [->|_]; [reflexivity|].
    destruct (String.eqb_spec s "failure") as [->|_]; [reflexivity|].
    destruct (String.eqb_spec s "unknown") as [->|_]; [reflexivity|].
    by destruct (String.eqb s "").
Qed.

Lemma surgeryOutcomesOf_total ps :
  successful (surgeryOutcomesOf ps) + failed (surgeryOutcomesOf ps)
  + unknown (surgeryOutcomesOf ps) + length (List.filter isOtherOutcome ps) = length ps.
Proof. simpl. apply filter_partition4, outcome_classes. Qed.

Lemma filter_none {A} (f : A → bool) (l : list A) :
  Forall (λ x, f x = false) l → List.filter f l = [].
Proof.
  induction 1 as [|x l Hx _ IH]; [reflexivity|]. simpl. by rewrite Hx.
Qed.

(** C2, as stated, fails: one patient whose outcome is [partial], as the
    normalisation of a raw patient with that outcome leaves it, is counted
    in none of the three classes, so the three counts add up to 0 while
    [total_patients] is 1. *)
Lemma C2_counts_miss_other_outcome :
  ∃ a, (∀ nts, generateEnhancedPatientAnalytics nts
                 [samplePatient "partial" "alive" 0 []] zeroStats (JArr []) JUndefined = Ret a)
       ∧ transformPatient (rawPatient (JStr "partial") (JStr "alive") (JArr []))
         = Ret (samplePatient "partial" "alive" 0 [])
       ∧ total_patients a = 1
       ∧ successful (surgery_outcomes a) + failed (surgery_outcomes a)
         + unknown (surgery_outcomes a) = 0.
Proof. evaluate_run. Qed.

(** C2, amended: in every summary the aggregator returns, the three outcome
    counts plus the number of patients whose outcome is some other truthy
    value equal [total_patients]; so the three counts partition the
    patients whenever every outcome is [success], [failure], [unknown] or
    falsy. *)
Theorem C2_outcome_counts nts ps stats ms ex a :
  generateEnhancedPatientAnalytics nts ps stats ms ex = Ret a →
  successful (surgery_outcomes a) + failed (surgery_outcomes a)
  + unknown (surgery_outcomes a) + length (List.filter isOtherOutcome ps) = total_patients a
  ∧ (Forall (λ p, isOtherOutcome p = false) ps →
     successful (surgery_outcomes a) + failed (surgery_outcomes a)
     + unknown (surgery_outcomes a) = total_patients a).
Proof.
  intros Hrun. apply generate_surgery_outcomes in Hrun as [-> ->].
  pose proof (surgeryOutcomesOf_total ps) as Htotal.
  split; [exact Htotal|]. intros Hknown.
  rewrite (filter_none _ _ Hknown) in Htotal. simpl in *. lia.
Qed.

(** The amended C2 on the ten sample patients, whose outcomes are all
    among the three literals. *)
Lemma C2_outcome_counts_witness :
  ∃ a, generateEnhancedPatientAnalytics noDigits tenPatients zeroStats (JArr []) JUndefined = Ret a
       ∧ successful (surgery_outcomes a) + failed (surgery_outcomes a)
         + unknown (surgery_outcomes a) = total_patients a.
Proof.
  run_sample a Hrun.
  apply (C2_outcome_counts noDigits tenPatients zeroStats (JArr []) JUndefined a Hrun).
  repeat constructor.
Defined.

(** ** C3: risk buckets *)

(** A count that is 0 or [NaN], which [|| 0] replaces by 0, is below every
    positive threshold, as 0 is. *)
Lemma falsy_number_below b x :
  PrimFloat.ltb 0 b = true →
  PrimFloat.eqb x 0 || PrimFloat.is_nan x = true →
  PrimFloat.leb b x = false.
Proof.
  unfold PrimFloat.is_nan.
  rewrite FloatAxioms.ltb_spec, !FloatAxioms.eqb_spec, FloatAxioms.leb_spec.
  change (Prim2SF 0) with (S754_zero false).
  unfold SFltb, SFeqb, SFleb.
  destruct (Prim2SF x) as [sx|sx| |sx mx ex].
  - destruct (Prim2SF b) as [sb|sb| |sb mb eb]; cbn; try discriminate.
    + by destruct sb.
    + by destruct sb.
  - cbn. by destruct sx.
  - intros _ _. by destruct (Prim2SF b).
  - cbn [SFcompare]. intros _ Hx. exfalso.
    destruct sx; cbn in Hx; rewrite Z.compare_refl, Pos.compare_cont_refl in Hx;
      discriminate.
Qed.

Lemma js_ge_count x b :
  PrimFloat.ltb 0 b = true →
  js_ge (js_or (JNum x) (JNum 0)) b = Ret (PrimFloat.leb b x).
Proof.
  intros Hb. unfold js_or. cbn [truthy].
  destruct (PrimFloat.eqb x 0 || PrimFloat.is_nan x) eqn:Hx; cbn [negb]; [|reflexivity].
  unfold js_ge, ToNumber. cbn [printable numberOf mbind result_bind].
  by rewrite (falsy_number_below b x Hb Hx), (falsy_number_below b 0 Hb eq_refl).
Qed.

Lemma riskStep_numeric rd p x :
  Patient.total_comorbidities p = JNum x →
  riskStep rd p = Ret (addToLevel (spec_riskLevel (isDeceased p) (isFailed p) x) rd).
Proof.
  intros Hx. unfold riskStep, spec_riskLevel, addToLevel. rewrite Hx.
  rewrite !js_ge_count by reflexivity. destruct rd as [c h m l].
  destruct (isDeceased p), (isFailed p); cbn [andb orb orElse andThen mbind result_bind];
    try reflexivity.
  - by destruct (PrimFloat.leb 3 x).
  - destruct (PrimFloat.leb 2 x); reflexivity.
Qed.

Lemma riskStep_level rd p rd' :
  riskStep rd p = Ret rd' → ∃ lvl, rd' = addToLevel lvl rd.
Proof.
  unfold riskStep, addToLevel. destruct rd as [c h m l].
  destruct (isDeceased p && isFailed p); [intros [= <-]; by exists LevelCritical|].
  destruct (orElse (isDeceased p) _) as [[|]|e]; cbn [mbind result_bind]; [| |discriminate].
  - intros [= <-]. by exists LevelHigh.
  - destruct (orElse (isFailed p) _) as [[|]|e]; cbn [mbind result_bind]; [| |discriminate].
    + intros [= <-]. by exists LevelMedium.
    + intros [= <-]. by exists LevelLow.
Qed.

Lemma forEach_riskStep_total ps : ∀ rd rd',
  forEach riskStep ps rd = Ret rd' →
  Critical rd' + High rd' + Medium rd' + Low rd'
  = Critical rd + High rd + Medium rd + Low rd + length ps.
Proof.
  induction ps as [|p ps IH]; intros rd rd' Hrun; cbn [forEach] in Hrun.
  - injection Hrun as <-. cbn. lia.
  - destruct (riskStep rd p) as [rd1|e] eqn:Hp; [|discriminate].
    cbn [mbind result_bind] in Hrun. rewrite (IH _ _ Hrun).
    apply riskStep_level in Hp as [lvl ->].
    destruct rd as [c h m l], lvl; cbn; lia.
Qed.

Lemma forEach_riskStep_numeric ps : ∀ rd,
  forallb hasNumericCount ps = true →
  forEach riskStep ps rd
  = Ret {| Critical := Critical rd + countLevel LevelCritical ps;
           High := High rd + countLevel LevelHigh ps;
           Medium := Medium rd + countLevel LevelMedium ps;
           Low := Low rd + countLevel LevelLow ps |}.
Proof.
  unfold countLevel. induction ps as [|p ps IH]; intros rd Hall.
  - destruct rd as [c h m l]. cbn. by rewrite !Nat.add_0_r.
  - cbn [forallb] in Hall. apply andb_true_iff in Hall as [Hp Hall].
    cbn [forEach]. unfold hasNumericCount in Hp.
    destruct (Patient.total_comorbidities p) as [| |b|x|s|l|fs] eqn:Hx; try discriminate.
    rewrite (riskStep_numeric rd p x Hx). cbn [mbind result_bind]. rewrite (IH _ Hall).
    assert (levelOf p = spec_riskLevel (isDeceased p) (isFailed p) x) as Hlevel
      by (unfold levelOf, comorbiditiesOf; by rewrite Hx).
    cbn [List.filter]. rewrite Hlevel.
    destruct rd as [c h m l], (spec_riskLevel _ _ x); cbn; f_equal; f_equal; lia.
Qed.

Lemma countLevel_total ps :
  countLevel LevelCritical ps + countLevel LevelHigh ps
  + countLevel LevelMedium ps + countLevel LevelLow ps = length ps.
Proof.
  unfold countLevel. apply filter_partition4. intros p.
  by destruct (levelOf p).
Qed.

(** C3: for a patient whose count of comorbidities is a number, the step
    of the risk-distribution loop adds one to the bucket that the
    specification's precedence table names, with its thresholds of 3 and 2;
    whenever the step returns, it has added one to exactly one bucket; so
    over patients with numeric counts each bucket counts the patients of
    its level, and in every summary the aggregator returns the four buckets
    add up to [total_patients].  The single patient with a failed surgery,
    deceased, with 3 comorbidities gives Critical = 1 and 0 elsewhere; a
    failed surgery with 3 comorbidities is High and with 2.5 Medium; 2
    comorbidities alone are Medium and 1.5 Low; a deceased patient whose
    surgery did not fail is High. *)
Theorem C3_risk_buckets :
  (∀ rd p x,
     Patient.total_comorbidities p = JNum x →
     riskStep rd p = Ret (addToLevel (spec_riskLevel (isDeceased p) (isFailed p) x) rd))
  ∧ (∀ rd p rd', riskStep rd p = Ret rd' → ∃ lvl, rd' = addToLevel lvl rd)
  ∧ (∀ ps,
       forallb hasNumericCount ps = true →
       riskDistributionOf ps
       = Ret {| Critical := countLevel LevelCritical ps;
                High := countLevel LevelHigh ps;
                Medium := countLevel LevelMedium ps;
                Low := countLevel LevelLow ps |}
       ∧ countLevel LevelCritical ps + countLevel LevelHigh ps
         + countLevel LevelMedium ps + countLevel LevelLow ps = length ps)
  ∧ (∀ nts ps stats ms ex a,
       generateEnhancedPatientAnalytics nts ps stats ms ex = Ret a →
       riskDistributionOf ps = Ret (risk_distribution (mortality_analytics a))
       ∧ Critical (risk_distribution (mortality_analytics a))
         + High (risk_distribution (mortality_analytics a))
         + Medium (risk_distribution (mortality_analytics a))
         + Low (risk_distribution (mortality_analytics a)) = total_patients a)
  ∧ (∀ nts stats ex, ∃ a,
       generateEnhancedPatientAnalytics nts [samplePatient "failure" "deceased" 3 []]
         stats (JArr []) ex = Ret a
       ∧ risk_distribution (mortality_analytics a)
         = {| Critical := 1; High := 0; Medium := 0; Low := 0 |})
  ∧ riskDistributionOf
      [samplePatient "failure" "alive" 3 []; samplePatient "failure" "alive" 2.5 [];
       samplePatient "success" "alive" 2 []; samplePatient "success" "alive" 1.5 [];
       samplePatient "success" "deceased" 0 []]
    = Ret {| Critical := 0; High := 2; Medium := 2; Low := 1 |}.
Proof.
  split; [apply riskStep_numeric|]. split; [apply riskStep_level|].
  split; [|split; [|split]].
  - intros ps Hall. split; [|apply countLevel_total].
    unfold riskDistributionOf. by rewrite forEach_riskStep_numeric.
  - intros nts ps stats ms ex a Hrun.
    pose proof (generate_risk_distribution _ _ _ _ _ _ Hrun) as Hrd.
    split; [exact Hrd|]. apply forEach_riskStep_total in Hrd. cbn in Hrd.
    apply generate_surgery_outcomes in Hrun as [_ ->]. exact Hrd.
  - intros nts stats ex. eexists. split; vm_compute; reflexivity.
  - vm_compute. reflexivity.
Qed.

(** C3 on the ten sample patients. *)
Lemma C3_risk_buckets_witness :
  ∃ a, generateEnhancedPatientAnalytics noDigits tenPatients zeroStats (JArr []) JUndefined = Ret a
       ∧ Critical (risk_distribution (mortality_analytics a))
         + High (risk_distribution (mortality_analytics a))
         + Medium (risk_distribution (mortality_analytics a))
         + Low (risk_distribution (mortality_analytics a)) = total_patients a.
Proof.
  run_sample a Hrun.
  apply (proj1 (proj2 (proj2 (proj2 C3_risk_buckets)))
           noDigits tenPatients zeroStats (JArr []) JUndefined a Hrun).
Defined.

(** ** C4: the success rate *)

(** C4: the success rate of the outcome object is the number of patients
    whose outcome is [success], divided by the number of patients, times
    100 (binary64 arithmetic), and 0 for no patients; this is the
    [success_rate] of every summary the aggregator returns; patients with
    an unknown outcome stay in the denominator, so 6 successes among 10
    patients give exactly 60. *)
Theorem C4_success_rate :
  (∀ ps,
     success_rate (surgeryOutcomesOf ps)
     = (if Nat.eqb (length ps) 0 then 0
        else fnat (length (List.filter isSuccess ps)) / fnat (length ps) * 100)%float)
  ∧ (∀ nts ps stats ms ex a,
       generateEnhancedPatientAnalytics nts ps stats ms ex = Ret a →
       successful (surgery_outcomes a) = length (List.filter isSuccess ps)
       ∧ total_patients a = length ps
       ∧ success_rate (surgery_outcomes a)
         = (if Nat.eqb (total_patients a) 0 then 0
            else fnat (successful (surgery_outcomes a)) / fnat (total_patients a) * 100)%float)
  ∧ (∀ nts stats ex, ∃ a,
       generateEnhancedPatientAnalytics nts tenPatients stats (JArr []) ex = Ret a
       ∧ total_patients a = 10
       ∧ successful (surgery_outcomes a) = 6
       ∧ failed (surgery_outcomes a) = 3
       ∧ unknown (surgery_outcomes a) = 1
       ∧ success_rate (surgery_outcomes a) = 60%float).
Proof.
  assert (Hrate : ∀ ps,
    success_rate (surgeryOutcomesOf ps)
    = (if Nat.eqb (length ps) 0 then 0
       else fnat (length (List.filter isSuccess ps)) / fnat (length ps) * 100)%float).
  { intros ps. simpl. unfold percentage. by destruct ps. }
  split; [exact Hrate|]. split.
  - intros nts ps stats ms ex a Hrun.
    apply generate_surgery_outcomes in Hrun as [-> ->].
    split; [reflexivity|]. split; [reflexivity|]. apply Hrate.
  - intros nts stats ex. eexists. split; [vm_compute; reflexivity|].
    repeat split; vm_compute; reflexivity.
Qed.

(** C4 on one success and one unknown outcome: half of the patients. *)
Lemma C4_success_rate_witness :
  ∃ a, generateEnhancedPatientAnalytics noDigits
         [samplePatient "success" "alive" 1 []; samplePatient "unknown" "alive" 0 []]
         zeroStats (JArr []) JUndefined = Ret a
       ∧ success_rate (surgery_outcomes a) = 50%float.
Proof.
  run_sample a Hrun.
  destruct (proj1 (proj2 C4_success_rate) _ _ _ _ _ _ Hrun) as (-> & -> & ->).
  reflexivity.
Defined.

(** ** C5: keys of the frequency tables *)

Lemma collectMortalityCause_nonempty causes cause causes' :
  Forall (λ c, c ≠ "") causes →
  collectMortalityCause causes cause = Ret causes' →
  Forall (λ c, c ≠ "") causes'.
Proof.
  intros Hall. unfold collectMortalityCause.
  destruct (truthy cause); [|by intros [= <-]].
  destruct (call_trim cause) as [trimmed|e]; simpl; [|discriminate].
  destruct (String.eqb_spec trimmed "") as [->|Hne]; simpl; [by intros [= <-]|].
  destruct (negb (is_str cause "null")); intros [= <-]; [|done].
  apply Forall_app. split; [done|]. by constructor.
Qed.

Lemma mortalityStep_nonempty st p st' :
  Forall (λ c, c ≠ "") st.1.1 →
  mortalityStep st p = Ret st' →
  Forall (λ c, c ≠ "") st'.1.1.
Proof.
  destruct st as [[causes fsd] ssd]. simpl. intros Hall. unfold mortalityStep.
  destruct (isDeceased p); [|by intros [= <-]].
  destruct (if isFailed p then _ else _) as [fsd' ssd'].
  destruct (Patient.mortality_causes p) as [| |b|x|s|l|fs]; try by intros [= <-].
  destruct (forEach collectMortalityCause l causes) as [causes'|e] eqn:Hloop;
    simpl; [|discriminate].
  intros [= <-]. simpl.
  eapply (forEach_invariant (λ cs, Forall (λ c, c ≠ "") cs)); [|exact Hall|exact Hloop].
  intros ? ? ?. apply collectMortalityCause_nonempty.
Qed.

Lemma mortalityCauseFreqOf_absent causes k :
  Forall (λ c, c ≠ k) causes → mortalityCauseFreqOf causes !! k = None.
Proof.
  unfold mortalityCauseFreqOf.
  generalize (∅ : gmap string Entry) (lookup_empty (M:=gmap string) (A:=Entry) k).
  induction causes as [|c causes IH]; intros table Htable Hall; simpl; [done|].
  inversion Hall as [|? ? Hc Hrest]; subst.
  apply IH; [|done]. by apply bump_absent.
Qed.

Lemma countConcern_no_empty_key counts concern counts' :
  counts !! "" = None → countConcern counts concern = Ret counts' → counts' !! "" = None.
Proof.
  intros Habs. unfold countConcern.
  destruct (truthy _); [|by intros [= <-]].
  destruct (call_trim _) as [cleanName|e]; simpl; [|discriminate].
  destruct (String.eqb_spec cleanName "") as [->|Hne]; simpl; intros [= <-]; [done|].
  by apply bump_absent.
Qed.

Lemma countConcerns_no_empty_key counts p counts' :
  counts !! "" = None → countConcerns counts p = Ret counts' → counts' !! "" = None.
Proof.
  intros Habs. unfold countConcerns.
  destruct (Patient.primary_concerns p) as [| |b|x|s|l|fs]; try by intros [= <-].
  apply (forEach_invariant (λ m : gmap string Entry, m !! "" = None)); [|done].
  intros ? ? ?. apply countConcern_no_empty_key.
Qed.

Lemma countMatchField_no_empty_key field counts m counts' :
  counts !! "" = None → countMatchField field counts m = Ret counts' → counts' !! "" = None.
Proof.
  intros Habs. unfold countMatchField.
  destruct (get m field) as [name|e]; simpl; [|discriminate].
  destruct (truthy name); [|by intros [= <-]].
  destruct name as [| |b|x|s|l|fs]; simpl; try discriminate.
  destruct (String.eqb (trim s) "") eqn:Htrim; simpl; intros [= <-]; [done|].
  apply bump_absent; [|done]. by apply trim_nonempty_arg.
Qed.

Lemma forEachMatch_no_empty_key field ms counts counts' :
  counts !! "" = None → forEachMatch field ms counts = Ret counts' → counts' !! "" = None.
Proof.
  intros Habs. unfold forEachMatch. destruct ms; try discriminate.
  apply (forEach_invariant (λ m : gmap string Entry, m !! "" = None)); [|done].
  intros ? ? ?. apply countMatchField_no_empty_key.
Qed.

Lemma comorbidityCountsOf_no_empty_key ps ms counts :
  comorbidityCountsOf ps ms = Ret counts → counts !! "" = None.
Proof.
  unfold comorbidityCountsOf.
  destruct (forEach countConcerns ps ∅) as [counts0|e] eqn:Hloop; simpl; [|discriminate].
  assert (counts0 !! "" = None) as Habs.
  { eapply (forEach_invariant (λ m : gmap string Entry, m !! "" = None));
      [|apply lookup_empty|exact Hloop].
    intros ? ? ?. apply countConcerns_no_empty_key. }
  destruct (Nat.eqb _ 0); [|by intros [= <-]].
  destruct (lengthPositive ms) as [[|]|e]; simpl; try discriminate.
  - by apply forEachMatch_no_empty_key.
  - by intros [= <-].
Qed.

Lemma countFailureCause_absent table cause k :
  k = "" ∨ k = "null" ∨ k = "undefined" →
  table !! k = None → countFailureCause table cause !! k = None.
Proof.
  intros Hk Habs. unfold countFailureCause.
  destruct cause as [| |b|x|s|l|fs]; try done.
  destruct (truthy (JStr s) && _); [|done].
  destruct (String.eqb_spec (trim s) "null") as [|Hnull]; [done|].
  destruct (String.eqb_spec (trim s) "") as [|Hempty]; [done|].
  destruct (String.eqb_spec (trim s) "undefined") as [|Hundef]; [done|].
  simpl. apply bump_absent; [|done]. by destruct Hk as [->|[->| ->]].
Qed.

Lemma extractFailureCauses_absent ps k :
  k = "" ∨ k = "null" ∨ k = "undefined" → extractFailureCauses ps !! k = None.
Proof.
  intros Hk. unfold extractFailureCauses.
  apply (fold_left_invariant (λ m : gmap string Entry, m !! k = None)); [|apply lookup_empty].
  intros table p Habs.
  destruct (is_str _ "failure" && _); [|done].
  apply (fold_left_invariant (λ m : gmap string Entry, m !! k = None)); [|done].
  intros ? ?. by apply countFailureCause_absent.
Qed.

(** C5, as stated, fails: a concern spelled [null] is a key of
    [most_common_comorbidities], and a column named [undefined] is a key of
    [most_effective_columns]. *)
Lemma C5_null_and_undefined_keys :
  ∃ a, (∀ nts, generateEnhancedPatientAnalytics nts
                 [samplePatient "success" "alive" 0 ["null"]] zeroStats
                 (JArr [JObj [("comorbidity_name", JStr "x"); ("column_name", JStr "undefined")]])
                 JUndefined = Ret a)
       ∧ transformPatient (rawPatient (JStr "success") (JStr "alive") (JArr [JStr "null"]))
         = Ret (samplePatient "success" "alive" 0 ["null"])
       ∧ most_common_comorbidities a !! "null" = Some (Count 1)
       ∧ most_effective_columns a !! "undefined" = Some (Count 1).
Proof. evaluate_run. Qed.

(** C5, amended: in every summary the aggregator returns, none of the four
    frequency tables has the empty string as a key, and [failure_causes]
    has neither [null] nor [undefined] as a key. *)
Theorem C5_frequency_keys nts ps stats ms ex a :
  generateEnhancedPatientAnalytics nts ps stats ms ex = Ret a →
  most_common_comorbidities a !! "" = None
  ∧ most_effective_columns a !! "" = None
  ∧ mortality_causes (mortality_analytics a) !! "" = None
  ∧ failure_causes a !! "" = None
  ∧ failure_causes a !! "null" = None
  ∧ failure_causes a !! "undefined" = None.
Proof.
  intros Hrun. destruct ps as [|p ps'].
  { rewrite generate_empty in Hrun. injection Hrun as <-. repeat split; apply lookup_empty. }
  apply generate_nonempty in Hrun
    as (causes & fsd & ssd & counts & high & cols & Hm & Hc & _ & Hcol & rd & avg & _ & _ & ->); [|done].
  simpl. split; [by eapply comorbidityCountsOf_no_empty_key|].
  split; [eapply forEachMatch_no_empty_key; [apply lookup_empty|exact Hcol]|].
  split.
  - apply mortalityCauseFreqOf_absent.
    apply (forEach_invariant (λ st : list string * nat * nat, Forall (λ c, c ≠ "") st.1.1)
             mortalityStep (p :: ps') mortalityStep_nonempty ([], 0, 0) (causes, fsd, ssd));
      [constructor|exact Hm].
  - repeat split; apply extractFailureCauses_absent; auto.
Qed.

(** The amended C5 on a patient whose failure causes hold a padded cause,
    the token [null] and an empty string: only the cause is counted. *)
Lemma C5_frequency_keys_witness :
  ∃ a, generateEnhancedPatientAnalytics noDigits
         [deceasedPatient [JStr " leak "; JStr "null"; JStr ""] [JStr "sepsis"] [JStr "Diabetes"]]
         zeroStats (JArr []) JUndefined = Ret a
       ∧ failure_causes a !! "leak" = Some (Count 1)
       ∧ failure_causes a !! "null" = None
       ∧ failure_causes a !! "" = None.
Proof.
  run_sample a Hrun.
  destruct (C5_frequency_keys _ _ _ _ _ _ Hrun) as (_ & _ & _ & Hempty & Hnull & _).
  split; [|by split].
  vm_compute in Hrun. injection Hrun as <-. vm_compute. reflexivity.
Defined.

(** ** C6: safeParseJSONArray on the documented inputs, and its totality *)

Lemma safeParseJSONArray_returns jsonString fallback :
  ∃ l, safeParseJSONArray jsonString fallback = Ret l.
Proof.
  unfold safeParseJSONArray.
  destruct jsonString as [| |b|x|s|items|fs]; eauto.
  destruct (negb (String.eqb (trim s) "")); eauto.
  destruct (JSON_parse s) as [parsed|e]; simpl; eauto.
  destruct (str_includes "," s); eauto.
Qed.

(** C6: the JSON text of the array of [a] and [b] gives the list of [a]
    and [b]; the text [a,b,c], which is no JSON, gives the list of [a], [b]
    and [c]; [null] gives the empty fallback; on every input, with every
    fallback, the function returns a list and does not throw; and an input
    that is no list and no usable string gives the fallback, a malformed
    string its pieces. *)
Theorem C6_safeParseJSONArray :
  safeParseJSONArray (JStr jsonArrayAB) [] = Ret [JStr "a"; JStr "b"]
  ∧ safeParseJSONArray (JStr "a,b,c") [] = Ret [JStr "a"; JStr "b"; JStr "c"]
  ∧ safeParseJSONArray JNull [] = Ret []
  ∧ (∀ jsonString fallback, ∃ l, safeParseJSONArray jsonString fallback = Ret l)
  ∧ (∀ fallback,
       safeParseJSONArray JNull fallback = Ret fallback
       ∧ safeParseJSONArray JUndefined fallback = Ret fallback
       ∧ safeParseJSONArray (JStr "  ") fallback = Ret fallback
       ∧ safeParseJSONArray (JStr "[a, b") fallback = Ret [JStr "a"; JStr "b"]
       ∧ safeParseJSONArray (JStr "[sepsis") fallback = Ret [JStr "sepsis"]).
Proof.
  split; [vm_compute; reflexivity|].
  split; [vm_compute; reflexivity|].
  split; [reflexivity|].
  split; [apply safeParseJSONArray_returns|].
  intros fallback. repeat split; vm_compute; reflexivity.
Qed.

(** ** C7: the normalised list fields *)

Lemma strip_quotes_brackets_idem s :
  strip_quotes_brackets (strip_quotes_brackets s) = strip_quotes_brackets s.
Proof.
  induction s as [|c s IH]; [reflexivity|]. simpl.
  destruct ((code c =? 34) || (code c =? 91) || (code c =? 93))%N eqn:Hc; [exact IH|].
  simpl. by rewrite Hc, IH.
Qed.

Lemma comma_pieces_stripped s :
  Forall (λ v, isStrippedPiece v = true)
    (List.filter truthy
       (List.map (λ piece, JStr (strip_quotes_brackets (trim piece))) (split_on "," s))).
Proof.
  apply List.Forall_forall. intros v Hv.
  apply List.filter_In in Hv as [Hin Htruthy].
  apply List.in_map_iff in Hin as (piece & <- & _).
  simpl in *. rewrite Htruthy, strip_quotes_brackets_idem. simpl.
  apply String.eqb_refl.
Qed.

(** The three list fields of a normalised patient are the lists
    [safeParseJSONArray] returns for the raw fields. *)
Lemma transformPatient_lists patient :
  Patient.failure_causes <$> transformPatient patient
  = JArr <$> (get patient "failure_causes" ≫= λ v, safeParseJSONArray v [])
  ∧ Patient.primary_concerns <$> transformPatient patient
    = JArr <$> (get patient "primary_concerns" ≫= λ v, safeParseJSONArray v [])
  ∧ Patient.mortality_causes <$> transformPatient patient
    = JArr <$> (get patient "mortality_causes" ≫= λ v, safeParseJSONArray v []).
Proof.
  destruct (transformPatient_runs patient) as [[p Hp]|[Hthrow Hpat]].
  - rewrite Hp. unfold transformPatient in Hp.
    destruct patient as [| |b|x|s|l|fs]; try discriminate; simpl in *.
    all: repeat match type of Hp with
         | context [safeParseJSONArray ?v []] =>
           destruct (safeParseJSONArray v []); simpl in Hp; [|discriminate]
         end; by injection Hp as <-.
  - rewrite Hthrow. by destruct Hpat as [-> | ->].
Qed.

(** C7, as stated, fails: a list that arrives as a list is kept element by
    element, with its untrimmed string, its empty string and its [null]
    token; and the single string [undefined] becomes the one-element list
    of that token. *)
Lemma C7_elements_are_not_cleaned :
  Patient.failure_causes
    <$> transformPatient (JObj [("failure_causes", JArr [JStr " a "; JStr ""; JStr "null"])])
  = Ret (JArr [JStr " a "; JStr ""; JStr "null"])
  ∧ isCleanToken (JStr " a ") = false
  ∧ isCleanToken (JStr "") = false
  ∧ isCleanToken (JStr "null") = false
  ∧ Patient.primary_concerns
      <$> transformPatient (JObj [("primary_concerns", JStr "undefined")])
    = Ret (JArr [JStr "undefined"])
  ∧ isCleanToken (JStr "undefined") = false.
Proof. repeat split; vm_compute; reflexivity. Qed.

(** C7, amended: for every raw patient record each of the three fields
    normalises to a list, the one [safeParseJSONArray] returns for the raw
    field, and that function never throws; a field that arrives as a list
    is kept as it is, and so is the array a JSON text decodes to; and for a
    non-blank string that is no JSON and has a comma, the list holds only
    non-empty strings without double quote or bracket. *)
Theorem C7_normalised_lists :
  (∀ patient,
     Patient.failure_causes <$> transformPatient patient
     = JArr <$> (get patient "failure_causes" ≫= λ v, safeParseJSONArray v [])
     ∧ Patient.primary_concerns <$> transformPatient patient
       = JArr <$> (get patient "primary_concerns" ≫= λ v, safeParseJSONArray v [])
     ∧ Patient.mortality_causes <$> transformPatient patient
       = JArr <$> (get patient "mortality_causes" ≫= λ v, safeParseJSONArray v []))
  ∧ (∀ raw, ∃ l, safeParseJSONArray raw [] = Ret l)
  ∧ (∀ items, safeParseJSONArray (JArr items) [] = Ret items)
  ∧ (∀ s items,
       String.eqb (trim s) "" = false →
       JSON_parse s = Ret (JArr items) →
       safeParseJSONArray (JStr s) [] = Ret items)
  ∧ (∀ s e,
       String.eqb (trim s) "" = false →
       JSON_parse s = Throw e →
       str_includes "," s = true →
       ∃ l, safeParseJSONArray (JStr s) [] = Ret l
            ∧ Forall (λ v, isStrippedPiece v = true) l).
Proof.
  split; [apply transformPatient_lists|].
  split; [intros raw; apply safeParseJSONArray_returns|].
  split; [reflexivity|].
  split.
  { intros s items Hblank Hparse. unfold safeParseJSONArray. by rewrite Hblank, Hparse. }
  intros s e Hblank Hparse Hcomma. unfold safeParseJSONArray.
  rewrite Hblank, Hparse. simpl. rewrite Hcomma.
  eexists. split; [reflexivity|]. apply comma_pieces_stripped.
Qed.

(** The amended C7 on a malformed string with a blank piece and a
    bracketed piece. *)
Lemma C7_normalised_lists_witness :
  ∃ l, safeParseJSONArray (JStr "sepsis, ,[stroke],null") [] = Ret l
       ∧ Forall (λ v, isStrippedPiece v = true) l.
Proof.
  apply (proj2 (proj2 (proj2 (proj2 C7_normalised_lists))) "sepsis, ,[stroke],null" SyntaxError);
    vm_compute; reflexivity.
Defined.

(** ** C8: high-risk comorbidities *)

Lemma highRiskStep_lookup ps high name high' :
  highRiskStep ps high name = Ret high' →
  ∃ withName,
    filterM (concernsInclude name) ps = Ret withName
    ∧ high' !! name
      = (if negb (String.eqb name "__proto__") && (0 <? length withName)%nat
            && PrimFloat.ltb 20 (fnat (length (List.filter isDeceased withName))
                                 / fnat (length withName) * 100)
         then Some (fnat (length (List.filter isDeceased withName))
                    / fnat (length withName) * 100)%float
         else high !! name)
    ∧ ∀ other, other ≠ name → high' !! other = high !! other.
Proof.
  unfold highRiskStep.
  destruct (filterM (concernsInclude name) ps) as [withName|e]; simpl; [|discriminate].
  intros Hstep. exists withName. split; [reflexivity|].
  unfold setRate in Hstep.
  destruct (0 <? length withName)%nat; rewrite ?andb_false_r; simpl.
  - destruct (PrimFloat.ltb 20 _); rewrite ?andb_false_r, ?andb_true_r;
      [|by injection Hstep as <-].
    destruct (String.eqb name "__proto__"); injection Hstep as <-; simpl; [done|].
    split; [apply lookup_insert_eq|]. intros other Hne. by rewrite lookup_insert_ne.
  - by injection Hstep as <-.
Qed.

(** Over a list of distinct names, the loop decides each name once. *)
Lemma forEach_highRiskStep ps names : ∀ high0 high,
  NoDup names →
  forEach (highRiskStep ps) names high0 = Ret high →
  ∀ name,
    (name ∈ names →
     ∃ withName,
       filterM (concernsInclude name) ps = Ret withName
       ∧ high !! name
         = (if negb (String.eqb name "__proto__") && (0 <? length withName)%nat
               && PrimFloat.ltb 20 (fnat (length (List.filter isDeceased withName))
                                    / fnat (length withName) * 100)
            then Some (fnat (length (List.filter isDeceased withName))
                       / fnat (length withName) * 100)%float
            else high0 !! name))
    ∧ (name ∉ names → high !! name = high0 !! name).
Proof.
  induction names as [|k names IH]; intros high0 high Hdup Hrun name.
  - simpl in Hrun. injection Hrun as <-. split; [intros Hin; by apply elem_of_nil in Hin|done].
  - apply NoDup_cons in Hdup as [Hfresh Hdup].
    apply forEach_cons in Hrun as (high1 & Hstep & Hrest).
    apply highRiskStep_lookup in Hstep as (withName & Hfilter & Hk & Hother).
    destruct (IH high1 high Hdup Hrest name) as [Hin Hout].
    split.
    + intros Hmem. apply elem_of_cons in Hmem as [->|Hmem].
      * exists withName. split; [exact Hfilter|].
        rewrite (proj2 (IH high1 high Hdup Hrest k) Hfresh). exact Hk.
      * destruct (Hin Hmem) as (withName' & Hfilter' & Hlookup).
        exists withName'. split; [exact Hfilter'|].
        rewrite Hlookup, Hother; [done|]. intros ->. done.
    + intros Hnot. apply not_elem_of_cons in Hnot as [Hne Hnot].
      rewrite (Hout Hnot). by apply Hother.
Qed.

Lemma elem_of_keys {V} (table : gmap string V) k : k ∈ keys table ↔ is_Some (table !! k).
Proof.
  unfold keys. rewrite list_elem_of_fmap. split.
  - intros ([k' v] & -> & Hin). apply elem_of_map_to_list in Hin. by exists v.
  - intros [v Hv]. exists (k, v). split; [done|]. by apply elem_of_map_to_list.
Qed.

(** What the table of high-risk comorbidities holds for each name: a key
    of the comorbidity table is high-risk exactly when some patient's
    concerns include it and the mortality rate among those patients is
    above 20; no other name is. *)
Lemma highRiskComorbiditiesOf_lookup ps counts high name :
  highRiskComorbiditiesOf ps counts = Ret high →
  (is_Some (counts !! name) →
   ∃ withName,
     filterM (concernsInclude name) ps = Ret withName
     ∧ high !! name
       = (if negb (String.eqb name "__proto__") && (0 <? length withName)%nat
             && PrimFloat.ltb 20 (fnat (length (List.filter isDeceased withName))
                                  / fnat (length withName) * 100)
          then Some (fnat (length (List.filter isDeceased withName))
                     / fnat (length withName) * 100)%float
          else None))
  ∧ (counts !! name = None → high !! name = None).
Proof.
  unfold highRiskComorbiditiesOf. intros Hrun.
  assert (NoDup (keys counts)) as Hdup by apply NoDup_fst_map_to_list.
  destruct (forEach_highRiskStep ps (keys counts) ∅ high Hdup Hrun name) as [Hin Hout].
  rewrite lookup_empty in Hin, Hout. split.
  - intros Hsome. apply Hin. by apply elem_of_keys.
  - intros Hnone. apply Hout. rewrite elem_of_keys, Hnone. by intros [? ?].
Qed.

(** A step that establishes [Q], followed by steps that keep it. *)
Lemma forEach_elem {A S} (Q : S → Prop) (body : S → A → result S) l x :
  x ∈ l →
  (∀ s s', body s x = Ret s' → Q s') →
  (∀ s y s', Q s → body s y = Ret s' → Q s') →
  ∀ s r, forEach body l s = Ret r → Q r.
Proof.
  intros Hin Hset Hkeep. induction l as [|y l IH]; intros s r Hrun.
  - by apply elem_of_nil in Hin.
  - apply forEach_cons in Hrun as (s' & Hy & Hl).
    apply elem_of_cons in Hin as [<-|Hin].
    + apply (forEach_invariant Q body l Hkeep s' r); [by eapply Hset|exact Hl].
    + by eapply IH.
Qed.

Lemma bump_keeps k k' (table : gmap string Entry) :
  is_Some (table !! k') → is_Some (bump k table !! k').
Proof.
  intros Hsome. unfold bump. destruct (String.eqb k "__proto__"); [done|].
  destruct (decide (k = k')) as [->|Hne].
  - rewrite lookup_insert_eq. by eexists.
  - by rewrite lookup_insert_ne.
Qed.

Lemma bump_sets k (table : gmap string Entry) :
  k ≠ "__proto__" → is_Some (bump k table !! k).
Proof.
  intros Hk. unfold bump. destruct (String.eqb_spec k "__proto__") as [|_]; [done|].
  rewrite lookup_insert_eq. by eexists.
Qed.

Lemma countConcern_keeps counts concern counts' k :
  is_Some (counts !! k) → countConcern counts concern = Ret counts' → is_Some (counts' !! k).
Proof.
  intros Hsome. unfold countConcern.
  destruct (truthy _); [|by intros [= <-]].
  destruct (call_trim _) as [cleanName|e]; simpl; [|discriminate].
  destruct (negb _); intros [= <-]; [by apply bump_keeps|done].
Qed.

Lemma countConcern_sets counts name counts' :
  trim name = name → name ≠ "" → name ≠ "__proto__" →
  countConcern counts (JStr name) = Ret counts' → is_Some (counts' !! name).
Proof.
  intros Htrim Hne Hproto. unfold countConcern. simpl.
  destruct (String.eqb_spec name "") as [|_]; [done|]. simpl. rewrite Htrim.
  destruct (String.eqb_spec name "") as [|_]; [done|]. simpl.
  intros [= <-]. by apply bump_sets.
Qed.

Lemma countConcerns_keeps counts p counts' k :
  is_Some (counts !! k) → countConcerns counts p = Ret counts' → is_Some (counts' !! k).
Proof.
  intros Hsome. unfold countConcerns.
  destruct (Patient.primary_concerns p) as [| |b|x|s|l|fs]; try by intros [= <-].
  apply (forEach_invariant (λ m : gmap string Entry, is_Some (m !! k))); [|done].
  intros s c s' Hs. by apply countConcern_keeps.
Qed.

Lemma countConcerns_sets counts p counts' concerns name :
  Patient.primary_concerns p = JArr concerns → JStr name ∈ concerns →
  trim name = name → name ≠ "" → name ≠ "__proto__" →
  countConcerns counts p = Ret counts' → is_Some (counts' !! name).
Proof.
  intros Hp Hin Htrim Hne Hproto. unfold countConcerns. rewrite Hp.
  apply (forEach_elem (λ m : gmap string Entry, is_Some (m !! name)) countConcern
           concerns (JStr name) Hin).
  - intros s s'. by apply countConcern_sets.
  - intros s c s' Hs. by apply countConcern_keeps.
Qed.

(** A trimmed, non-empty string among some patient's concerns is a key of
    the comorbidity table, unless it is [__proto__]. *)
Lemma comorbidityCountsOf_has_concern ps ms counts p concerns name :
  comorbidityCountsOf ps ms = Ret counts →
  p ∈ ps → Patient.primary_concerns p = JArr concerns → JStr name ∈ concerns →
  trim name = name → name ≠ "" → name ≠ "__proto__" →
  is_Some (counts !! name).
Proof.
  intros Hrun Hp Hconcerns Hin Htrim Hne Hproto. unfold comorbidityCountsOf in Hrun.
  destruct (forEach countConcerns ps ∅) as [counts0|e] eqn:Hloop; simpl in Hrun; [|discriminate].
  assert (is_Some (counts0 !! name)) as Hsome.
  { apply (forEach_elem (λ m : gmap string Entry, is_Some (m !! name)) countConcerns ps p Hp)
      with (s := ∅); [| |exact Hloop].
    - intros s s'. by eapply countConcerns_sets.
    - intros s q s' Hs. by apply countConcerns_keeps. }
  apply elem_of_keys in Hsome as Hkey.
  destruct (keys counts0) as [|k ks]; [by apply elem_of_nil in Hkey|].
  simpl in Hrun. by injection Hrun as <-.
Qed.

Lemma filterM_arrays name ps :
  Forall (λ p, isArray (Patient.primary_concerns p) = true) ps →
  filterM (concernsInclude name) ps = Ret (List.filter (hasConcern name) ps).
Proof.
  induction 1 as [|p ps Hp _ IH]; [reflexivity|].
  simpl. rewrite IH. unfold concernsInclude, hasConcern.
  destruct (Patient.primary_concerns p); try discriminate. simpl.
  by destruct (existsb _ _).
Qed.

Lemma filter_nonempty {A} (f : A → bool) (l : list A) :
  existsb f l = true → (0 <? length (List.filter f l))%nat = true.
Proof.
  induction l as [|x l IH]; [discriminate|]. simpl.
  destruct (f x); [reflexivity|exact IH].
Qed.

Lemma existsb_hasConcern name ps :
  existsb (hasConcern name) ps = true →
  ∃ p concerns, p ∈ ps ∧ Patient.primary_concerns p = JArr concerns ∧ JStr name ∈ concerns.
Proof.
  intros Hex. apply List.existsb_exists in Hex as (p & Hin & Hhas).
  unfold hasConcern in Hhas.
  destruct (Patient.primary_concerns p) as [| |b|x|s|concerns|fs] eqn:Hp; try discriminate.
  apply List.existsb_exists in Hhas as (c & Hc & Hstr).
  destruct c as [| |b|x|s|l|fs]; try discriminate. simpl in Hstr.
  apply String.eqb_eq in Hstr as ->.
  exists p, concerns. by rewrite <- !list_elem_of_In in *.
Qed.

(** [__proto__] is never a key of the table of high-risk comorbidities. *)
Lemma highRiskComorbiditiesOf_proto ps counts high :
  highRiskComorbiditiesOf ps counts = Ret high → high !! "__proto__" = None.
Proof.
  unfold highRiskComorbiditiesOf.
  apply (forEach_invariant (λ m : gmap string float, m !! "__proto__" = None));
    [|apply lookup_empty].
  intros s name s' Hs Hstep.
  apply highRiskStep_lookup in Hstep as (withName & _ & Hname & Hother).
  destruct (String.eqb_spec name "__proto__") as [->|Hne].
  - by rewrite Hname.
  - rewrite Hother; [exact Hs|]. by intros <-.
Qed.

(** For a name other than [__proto__] that stands trimmed among the
    concerns of some patient, the claim of C8 holds: it is in
    [high_risk_comorbidities], with its rate, exactly when the mortality
    rate among the patients whose concerns have it is above 20.  So five
    patients with Diabetes of whom two are deceased put Diabetes in the
    table at rate 40, and ten patients with Mild Allergy of whom one is
    deceased leave the table empty.  The name [__proto__] is never in the
    table, whatever its rate: one deceased patient whose only concern is
    [__proto__] has rate 100 with it, and the summary holds no comorbidity
    and no high-risk comorbidity. *)
Theorem highRisk_of_trimmed_names :
  (∀ nts ps stats ms ex a name,
     generateEnhancedPatientAnalytics nts ps stats ms ex = Ret a →
     Forall (λ p, isArray (Patient.primary_concerns p) = true) ps →
     existsb (hasConcern name) ps = true →
     trim name = name → name ≠ "" → name ≠ "__proto__" →
     high_risk_comorbidities (mortality_analytics a) !! name
     = if PrimFloat.ltb 20 (mortalityRateWith name ps)
       then Some (mortalityRateWith name ps) else None)
  ∧ (∀ nts ps stats ms ex a,
       generateEnhancedPatientAnalytics nts ps stats ms ex = Ret a →
       high_risk_comorbidities (mortality_analytics a) !! "__proto__" = None)
  ∧ (∀ nts stats ex, ∃ a,
       generateEnhancedPatientAnalytics nts [deceasedPatient [] [] [JStr "__proto__"]]
         stats (JArr []) ex = Ret a
       ∧ mortalityRateWith "__proto__" [deceasedPatient [] [] [JStr "__proto__"]] = 100%float
       ∧ most_common_comorbidities a = ∅
       ∧ high_risk_comorbidities (mortality_analytics a) = ∅)
  ∧ (∀ nts stats ex, ∃ a,
       generateEnhancedPatientAnalytics nts diabetesPatients stats (JArr []) ex = Ret a
       ∧ high_risk_comorbidities (mortality_analytics a) = {[ "Diabetes" := 40%float ]})
  ∧ (∀ nts stats ex, ∃ a,
       generateEnhancedPatientAnalytics nts allergyPatients stats (JArr []) ex = Ret a
       ∧ mortalityRateWith "Mild Allergy" allergyPatients = 10%float
       ∧ high_risk_comorbidities (mortality_analytics a) = ∅).
Proof.
  split; [|split; [|split; [|split]]].
  - intros nts ps stats ms ex a name Hrun Harr Hex Htrim Hne Hproto.
    assert (ps ≠ []) as Hps by (intros ->; discriminate).
    apply generate_nonempty in Hrun
      as (causes & fsd & ssd & counts & high & cols & _ & Hc & Hh & _ & rd & avg & _ & _ & ->); [|done].
    cbn [mortality_analytics high_risk_comorbidities]. unfold mortalityRateWith.
    destruct (existsb_hasConcern _ _ Hex) as (p & concerns & Hp & Hconcerns & Hin).
    pose proof (comorbidityCountsOf_has_concern _ _ _ _ _ _ Hc Hp Hconcerns Hin Htrim Hne Hproto)
      as Hkey.
    destruct (proj1 (highRiskComorbiditiesOf_lookup _ _ _ name Hh) Hkey)
      as (withName & Hfilter & Hlookup).
    rewrite (filterM_arrays name _ Harr) in Hfilter.
    assert (withName = List.filter (hasConcern name) ps) as -> by congruence.
    rewrite Hlookup, (filter_nonempty _ _ Hex).
    destruct (String.eqb_spec name "__proto__") as [|_]; [done|]. reflexivity.
  - intros nts ps stats ms ex a Hrun.
    destruct ps as [|p ps]; [by injection Hrun as <-|].
    apply generate_nonempty in Hrun
      as (causes & fsd & ssd & counts & high & cols & _ & _ & Hh & _ & rd & avg & _ & _ & ->); [|done].
    cbn [mortality_analytics high_risk_comorbidities].
    by eapply highRiskComorbiditiesOf_proto.
  - intros nts stats ex. eexists. split; [vm_compute; reflexivity|].
    repeat split; vm_compute; reflexivity.
  - intros nts stats ex. eexists. split; vm_compute; reflexivity.
  - intros nts stats ex. eexists. split; [vm_compute; reflexivity|].
    split; vm_compute; reflexivity.
Qed.

(** The rule on the five patients with Diabetes. *)
Lemma highRisk_of_trimmed_names_witness :
  ∃ a, generateEnhancedPatientAnalytics noDigits diabetesPatients zeroStats (JArr []) JUndefined
       = Ret a
       ∧ high_risk_comorbidities (mortality_analytics a) !! "Diabetes" = Some 40%float.
Proof.
  run_sample a Hrun.
  rewrite (proj1 highRisk_of_trimmed_names noDigits diabetesPatients zeroStats (JArr [])
             JUndefined a "Diabetes" Hrun).
  - reflexivity.
  - repeat constructor.
  - reflexivity.
  - reflexivity.
  - discriminate.
  - discriminate.
Defined.

(** C8 at a failing input: one deceased patient whose only concern is
    Diabetes written with a leading space.  The name is among the concerns
    of one patient, who is deceased, so the rate for it is 100; the
    aggregator counts the concern under the trimmed key, looks for that key
    among the untrimmed concerns, finds no patient, and returns an empty
    table of high-risk comorbidities. *)
Theorem C8_untrimmed_concern_is_missed :
  ∃ a, (∀ nts, generateEnhancedPatientAnalytics nts
                 [deceasedPatient [] [] [JStr " Diabetes"]] zeroStats (JArr []) JUndefined
               = Ret a)
       ∧ transformPatient
           (rawPatient (JStr "failure") (JStr "deceased") (JArr [JStr " Diabetes"]))
         = Ret (deceasedPatient [] [] [JStr " Diabetes"])
       ∧ hasConcern " Diabetes" (deceasedPatient [] [] [JStr " Diabetes"]) = true
       ∧ mortalityRateWith " Diabetes" [deceasedPatient [] [] [JStr " Diabetes"]] = 100%float
       ∧ most_common_comorbidities a = {[ "Diabetes" := Count 1 ]}
       ∧ high_risk_comorbidities (mortality_analytics a) = ∅.
Proof. evaluate_run. Qed.

(** ** C9: no patients *)

(** C9: for an empty list of patients the aggregator returns, without
    throwing and whatever its other arguments are, the summary with 0
    patients, every rate and the average equal to the number 0, every
    table empty and every count 0; and the transformation of a payload
    whose [patient_summaries] is the empty array carries that summary. *)
Theorem C9_empty_patient_list :
  (∀ nts stats ms ex, ∃ a,
     generateEnhancedPatientAnalytics nts [] stats ms ex = Ret a
     ∧ total_patients a = 0
     ∧ avg_comorbidities_per_patient a = 0%float
     ∧ success_rate (surgery_outcomes a) = 0%float
     ∧ mortality_rate (mortality_analytics a) = 0%float
     ∧ death_rate_in_failed (mortality_analytics a) = 0%float
     ∧ death_rate_in_successful (mortality_analytics a) = 0%float
     ∧ most_common_comorbidities a = ∅
     ∧ most_effective_columns a = ∅
     ∧ mortality_causes (mortality_analytics a) = ∅
     ∧ high_risk_comorbidities (mortality_analytics a) = ∅
     ∧ failure_causes a = ∅
     ∧ successful (surgery_outcomes a) = 0
     ∧ failed (surgery_outcomes a) = 0
     ∧ unknown (surgery_outcomes a) = 0
     ∧ deceased_patients (mortality_analytics a) = 0
     ∧ alive_patients (mortality_analytics a) = 0
     ∧ failed_surgery_deaths (mortality_analytics a) = 0
     ∧ success_surgery_deaths (mortality_analytics a) = 0
     ∧ risk_distribution (mortality_analytics a)
       = {| Critical := 0; High := 0; Medium := 0; Low := 0 |})
  ∧ (∀ nts format, ∃ d,
       transformJobResultsForFrontend nts (JObj [("patient_summaries", JArr [])]) format
       = Transformed d
       ∧ patient_summaries d = Some []
       ∧ patient_analytics d = Some emptyAnalytics).
Proof.
  split.
  - intros nts stats ms ex. exists emptyAnalytics.
    split; [apply generate_empty|]. repeat split.
  - intros nts format. unfold transformJobResultsForFrontend, transformBody.
    cbn [get lookup_field String.eqb Ascii.eqb Bool.eqb truthy mbind result_bind fmap result_fmap
         mapPatients mapM mret result_ret].
    rewrite orb_true_r. eexists. split; [reflexivity|]. split; reflexivity.
Qed.

(** ** C10: the backend's own analytics *)

Lemma lookup_field_obj_set_ne k k' v fs :
  k ≠ k' → lookup_field k (obj_set k' v fs) = lookup_field k fs.
Proof.
  intros Hne. induction fs as [|[k0 v0] fs IH]; simpl.
  - by destruct (String.eqb_spec k k').
  - destruct (String.eqb_spec k' k0) as [->|Hk0]; simpl.
    + by destruct (String.eqb_spec k k0).
    + destruct (String.eqb_spec k k0); [reflexivity|exact IH].
Qed.

Lemma generate_ignores_existing nts ps stats ms ex1 ex2 :
  generateEnhancedPatientAnalytics nts ps stats ms ex1
  = generateEnhancedPatientAnalytics nts ps stats ms ex2.
Proof. reflexivity. Qed.

(** C10: the aggregator returns the same result, a summary or an
    exception, for any two values of [existingAnalytics]; and the body of
    the transformation returns the same result for two payloads that
    differ only in [patient_analytics]. *)
Theorem C10_existing_analytics_ignored :
  (∀ nts ps stats ms ex1 ex2,
     generateEnhancedPatientAnalytics nts ps stats ms ex1
     = generateEnhancedPatientAnalytics nts ps stats ms ex2)
  ∧ (∀ nts fields format v1 v2,
       transformBody nts (JObj (obj_set "patient_analytics" v1 fields)) format
       = transformBody nts (JObj (obj_set "patient_analytics" v2 fields)) format).
Proof.
  split; [intros; apply generate_ignores_existing|].
  intros nts fields format v1 v2. unfold transformBody. cbn [get mbind result_bind].
  assert (Hsame : ∀ k v, k ≠ "patient_analytics" →
            lookup_field k (obj_set "patient_analytics" v fields) = lookup_field k fields)
    by (intros; by apply lookup_field_obj_set_ne).
  rewrite (Hsame "stats" v1), (Hsame "stats" v2), (Hsame "matches" v1), (Hsame "matches" v2),
    (Hsame "summary" v1), (Hsame "summary" v2), (Hsame "patient_summaries" v1),
    (Hsame "patient_summaries" v2) by discriminate.
  destruct (if truthy (lookup_field "patient_summaries" fields) then _ else _)
    as [summaries|e]; [|reflexivity].
  cbn [mbind result_bind].
  destruct (String.eqb format "enhanced" || _); [|reflexivity].
  cbn [mbind result_bind].
  by rewrite (generate_ignores_existing nts _ _ _
                (lookup_field "patient_analytics" (obj_set "patient_analytics" v1 fields))
                (lookup_field "patient_analytics" (obj_set "patient_analytics" v2 fields))).
Qed.

(** ** The aggregator on typed input *)

Lemma forEach_returns {A S} (body : S → A → result S) l :
  (∀ s x, x ∈ l → ∃ s', body s x = Ret s') → ∀ s, ∃ r, forEach body l s = Ret r.
Proof.
  induction l as [|x l IH]; intros Hbody s; simpl; [by eexists|].
  destruct (Hbody s x) as [s' Hs']; [by left|]. rewrite Hs'. simpl.
  apply IH. intros s0 y Hy. apply Hbody. by right.
Qed.

Lemma forallb_elem {A} (f : A → bool) l x : forallb f l = true → x ∈ l → f x = true.
Proof.
  intros Hall Hin. apply list_elem_of_In in Hin.
  by apply (proj1 (List.forallb_forall f l) Hall).
Qed.

Lemma collectMortalityCause_string causes s :
  ∃ causes', collectMortalityCause causes (JStr s) = Ret causes'.
Proof.
  unfold collectMortalityCause. destruct (truthy (JStr s)); [|by eexists].
  simpl. destruct (_ && _); by eexists.
Qed.

Lemma mortalityStep_returns st p :
  isStringArray (Patient.mortality_causes p) = true → ∃ st', mortalityStep st p = Ret st'.
Proof.
  destruct st as [[causes fsd] ssd]. unfold mortalityStep, isStringArray. intros Htyped.
  destruct (isDeceased p); [|by eexists].
  destruct (if isFailed p then _ else _) as [fsd' ssd'].
  destruct (Patient.mortality_causes p) as [| |b|x|s|l|fs]; try discriminate.
  destruct (forEach_returns collectMortalityCause l) with (s := causes) as [causes' ->].
  - intros acc cause Hin. pose proof (forallb_elem _ _ _ Htyped Hin) as Hstr.
    destruct cause; try discriminate. apply collectMortalityCause_string.
  - by eexists.
Qed.

Lemma countConcerns_returns counts p :
  isStringArray (Patient.primary_concerns p) = true → ∃ counts', countConcerns counts p = Ret counts'.
Proof.
  unfold countConcerns, isStringArray. intros Htyped.
  destruct (Patient.primary_concerns p) as [| |b|x|s|l|fs]; try discriminate.
  apply forEach_returns. intros acc concern Hin.
  pose proof (forallb_elem _ _ _ Htyped Hin) as Hstr.
  destruct concern; try discriminate. unfold countConcern. simpl.
  destruct (negb _); simpl; [|by eexists]. destruct (negb _); by eexists.
Qed.

Lemma forEachMatch_returns field ms counts :
  field = "comorbidity_name" ∨ field = "column_name" →
  forallb wellTypedMatch ms = true →
  ∃ counts', forEachMatch field (JArr ms) counts = Ret counts'.
Proof.
  intros Hfield Htyped. unfold forEachMatch. apply forEach_returns.
  intros acc m Hin. pose proof (forallb_elem _ _ _ Htyped Hin) as Hm.
  destruct m as [| |b|x|s|l|fs]; try discriminate. simpl in Hm.
  apply andb_true_iff in Hm as [Hname Hcolumn].
  unfold countMatchField. simpl.
  assert (stringOrAbsent (lookup_field field fs) = true) as Hv
    by (by destruct Hfield as [-> | ->]).
  destruct (lookup_field field fs); try discriminate; simpl; try by eexists.
  destruct (negb _); simpl; [|by eexists]. destruct (negb _); by eexists.
Qed.

Lemma wellTyped_arrays ps :
  forallb wellTypedPatient ps = true →
  Forall (λ p, isArray (Patient.primary_concerns p) = true) ps.
Proof.
  intros Htyped. apply List.Forall_forall. intros p Hin.
  apply (proj1 (List.forallb_forall _ _) Htyped) in Hin.
  unfold wellTypedPatient, isStringArray in Hin.
  by destruct (Patient.primary_concerns p).
Qed.

Lemma wellTyped_counts ps :
  forallb wellTypedPatient ps = true → forallb hasNumericCount ps = true.
Proof.
  rewrite !List.forallb_forall. intros Htyped p Hin.
  apply Htyped in Hin. unfold wellTypedPatient in Hin.
  by apply andb_true_iff in Hin as [_ ?].
Qed.

(** Numeric counts are added as numbers: no operand is converted. *)
Lemma sum_of_numeric_counts nts ps : ∀ acc,
  forallb hasNumericCount ps = true →
  forEach (λ sum p, js_add nts sum (js_or (Patient.total_comorbidities p) (JNum 0)))
          ps (JNum acc)
  = Ret (JNum (fold_left (λ sum p, (sum + countOf p)%float) ps acc)).
Proof.
  induction ps as [|p ps IH]; intros acc Hall; [reflexivity|].
  cbn [forallb] in Hall. apply andb_true_iff in Hall as [Hp Hall].
  cbn [forEach fold_left]. unfold hasNumericCount in Hp. unfold countOf at 2.
  destruct (Patient.total_comorbidities p) as [| |b|x|s|l|fs]; try discriminate.
  unfold js_or. destruct (truthy (JNum x)); cbn; by rewrite IH.
Qed.

Lemma avgComorbiditiesOf_numeric nts ps :
  forallb hasNumericCount ps = true →
  avgComorbiditiesOf nts ps
  = Ret (fold_left (λ sum p, sum + countOf p) ps 0 / fnat (length ps))%float.
Proof.
  intros Hall. unfold avgComorbiditiesOf. by rewrite sum_of_numeric_counts.
Qed.

(** On patients whose concerns and mortality causes are arrays of strings
    and whose count of comorbidities is a number, with an array of matches
    whose names are strings or absent, the aggregator returns a summary:
    it does not throw. *)
Theorem generate_returns_on_typed_input nts ps stats ms ex :
  forallb wellTypedPatient ps = true →
  forallb wellTypedMatch ms = true →
  ∃ a, generateEnhancedPatientAnalytics nts ps stats (JArr ms) ex = Ret a.
Proof.
  intros Hps Hms. unfold generateEnhancedPatientAnalytics.
  destruct (Nat.eqb (length ps) 0); [by eexists|].
  destruct (forEach_returns mortalityStep ps) with (s := ([] : list string, 0, 0))
    as [[[causes fsd] ssd] ->].
  { intros st p Hin. apply mortalityStep_returns.
    pose proof (forallb_elem _ _ _ Hps Hin) as Hp. unfold wellTypedPatient in Hp.
    by apply andb_true_iff in Hp as [[_ ?]%andb_true_iff _]. }
  cbn [mbind result_bind].
  assert (∃ counts, comorbidityCountsOf ps (JArr ms) = Ret counts) as [counts ->].
  { unfold comorbidityCountsOf.
    destruct (forEach_returns countConcerns ps) with (s := (∅ : gmap string Entry))
      as [counts0 ->].
    { intros st p Hin. apply countConcerns_returns.
      pose proof (forallb_elem _ _ _ Hps Hin) as Hp. unfold wellTypedPatient in Hp.
      by apply andb_true_iff in Hp as [[? _]%andb_true_iff _]. }
    cbn [mbind result_bind lengthPositive].
    destruct (Nat.eqb _ 0); [|by eexists].
    destruct (negb _); [|by eexists].
    apply forEachMatch_returns; auto. }
  cbn [mbind result_bind].
  assert (∃ high, highRiskComorbiditiesOf ps counts = Ret high) as [high ->].
  { unfold highRiskComorbiditiesOf. apply forEach_returns. intros acc name _.
    unfold highRiskStep. rewrite (filterM_arrays name ps (wellTyped_arrays ps Hps)).
    cbn [mbind result_bind]. destruct (0 <? _)%nat; [|by eexists].
    destruct (PrimFloat.ltb 20 _); by eexists. }
  cbn [mbind result_bind].
  destruct (forEachMatch_returns "column_name" ms ∅) as [cols ->]; auto.
  cbn [mbind result_bind].
  unfold riskDistributionOf.
  rewrite (forEach_riskStep_numeric ps _ (wellTyped_counts ps Hps)).
  cbn [mbind result_bind].
  rewrite (avgComorbiditiesOf_numeric nts ps (wellTyped_counts ps Hps)).
  by eexists.
Qed.

(** A typed run with one match. *)
Lemma generate_returns_on_typed_input_witness :
  ∃ a, generateEnhancedPatientAnalytics noDigits diabetesPatients zeroStats
         (JArr [JObj [("comorbidity_name", JStr "Diabetes"); ("column_name", JStr "notes")]])
         JUndefined = Ret a.
Proof.
  apply (generate_returns_on_typed_input noDigits diabetesPatients zeroStats
           [JObj [("comorbidity_name", JStr "Diabetes"); ("column_name", JStr "notes")]]
           JUndefined); reflexivity.
Defined.

(** ** The parser's fuel *)

Local Open Scope nat_scope.
Local Abbreviation len := String.length.

Lemma skip_json_ws_length s : len (skip_json_ws s) ≤ len s.
Proof.
  induction s as [|c s IH]; simpl; [lia|].
  destruct (_ || _)%N; simpl; lia.
Qed.

Lemma strip_prefix_length p : ∀ s r, strip_prefix p s = Some r → len s = len p + len r.
Proof.
  induction p as [|a p IH]; intros s r; simpl.
  - by intros [= ->].
  - destruct s as [|b s]; [discriminate|]. destruct (Ascii.eqb a b); [|discriminate].
    intros H. apply IH in H. simpl. lia.
Qed.

Lemma take_while_length p s h t : take_while p s = (h, t) → len s = len h + len t.
Proof.
  revert h t. induction s as [|c s IH]; intros h t; simpl.
  - by intros [= <- <-].
  - destruct (p c).
    + destruct (take_while p s) as [h' t']. intros [= <- <-]. simpl.
      specialize (IH h' t' eq_refl). lia.
    + intros [= <- <-]. simpl. lia.
Qed.

Lemma exponent_part_length s e r : exponent_part s = Some (e, r) → len r ≤ len s.
Proof.
  unfold exponent_part. destruct s as [|c r0]; [by intros [= _ <-]|].
  destruct (_ || _)%N; [|by intros [= _ <-]].
  destruct (match r0 with "" => _ | String sg r' => _ end) as [neg r1] eqn:Hsign.
  assert (len r1 ≤ len r0) as Hr1.
  { destruct r0 as [|sg r']; [by injection Hsign as _ <-|].
    destruct (code sg =? 45)%N; [injection Hsign as _ <-; simpl; lia|].
    destruct (code sg =? 43)%N; injection Hsign as _ <-; simpl; lia. }
  destruct (take_while is_digit r1) as [ds r2] eqn:Htake.
  apply take_while_length in Htake.
  destruct (digits_val 10 ds); simpl; [|discriminate].
  intros [= _ <-]. simpl. lia.
Qed.

Lemma parse_json_number_length s x r : parse_json_number s = Some (x, r) → len r < len s.
Proof.
  unfold parse_json_number.
  destruct (match s with "" => _ | String c r0 => _ end) as [neg s1] eqn:Hsign.
  assert (len s1 ≤ len s) as Hs1.
  { destruct s as [|c r0]; [by injection Hsign as _ <-|].
    destruct (code c =? 45)%N; injection Hsign as _ <-; simpl; lia. }
  destruct (take_while is_digit s1) as [ip s2] eqn:Htake.
  apply take_while_length in Htake.
  destruct ip as [|z more]; [discriminate|]. simpl in Htake.
  destruct (_ && _); [discriminate|].
  destruct (match s2 with "" => _ | String d r0 => _ end) as [[fp s3]|] eqn:Hfrac;
    simpl; [|discriminate].
  assert (len s3 ≤ len s2) as Hs3.
  { destruct s2 as [|d r0]; [by injection Hfrac as _ <-|].
    destruct (code d =? 46)%N; [|by injection Hfrac as _ <-].
    destruct (take_while is_digit r0) as [fp' r'] eqn:Htake'.
    apply take_while_length in Htake'.
    destruct (String.eqb fp' ""); [discriminate|]. injection Hfrac as _ <-. simpl. lia. }
  destruct (exponent_part s3) as [[e s4]|] eqn:Hexp; simpl; [|discriminate].
  apply exponent_part_length in Hexp.
  destruct (decimal_value neg _ fp e); simpl; [|discriminate].
  intros [= _ <-]. lia.
Qed.

Lemma hex4_length s v r : hex4 s = Some (v, r) → len s = 4 + len r.
Proof.
  unfold hex4. destruct s as [|a [|b [|c [|d r0]]]]; try discriminate.
  destruct (digits_val 16 _); simpl; [|discriminate]. by intros [= _ <-].
Qed.

Lemma unicode_escape_length u r pre r' : unicode_escape u r = (pre, r') → len r' ≤ len r.
Proof.
  unfold unicode_escape. destruct (_ && _)%N; [|by intros [= _ <-]].
  destruct (strip_prefix _ r) as [r0|] eqn:Hpre; simpl; [|by intros [= _ <-]].
  apply strip_prefix_length in Hpre.
  destruct (hex4 r0) as [[lo r1]|] eqn:Hhex; [|by intros [= _ <-]].
  apply hex4_length in Hhex.
  destruct (_ && _)%N; intros [= _ <-]; lia.
Qed.

Lemma parse_string_body_length f : ∀ s t r,
  parse_string_body f s = Some (t, r) → len r < len s.
Proof.
  induction f as [|f IH]; intros s t r; simpl; [discriminate|].
  destruct s as [|c s']; [discriminate|].
  destruct (code c =? 34)%N; [intros [= _ <-]; simpl; lia|].
  destruct (code c <? 32)%N; [discriminate|].
  destruct (code c =? 92)%N.
  - destruct s' as [|e r1]; [discriminate|].
    destruct (if (code e =? 117)%N then _ else _) as [[pre r2]|] eqn:Hesc;
      simpl; [|discriminate].
    assert (len r2 ≤ len r1) as Hr2.
    { destruct (code e =? 117)%N.
      - destruct (hex4 r1) as [[u r']|] eqn:Hhex; simpl in Hesc; [|discriminate].
        apply hex4_length in Hhex. injection Hesc as Hesc.
        apply unicode_escape_length in Hesc. lia.
      - destruct (simple_escape e); simpl in Hesc; [|discriminate].
        by injection Hesc as _ <-. }
    destruct (parse_string_body f r2) as [[t' rest]|] eqn:Hrec; simpl; [|discriminate].
    apply IH in Hrec. intros [= _ <-]. simpl. lia.
  - destruct (parse_string_body f s') as [[t' rest]|] eqn:Hrec; simpl; [|discriminate].
    apply IH in Hrec. intros [= _ <-]. simpl. lia.
Qed.

(** With more fuel than characters the string scanner's answer does not
    depend on the fuel. *)
Lemma parse_string_body_fuel f : ∀ f' s,
  len s < f → len s < f' → parse_string_body f s = parse_string_body f' s.
Proof.
  induction f as [|f IH]; intros f' s Hf Hf'; [lia|].
  destruct f' as [|f']; [lia|]. simpl.
  destruct s as [|c s']; [reflexivity|]. simpl in Hf, Hf'.
  destruct (code c =? 34)%N; [reflexivity|].
  destruct (code c <? 32)%N; [reflexivity|].
  destruct (code c =? 92)%N.
  - destruct s' as [|e r1]; [reflexivity|]. simpl in Hf, Hf'.
    destruct (if (code e =? 117)%N then _ else _) as [[pre r2]|] eqn:Hesc;
      simpl; [|reflexivity].
    assert (len r2 ≤ len r1) as Hr2.
    { destruct (code e =? 117)%N.
      - destruct (hex4 r1) as [[u r']|] eqn:Hhex; simpl in Hesc; [|discriminate].
        apply hex4_length in Hhex. injection Hesc as Hesc.
        apply unicode_escape_length in Hesc. lia.
      - destruct (simple_escape e); simpl in Hesc; [|discriminate].
        by injection Hesc as _ <-. }
    rewrite (IH f' r2) by lia. reflexivity.
  - rewrite (IH f' s') by lia. reflexivity.
Qed.

Lemma parse_string_length s t r : parse_string s = Some (t, r) → len r < len s.
Proof. apply parse_string_body_length. Qed.

Lemma parse_value_unfold f s :
  parse_value (S f) s =
  match skip_json_ws s with
  | "" => None
  | String c r as t =>
    let n := code c in
    if (n =? 34)%N then '(x, r') ← parse_string r; Some (JStr x, r')
    else if (n =? 91)%N then
      match skip_json_ws r with
      | "" => None
      | String c' r' =>
        if (code c' =? 93)%N then Some (JArr [], r')
        else '(vs, r'') ← parse_elements f r; Some (JArr vs, r'')
      end
    else if (n =? 123)%N then
      match skip_json_ws r with
      | "" => None
      | String c' r' =>
        if (code c' =? 125)%N then Some (JObj [], r')
        else '(ms, r'') ← parse_members f r;
             Some (JObj (fold_left (λ fs kv, obj_set kv.1 kv.2 fs) ms []), r'')
      end
    else if (n =? 110)%N then r' ← strip_prefix "null" t; Some (JNull, r')
    else if (n =? 116)%N then r' ← strip_prefix "true" t; Some (JBool true, r')
    else if (n =? 102)%N then r' ← strip_prefix "false" t; Some (JBool false, r')
    else '(x, r') ← parse_json_number t; Some (JNum x, r')
  end.
Proof. reflexivity. Qed.

Lemma parse_elements_unfold f s :
  parse_elements (S f) s =
  '(v, r) ← parse_value f s;
  match skip_json_ws r with
  | "" => None
  | String c r' =>
    if (code c =? 44)%N then '(vs, r'') ← parse_elements f r'; Some (v :: vs, r'')
    else if (code c =? 93)%N then Some ([v], r')
    else None
  end.
Proof. reflexivity. Qed.

Lemma parse_members_unfold f s :
  parse_members (S f) s =
  match skip_json_ws s with
  | "" => None
  | String q r =>
    if (code q =? 34)%N then
      '(k, r1) ← parse_string r;
      match skip_json_ws r1 with
      | "" => None
      | String colon r2 =>
        if (code colon =? 58)%N then
          '(v, r3) ← parse_value f r2;
          match skip_json_ws r3 with
          | "" => None
          | String c r4 =>
            if (code c =? 44)%N then '(ms, r5) ← parse_members f r4; Some ((k, v) :: ms, r5)
            else if (code c =? 125)%N then Some ([(k, v)], r4)
            else None
          end
        else None
      end
    else None
  end.
Proof. reflexivity. Qed.

(** A successful parse consumes at least one character. *)
Lemma parse_consumes f :
  (∀ s v r, parse_value f s = Some (v, r) → len r < len s)
  ∧ (∀ s vs r, parse_elements f s = Some (vs, r) → len r < len s)
  ∧ (∀ s ms r, parse_members f s = Some (ms, r) → len r < len s).
Proof.
  induction f as [|f (IHv & IHe & IHm)]; [repeat split; discriminate|].
  split; [|split].
  - intros s v r. rewrite parse_value_unfold.
    pose proof (skip_json_ws_length s) as Hskip.
    destruct (skip_json_ws s) as [|c r0] eqn:Hs; [discriminate|]. simpl in Hskip. cbv zeta.
    destruct (code c =? 34)%N.
    { destruct (parse_string r0) as [[x r']|] eqn:Hstr; simpl; [|discriminate].
      apply parse_string_length in Hstr. intros [= _ <-]. lia. }
    destruct (code c =? 91)%N.
    { pose proof (skip_json_ws_length r0) as Hskip0.
      destruct (skip_json_ws r0) as [|c' r'] eqn:Hr0; [discriminate|]. simpl in Hskip0.
      destruct (code c' =? 93)%N; [intros [= _ <-]; lia|].
      destruct (parse_elements f r0) as [[vs r'']|] eqn:He; simpl; [|discriminate].
      apply IHe in He. intros [= _ <-]. lia. }
    destruct (code c =? 123)%N.
    { pose proof (skip_json_ws_length r0) as Hskip0.
      destruct (skip_json_ws r0) as [|c' r'] eqn:Hr0; [discriminate|]. simpl in Hskip0.
      destruct (code c' =? 125)%N; [intros [= _ <-]; lia|].
      destruct (parse_members f r0) as [[ms r'']|] eqn:Hm; simpl; [|discriminate].
      apply IHm in Hm. intros [= _ <-]. lia. }
    destruct (code c =? 110)%N.
    { destruct (strip_prefix "null" _) as [r'|] eqn:Hp; simpl; [|discriminate].
      apply strip_prefix_length in Hp. simpl in Hp. intros [= _ <-]. lia. }
    destruct (code c =? 116)%N.
    { destruct (strip_prefix "true" _) as [r'|] eqn:Hp; simpl; [|discriminate].
      apply strip_prefix_length in Hp. simpl in Hp. intros [= _ <-]. lia. }
    destruct (code c =? 102)%N.
    { destruct (strip_prefix "false" _) as [r'|] eqn:Hp; simpl; [|discriminate].
      apply strip_prefix_length in Hp. simpl in Hp. intros [= _ <-]. lia. }
    destruct (parse_json_number _) as [[x r']|] eqn:Hn; simpl; [|discriminate].
    apply parse_json_number_length in Hn. simpl in Hn. intros [= _ <-]. lia.
  - intros s vs r. rewrite parse_elements_unfold.
    destruct (parse_value f s) as [[v r0]|] eqn:Hv; simpl; [|discriminate].
    apply IHv in Hv. pose proof (skip_json_ws_length r0) as Hskip.
    destruct (skip_json_ws r0) as [|c r'] eqn:Hr0; [discriminate|]. simpl in Hskip.
    destruct (code c =? 44)%N.
    { destruct (parse_elements f r') as [[vs' r'']|] eqn:He; simpl; [|discriminate].
      apply IHe in He. intros [= _ <-]. lia. }
    destruct (code c =? 93)%N; [|discriminate]. intros [= _ <-]. lia.
  - intros s ms r. rewrite parse_members_unfold.
    pose proof (skip_json_ws_length s) as Hskip.
    destruct (skip_json_ws s) as [|q r0] eqn:Hs; [discriminate|]. simpl in Hskip.
    destruct (code q =? 34)%N; [|discriminate].
    destruct (parse_string r0) as [[k r1]|] eqn:Hstr; simpl; [|discriminate].
    apply parse_string_length in Hstr. pose proof (skip_json_ws_length r1) as Hskip1.
    destruct (skip_json_ws r1) as [|colon r2] eqn:Hr1; [discriminate|]. simpl in Hskip1.
    destruct (code colon =? 58)%N; [|discriminate].
    destruct (parse_value f r2) as [[v r3]|] eqn:Hv; simpl; [|discriminate].
    apply IHv in Hv. pose proof (skip_json_ws_length r3) as Hskip3.
    destruct (skip_json_ws r3) as [|c r4] eqn:Hr3; [discriminate|]. simpl in Hskip3.
    destruct (code c =? 44)%N.
    { destruct (parse_members f r4) as [[ms' r5]|] eqn:Hm; simpl; [|discriminate].
      apply IHm in Hm. intros [= _ <-]. lia. }
    destruct (code c =? 125)%N; [|discriminate]. intros [= _ <-]. lia.
Qed.

(** Fuel beyond twice the length of the text changes nothing: a value
    needs at most [2 * len s + 1] units, a list of elements or members one
    more. *)
Lemma parse_fuel_stable n : ∀ s, len s ≤ n →
  (∀ f f', 2 * len s + 1 ≤ f → 2 * len s + 1 ≤ f' → parse_value f s = parse_value f' s)
  ∧ (∀ f f', 2 * len s + 2 ≤ f → 2 * len s + 2 ≤ f' → parse_elements f s = parse_elements f' s)
  ∧ (∀ f f', 2 * len s + 2 ≤ f → 2 * len s + 2 ≤ f' → parse_members f s = parse_members f' s).
Proof.
  induction n as [n IH] using lt_wf_ind. intros s Hn.
  assert (IHv : ∀ r f f', len r < len s → 2 * len r + 1 ≤ f → 2 * len r + 1 ≤ f' →
                 parse_value f r = parse_value f' r).
  { intros r f f' Hr. apply (IH (len r)); lia. }
  assert (IHe : ∀ r f f', len r < len s → 2 * len r + 2 ≤ f → 2 * len r + 2 ≤ f' →
                 parse_elements f r = parse_elements f' r).
  { intros r f f' Hr. apply (IH (len r)); lia. }
  assert (IHm : ∀ r f f', len r < len s → 2 * len r + 2 ≤ f → 2 * len r + 2 ≤ f' →
                 parse_members f r = parse_members f' r).
  { intros r f f' Hr. apply (IH (len r)); lia. }
  assert (Hv : ∀ f f', 2 * len s + 1 ≤ f → 2 * len s + 1 ≤ f' →
                parse_value f s = parse_value f' s).
  { intros f f' Hf Hf'. destruct f as [|f]; [lia|]. destruct f' as [|f']; [lia|].
    rewrite !parse_value_unfold.
    pose proof (skip_json_ws_length s) as Hskip.
    destruct (skip_json_ws s) as [|c r0]; [reflexivity|]. simpl in Hskip. cbv zeta.
    destruct (code c =? 34)%N; [reflexivity|].
    destruct (code c =? 91)%N.
    { destruct (skip_json_ws r0) as [|c' r']; [reflexivity|].
      destruct (code c' =? 93)%N; [reflexivity|].
      rewrite (IHe r0 f f') by lia. reflexivity. }
    destruct (code c =? 123)%N; [|reflexivity].
    destruct (skip_json_ws r0) as [|c' r']; [reflexivity|].
    destruct (code c' =? 125)%N; [reflexivity|].
    rewrite (IHm r0 f f') by lia. reflexivity. }
  split; [exact Hv|]. split.
  - intros f f' Hf Hf'. destruct f as [|f]; [lia|]. destruct f' as [|f']; [lia|].
    rewrite !parse_elements_unfold, (Hv f f') by lia.
    destruct (parse_value f' s) as [[v r0]|] eqn:Hval; simpl; [|reflexivity].
    apply (proj1 (parse_consumes f')) in Hval.
    pose proof (skip_json_ws_length r0) as Hskip.
    destruct (skip_json_ws r0) as [|c r']; [reflexivity|]. simpl in Hskip.
    destruct (code c =? 44)%N; [|reflexivity].
    rewrite (IHe r' f f') by lia. reflexivity.
  - intros f f' Hf Hf'. destruct f as [|f]; [lia|]. destruct f' as [|f']; [lia|].
    rewrite !parse_members_unfold.
    pose proof (skip_json_ws_length s) as Hskip.
    destruct (skip_json_ws s) as [|q r0]; [reflexivity|]. simpl in Hskip.
    destruct (code q =? 34)%N; [|reflexivity].
    destruct (parse_string r0) as [[k r1]|] eqn:Hstr; simpl; [|reflexivity].
    apply parse_string_length in Hstr. pose proof (skip_json_ws_length r1) as Hskip1.
    destruct (skip_json_ws r1) as [|colon r2]; [reflexivity|]. simpl in Hskip1.
    destruct (code colon =? 58)%N; [|reflexivity].
    rewrite (IHv r2 f f') by lia.
    destruct (parse_value f' r2) as [[v r3]|] eqn:Hval; simpl; [|reflexivity].
    apply (proj1 (parse_consumes f')) in Hval.
    pose proof (skip_json_ws_length r3) as Hskip3.
    destruct (skip_json_ws r3) as [|c r4]; [reflexivity|]. simpl in Hskip3.
    destruct (code c =? 44)%N; [|reflexivity].
    rewrite (IHm r4 f f') by lia. reflexivity.
Qed.

(** The fuel [JSON_parse] gives the parser is enough: more fuel gives the
    same value or the same failure. *)
Theorem JSON_parse_fuel_is_enough s f :
  2 * len s + 2 ≤ f → parse_value f s = parse_value (2 * len s + 2) s.
Proof.
  intros Hf. apply (proj1 (parse_fuel_stable (len s) s (le_n _))); lia.
Qed.

(** The same holds for the scanner of string literals. *)
Lemma parse_string_fuel_is_enough s f :
  len s < f → parse_string_body f s = parse_string s.
Proof. intros Hf. apply parse_string_body_fuel; lia. Qed.

(** * Further properties of the aggregator *)


(** ** Mortality counts *)

Lemma status_classes p :
  (if isDeceased p then 1 else 0) + (if isAlive p then 1 else 0)
  + (if isOtherStatus p then 1 else 0) = 1.
Proof.
  unfold isOtherStatus. unfold isDeceased, isAlive.
  destruct (Patient.mortality_status p) as [| |b|x|s|l|fs]; simpl; try reflexivity.
  - by destruct b.
  - by destruct (PrimFloat.eqb x 0 || PrimFloat.is_nan x).
  - destruct (String.eqb_spec s "deceased") as [->|_]; [reflexivity|].
    destruct (String.eqb_spec s "alive") as [->|_]; [reflexivity|].
    by destruct (String.eqb s "").
Qed.

Lemma filter_partition3 {A} (f1 f2 f3 : A → bool) (l : list A) :
  (∀ x, (if f1 x then 1 else 0) + (if f2 x then 1 else 0) + (if f3 x then 1 else 0) = 1) →
  length (List.filter f1 l) + length (List.filter f2 l) + length (List.filter f3 l) = length l.
Proof.
  intros Hone. induction l as [|x l IH]; [reflexivity|].
  specialize (Hone x). simpl.
  destruct (f1 x), (f2 x), (f3 x); simpl in *; lia.
Qed.

Lemma forEach_mortalityStep_counts ps : ∀ st st',
  forEach mortalityStep ps st = Ret st' →
  st'.1.2 = st.1.2 + length (List.filter (λ p, isDeceased p && isFailed p) ps)
  ∧ st'.2 = st.2 + length (List.filter (λ p, isDeceased p && isSuccess p) ps).
Proof.
  induction ps as [|p ps IH]; intros st st' Hrun.
  - simpl in Hrun. injection Hrun as <-. simpl. lia.
  - apply forEach_cons in Hrun as (st1 & Hstep & Hrest).
    apply IH in Hrest as [-> ->].
    assert (st1.1.2 = st.1.2 + (if isDeceased p && isFailed p then 1 else 0)
            ∧ st1.2 = st.2 + (if isDeceased p && isSuccess p then 1 else 0)) as [-> ->].
    { destruct st as [[causes fsd] ssd]. unfold mortalityStep in Hstep.
      destruct (isDeceased p); [|injection Hstep as <-; simpl; lia].
      assert (isFailed p = true → isSuccess p = false) as Hexcl.
      { unfold isFailed, isSuccess. destruct (Patient.surgery_outcome p); try done.
        simpl. intros ->%String.eqb_eq. reflexivity. }
      destruct (isFailed p) eqn:Hf; [rewrite (Hexcl eq_refl)|destruct (isSuccess p)].
      all: destruct (Patient.mortality_causes p);
        try (injection Hstep as <-; simpl; lia).
      all: destruct (forEach collectMortalityCause _ causes); simpl in Hstep;
        [injection Hstep as <-; simpl; lia|discriminate]. }
    simpl. destruct (isDeceased p && isFailed p), (isDeceased p && isSuccess p); simpl; lia.
Qed.

Lemma filter_and_le {A} (f g : A → bool) (l : list A) :
  length (List.filter (λ x, f x && g x) l) ≤ length (List.filter g l)
  ∧ length (List.filter (λ x, f x && g x) l) ≤ length (List.filter f l).
Proof.
  induction l as [|x l [IH1 IH2]]; [simpl; lia|]. simpl.
  destruct (f x), (g x); simpl; lia.
Qed.

Lemma filter_disjoint_le {A} (f g h : A → bool) (l : list A) :
  (∀ x, g x = true → h x = false) →
  length (List.filter (λ x, f x && g x) l) + length (List.filter (λ x, f x && h x) l)
  ≤ length (List.filter f l).
Proof.
  intros Hexcl. induction l as [|x l IH]; [simpl; lia|]. simpl.
  specialize (Hexcl x).
  destruct (f x), (g x), (h x); simpl in *; first [lia | by specialize (Hexcl eq_refl)].
Qed.

(** In every summary the aggregator returns, the deceased, the alive and
    the patients whose status is some other truthy value add up to
    [total_patients]; the deaths after a failed surgery are the deceased
    patients with outcome [failure], those after a successful one the
    deceased with outcome [success]; so neither exceeds its outcome count,
    and together they do not exceed the number of deceased patients. *)
Theorem mortality_counts nts ps stats ms ex a :
  generateEnhancedPatientAnalytics nts ps stats ms ex = Ret a →
  deceased_patients (mortality_analytics a) + alive_patients (mortality_analytics a)
  + length (List.filter isOtherStatus ps) = total_patients a
  ∧ failed_surgery_deaths (mortality_analytics a)
    = length (List.filter (λ p, isDeceased p && isFailed p) ps)
  ∧ success_surgery_deaths (mortality_analytics a)
    = length (List.filter (λ p, isDeceased p && isSuccess p) ps)
  ∧ failed_surgery_deaths (mortality_analytics a) ≤ failed (surgery_outcomes a)
  ∧ success_surgery_deaths (mortality_analytics a) ≤ successful (surgery_outcomes a)
  ∧ failed_surgery_deaths (mortality_analytics a) + success_surgery_deaths (mortality_analytics a)
    ≤ deceased_patients (mortality_analytics a).
Proof.
  intros Hrun. destruct (decide (ps = [])) as [->|Hne].
  { rewrite generate_empty in Hrun. injection Hrun as <-. simpl. repeat split; lia. }
  apply generate_nonempty in Hrun
    as (causes & fsd & ssd & counts & high & cols & Hm & _ & _ & _ & rd & avg & _ & _ & ->); [|done].
  apply forEach_mortalityStep_counts in Hm as [Hf Hs].
  cbn [fst snd] in Hf, Hs. rewrite Nat.add_0_l in Hf, Hs. subst fsd ssd.
  cbn [mortality_analytics surgery_outcomes deceased_patients alive_patients
       failed_surgery_deaths success_surgery_deaths total_patients surgeryOutcomesOf
       failed successful].
  split; [apply filter_partition3, status_classes|].
  split; [reflexivity|]. split; [reflexivity|].
  split; [apply filter_and_le|]. split; [apply filter_and_le|].
  apply filter_disjoint_le. intros p. unfold isFailed, isSuccess.
  destruct (Patient.surgery_outcome p); try done. simpl. by intros ->%String.eqb_eq.
Qed.

(** The counts on one deceased patient with a failed surgery. *)
Lemma mortality_counts_witness :
  ∃ a, generateEnhancedPatientAnalytics noDigits
         [deceasedPatient [] [JStr "sepsis"] []; samplePatient "success" "alive" 0 []]
         zeroStats (JArr []) JUndefined = Ret a
       ∧ failed_surgery_deaths (mortality_analytics a) ≤ failed (surgery_outcomes a).
Proof.
  run_sample a Hrun.
  apply (mortality_counts _ _ _ _ _ _ Hrun).
Defined.

(** ** The failure-cause table as a tally *)

Lemma countFailureCause_clean table cause :
  countFailureCause table cause
  = match cleanFailureCause cause with Some t => bump t table | None => table end.
Proof.
  unfold countFailureCause, cleanFailureCause.
  destruct cause as [| |b|x|s|l|fs]; try reflexivity.
  destruct (String.eqb (trim s) "") eqn:Hblank.
  - cbn [negb andb]. by rewrite andb_false_r.
  - assert (truthy (JStr s) = true) as ->.
    { simpl. apply trim_nonempty_arg in Hblank.
      destruct (String.eqb_spec s "") as [->|]; [done|reflexivity]. }
    cbn [negb andb]. rewrite andb_true_r.
    by destruct (negb (String.eqb (trim s) "null")),
                (negb (String.eqb (trim s) "undefined")).
Qed.

Lemma fold_bump_omap {A} (tok : A → option string) l : ∀ table,
  fold_left (λ m c, match tok c with Some t => bump t m | None => m end) l table
  = fold_left (λ m t, bump t m) (omap tok l) table.
Proof.
  induction l as [|c l IH]; intros table; [reflexivity|].
  simpl. rewrite IH. by destruct (tok c).
Qed.

Lemma forEach_fold {A S} (body : S → A → result S) (g : S → A → S) :
  (∀ s x s', body s x = Ret s' → s' = g s x) →
  ∀ l s s', forEach body l s = Ret s' → s' = fold_left g l s.
Proof.
  intros Hstep. induction l as [|x l IH]; intros s s' Hrun; simpl in *.
  - by injection Hrun as <-.
  - destruct (body s x) as [s1|e] eqn:Hx; [|discriminate].
    apply Hstep in Hx as ->. by apply IH.
Qed.

Lemma fold_countFailureCause causes : ∀ table,
  fold_left countFailureCause causes table
  = fold_left (λ m t, bump t m) (omap cleanFailureCause causes) table.
Proof.
  induction causes as [|c causes IH]; intros table; [reflexivity|].
  simpl. rewrite IH, countFailureCause_clean.
  by destruct (cleanFailureCause c).
Qed.

Lemma extractFailureCauses_tally ps :
  extractFailureCauses ps = mortalityCauseFreqOf (failureCauseTokens ps).
Proof.
  unfold extractFailureCauses, mortalityCauseFreqOf, failureCauseTokens.
  generalize (∅ : gmap string Entry).
  induction ps as [|p ps IH]; intros table; [reflexivity|].
  simpl. rewrite fold_left_app, <- IH. f_equal.
  unfold isFailed. destruct (is_str _ "failure" && _); [|reflexivity].
  apply fold_countFailureCause.
Qed.

Lemma fold_bump_snoc l t (table : gmap string Entry) :
  fold_left (λ m t, bump t m) (l ++ [t]) table = bump t (fold_left (λ m t, bump t m) l table).
Proof. by rewrite fold_left_app. Qed.

Lemma occurrences_snoc k l t :
  occurrences k (l ++ [t]) = occurrences k l + (if String.eqb k t then 1 else 0).
Proof.
  unfold occurrences. rewrite List.filter_app, length_app. simpl.
  by destruct (String.eqb k t).
Qed.

(** A table built by counting from the empty one holds, for each key, its
    tally. *)
Lemma tally_lookup l k : fold_left (λ m t, bump t m) l ∅ !! k = tally k l.
Proof.
  induction l as [|t l IH] using rev_ind.
  - unfold tally. simpl. rewrite lookup_empty. by destruct (String.eqb k "__proto__").
  - rewrite fold_bump_snoc. revert IH. unfold tally. rewrite occurrences_snoc.
    generalize (fold_left (λ m t, bump t m) l ∅). intros table IH.
    destruct (String.eqb_spec k t) as [<-|Hne].
    + destruct (String.eqb_spec k "__proto__") as [->|Hproto]; [exact IH|].
      rewrite bump_lookup_eq, IH by done. rewrite Nat.add_1_r.
      destruct (occurrences k l); [reflexivity|]. by destruct (isObjectMember k).
    + rewrite bump_lookup_ne, IH, Nat.add_0_r by done. reflexivity.
Qed.

Lemma tally_nil k : tally k [] = None.
Proof. unfold tally. by destruct (String.eqb k "__proto__"). Qed.

Lemma tally_stored k l : tally k (storedNames l) = tally k l.
Proof.
  unfold tally. destruct (String.eqb_spec k "__proto__") as [|Hk]; [reflexivity|].
  assert (occurrences k (storedNames l) = occurrences k l) as ->; [|reflexivity].
  unfold occurrences, storedNames. induction l as [|t l IH]; [reflexivity|]. simpl.
  destruct (String.eqb_spec t "__proto__") as [->|Ht]; simpl.
  - destruct (String.eqb_spec k "__proto__") as [|_]; [done|exact IH].
  - destruct (String.eqb k t); simpl; by rewrite IH.
Qed.

Lemma tally_head t l : t ≠ "__proto__" → is_Some (tally t (t :: l)).
Proof.
  intros Ht. unfold tally, occurrences. simpl. rewrite String.eqb_refl. simpl.
  destruct (String.eqb_spec t "__proto__") as [|_]; [done|]. by eexists.
Qed.

Lemma storedNames_head t l : t ∈ storedNames l → t ≠ "__proto__".
Proof.
  unfold storedNames. rewrite list_elem_of_In, List.filter_In.
  intros [_ Ht] ->. discriminate.
Qed.

(** [extractFailureCauses] holds, for every key, the tally of the causes
    of the patients with a failed surgery that are strings whose trimmed
    form is that key, the keys [null], [undefined] and the empty one
    apart: a count for an ordinary key, nothing for a key that no such
    cause gives and nothing for [__proto__], and for a key that names a
    member of [Object.prototype], such as [constructor], not a count but
    a string.  Patients whose surgery did not fail change nothing. *)
Theorem failure_causes_tally ps k :
  extractFailureCauses ps !! k = tally k (failureCauseTokens ps)
  ∧ (k ≠ "__proto__" → isObjectMember k = false →
     extractFailureCauses ps !! k
     = match occurrences k (failureCauseTokens ps) with
       | 0 => None
       | S n => Some (Count (S n))
       end)
  ∧ extractFailureCauses ps !! "__proto__" = None
  ∧ extractFailureCauses [deceasedPatient [JStr "__proto__"] [] []] = ∅
  ∧ extractFailureCauses [deceasedPatient [JStr "constructor"; JStr " constructor"] [] []]
    = {[ "constructor" := MemberText 2 ]}
  ∧ extractFailureCauses ps = extractFailureCauses (List.filter isFailed ps)
  ∧ (∀ nts stats ms ex a,
       generateEnhancedPatientAnalytics nts ps stats ms ex = Ret a →
       failure_causes a = extractFailureCauses ps).
Proof.
  split; [|split; [|split; [|split; [|split; [|split]]]]].
  - rewrite extractFailureCauses_tally. apply tally_lookup.
  - intros Hk%String.eqb_neq Hmember.
    rewrite extractFailureCauses_tally. unfold mortalityCauseFreqOf.
    rewrite tally_lookup. unfold tally. by rewrite Hk, Hmember.
  - rewrite extractFailureCauses_tally. unfold mortalityCauseFreqOf.
    by rewrite tally_lookup.
  - vm_compute. reflexivity.
  - vm_compute. reflexivity.
  - rewrite !extractFailureCauses_tally. f_equal. unfold failureCauseTokens.
    induction ps as [|p ps IH]; [reflexivity|]. simpl.
    destruct (isFailed p) eqn:Hf; simpl; [by rewrite Hf, IH|exact IH].
  - intros nts stats ms ex a Hrun. destruct (decide (ps = [])) as [->|Hne].
    + rewrite generate_empty in Hrun. by injection Hrun as <-.
    + by apply generate_nonempty in Hrun as (? & ? & ? & ? & ? & ? & _ & _ & _ & _ & ? & ? & _ & _ & ->).
Qed.

Lemma failure_causes_tally_witness :
  extractFailureCauses
    [deceasedPatient [JStr " Infection "; JStr "null"; JStr "Infection"; JNum 3] [] []]
  !! "Infection" = Some (Count 2).
Proof.
  rewrite (proj1 (failure_causes_tally _ "Infection")). reflexivity.
Defined.

(** ** High-risk entries *)

(** Every entry of [high_risk_comorbidities] is the entry of a key of
    [most_common_comorbidities], and its rate is above 20; a rate of
    exactly 20, as for one deceased among five, is left out. *)
Theorem high_risk_entries :
  (∀ nts ps stats ms ex a name rate,
     generateEnhancedPatientAnalytics nts ps stats ms ex = Ret a →
     high_risk_comorbidities (mortality_analytics a) !! name = Some rate →
     is_Some (most_common_comorbidities a !! name) ∧ PrimFloat.ltb 20 rate = true)
  ∧ (∀ nts stats ex, ∃ a,
       generateEnhancedPatientAnalytics nts
         (List.map (λ status, samplePatient "success" status 1 ["Asthma"])
                   ["deceased"; "alive"; "alive"; "alive"; "alive"])
         stats (JArr []) ex = Ret a
       ∧ most_common_comorbidities a = {[ "Asthma" := Count 5 ]}
       ∧ high_risk_comorbidities (mortality_analytics a) = ∅).
Proof.
  split.
  - intros nts ps stats ms ex a name rate Hrun Hrate.
    destruct (decide (ps = [])) as [->|Hne].
    { rewrite generate_empty in Hrun. injection Hrun as <-. simpl in Hrate.
      by rewrite lookup_empty in Hrate. }
    apply generate_nonempty in Hrun
      as (causes & fsd & ssd & counts & high & cols & _ & _ & Hh & _ & rd & avg & _ & _ & ->); [|done].
    simpl in *. destruct (highRiskComorbiditiesOf_lookup _ _ _ name Hh) as [Hin Hout].
    destruct (counts !! name) as [n|] eqn:Hkey.
    + split; [by eexists|].
      destruct Hin as (withName & _ & Hlookup); [by eexists|].
      rewrite Hrate in Hlookup.
      destruct (negb (String.eqb name "__proto__")); simpl in Hlookup; [|discriminate].
      destruct (0 <? length withName); simpl in Hlookup; [|discriminate].
      destruct (PrimFloat.ltb 20 _) eqn:Hlt; [|discriminate].
      by injection Hlookup as ->.
    + rewrite (Hout eq_refl) in Hrate. discriminate.
  - intros nts stats ex. eexists. split; [vm_compute; reflexivity|].
    split; vm_compute; reflexivity.
Qed.

(** The entry for Diabetes among the five sample patients. *)
Lemma high_risk_entries_witness :
  ∃ a, generateEnhancedPatientAnalytics noDigits diabetesPatients zeroStats (JArr []) JUndefined
       = Ret a
       ∧ is_Some (most_common_comorbidities a !! "Diabetes").
Proof.
  run_sample a Hrun.
  apply (proj1 high_risk_entries noDigits diabetesPatients zeroStats (JArr []) JUndefined a
           "Diabetes" 40%float Hrun).
  vm_compute in Hrun. injection Hrun as <-. vm_compute. reflexivity.
Defined.

(** ** The tables of comorbidities and columns as tallies *)

Lemma countConcern_token counts concern counts' :
  countConcern counts concern = Ret counts' →
  counts' = match concernToken concern with Some t => bump t counts | None => counts end.
Proof.
  assert (∀ s, (if truthy (JStr s)
                then cleanName ← call_trim (JStr s);
                     if negb (String.eqb cleanName "") then Ret (bump cleanName counts)
                     else Ret counts
                else Ret counts) = Ret counts' →
               counts' = if String.eqb (trim s) "" then counts else bump (trim s) counts)
    as Hstring.
  { intros s. cbn [truthy call_trim mbind result_bind].
    destruct (String.eqb_spec s "") as [->|Hs]; cbn [negb].
    - rewrite trim_empty. by intros [= <-].
    - destruct (String.eqb (trim s) ""); cbn [negb]; by intros [= <-]. }
  unfold countConcern, concernToken.
  destruct concern as [| |b|x|s|l|fs]; cbn [typeof_string typeof_object get_opt].
  - by intros [= <-].
  - by intros [= <-].
  - rewrite andb_false_r. by intros [= <-].
  - rewrite andb_false_r. by intros [= <-].
  - intros Hrun. apply Hstring in Hrun as ->. by destruct (String.eqb (trim s) "").
  - by intros [= <-].
  - cbn [truthy andb].
    destruct (lookup_field "comorbidity" fs) as [| |b|x|s|l|fs'] eqn:Hf;
      try (by intros [= <-]); try discriminate.
    + destruct b; [discriminate|by intros [= <-]].
    + cbn [truthy]. destruct (negb _) eqn:Hx.
      * cbn [truthy]. rewrite Hx. discriminate.
      * by intros [= <-].
    + destruct (truthy (JStr s)) eqn:Ht.
      * intros Hrun. cbv iota in Hrun. apply Hstring in Hrun as ->.
        by destruct (String.eqb (trim s) "").
      * cbn [truthy String.eqb negb]. intros [= <-]. cbn [truthy] in Ht.
        destruct (String.eqb_spec s "") as [->|]; [|discriminate].
        by rewrite trim_empty.
Qed.

Lemma forEach_countConcerns_tally ps : ∀ counts counts',
  forEach countConcerns ps counts = Ret counts' →
  counts' = fold_left (λ m t, bump t m) (concernTokens ps) counts.
Proof.
  induction ps as [|p ps IH]; intros counts counts' Hrun; simpl in Hrun.
  - by injection Hrun as <-.
  - destruct (countConcerns counts p) as [c1|e] eqn:Hp; [|discriminate].
    cbn [mbind result_bind] in Hrun. apply IH in Hrun as ->.
    unfold concernTokens. cbn [flat_map]. rewrite fold_left_app. f_equal.
    unfold countConcerns in Hp. destruct (Patient.primary_concerns p); try (by injection Hp as <-).
    rewrite <- fold_bump_omap.
    by apply (forEach_fold countConcern
                (λ m c, match concernToken c with Some t => bump t m | None => m end)
                countConcern_token).
Qed.

Lemma countMatchField_token field counts m counts' :
  countMatchField field counts m = Ret counts' →
  counts' = match matchToken field m with Some t => bump t counts | None => counts end.
Proof.
  unfold countMatchField, matchToken.
  destruct m as [| |b|x|s|l|fs]; cbn [get mbind result_bind truthy];
    try discriminate; try (by intros [= <-]).
  destruct (lookup_field field fs) as [| |b|x|s|l|fs'];
    cbn [truthy call_trim mbind result_bind]; try discriminate; try (by intros [= <-]).
  - destruct b; [discriminate|by intros [= <-]].
  - destruct (negb _); [discriminate|by intros [= <-]].
  - destruct (String.eqb_spec s "") as [->|Hs]; cbn [negb].
    + rewrite trim_empty. by intros [= <-].
    + destruct (String.eqb (trim s) ""); cbn [negb]; by intros [= <-].
Qed.

Lemma forEachMatch_tally field ms counts :
  forEachMatch field (JArr ms) ∅ = Ret counts →
  ∀ k, counts !! k = tally k (omap (matchToken field) ms).
Proof.
  intros Hrun k. cbn [forEachMatch] in Hrun.
  apply (forEach_fold _ _ (countMatchField_token field)) in Hrun as ->.
  rewrite (fold_bump_omap (matchToken field)). apply tally_lookup.
Qed.

Lemma keys_empty_iff (table : gmap string Entry) :
  Nat.eqb (length (keys table)) 0 = true ↔ ∀ k, table !! k = None.
Proof.
  rewrite Nat.eqb_eq, length_zero_iff_nil. split.
  - intros Hnil k. destruct (table !! k) as [n|] eqn:Hk; [|reflexivity].
    assert (k ∈ keys table) as Hin by (apply elem_of_keys; by eexists).
    rewrite Hnil in Hin. by apply elem_of_nil in Hin.
  - intros Hnone. destruct (keys table) as [|k l] eqn:Hkeys; [reflexivity|].
    assert (k ∈ keys table) as Hin by (rewrite Hkeys; left).
    apply elem_of_keys in Hin as [n Hn]. by rewrite Hnone in Hn.
Qed.

(** For a run over at least one patient that returns, the matches are an
    array (or were not given); [most_common_comorbidities] holds the tally
    of the names of the patients' concerns, each under its trimmed form,
    and only when the concerns give no name that the table keeps, none at
    all or [__proto__] alone, does it hold the tally of the
    [comorbidity_name] of the matches instead, each as it stands;
    [most_effective_columns] holds the tally of the [column_name] of the
    matches, as it stands.  So one patient whose only concern is
    [__proto__], with one match named FromMatch, gives the table with
    FromMatch counted once. *)
Theorem comorbidity_and_column_tables nts ps stats ms ex a :
  ps ≠ [] →
  generateEnhancedPatientAnalytics nts ps stats ms ex = Ret a →
  (∃ matches,
    (ms = JArr matches ∨ ms = JUndefined ∧ matches = [])
    ∧ (∀ k, most_common_comorbidities a !! k
            = tally k (match storedNames (concernTokens ps) with
                       | [] => omap (matchToken "comorbidity_name") matches
                       | names => names
                       end))
    ∧ (∀ k, most_effective_columns a !! k
            = tally k (omap (matchToken "column_name") matches)))
  ∧ (∃ b, generateEnhancedPatientAnalytics nts [deceasedPatient [] [] [JStr "__proto__"]] stats
            (JArr [JObj [("comorbidity_name", JStr "FromMatch")]]) ex = Ret b
          ∧ most_common_comorbidities b = {[ "FromMatch" := Count 1 ]}).
Proof.
  intros Hne Hrun. split; [|eexists; split; vm_compute; reflexivity].
  apply generate_nonempty in Hrun
    as (causes & fsd & ssd & counts & high & cols & _ & Hc & _ & Hcol & rd & avg & _ & _ & ->); [|done].
  cbn [most_common_comorbidities most_effective_columns].
  set (ms' := match ms with JUndefined => JArr [] | _ => ms end) in *.
  assert (∃ matches, ms' = JArr matches
                     ∧ (ms = JArr matches ∨ ms = JUndefined ∧ matches = []))
    as (matches & Hms' & Hms).
  { subst ms'. destruct ms as [| |b|x|s|l|fs]; try discriminate.
    - exists []. split; [reflexivity|by right].
    - exists l. split; [reflexivity|by left]. }
  exists matches. split; [exact Hms|]. rewrite Hms' in Hc, Hcol. clear Hms Hms' ms'.
  split; [|by apply forEachMatch_tally].
  intros k. unfold comorbidityCountsOf in Hc.
  destruct (forEach countConcerns ps ∅) as [counts0|e] eqn:H0; [|discriminate].
  cbn [mbind result_bind] in Hc.
  pose proof (forEach_countConcerns_tally _ _ _ H0) as Hcounts0.
  destruct (Nat.eqb (length (keys counts0)) 0) eqn:Hkeys.
  - pose proof (proj1 (keys_empty_iff _) Hkeys) as Hnone. clear Hkeys. rename Hnone into Hkeys.
    assert (storedNames (concernTokens ps) = []) as ->.
    { destruct (storedNames (concernTokens ps)) as [|t l] eqn:Htok; [reflexivity|].
      assert (t ≠ "__proto__") as Ht by (apply (storedNames_head t (concernTokens ps));
                                       rewrite Htok; left).
      destruct (tally_head t l Ht) as [n Hn].
      rewrite <- Htok, tally_stored, <- tally_lookup, <- Hcounts0, Hkeys in Hn. discriminate. }
    cbn [lengthPositive mbind result_bind] in Hc.
    destruct matches as [|m matches'].
    + cbn in Hc. injection Hc as <-. rewrite Hkeys. symmetry. apply tally_nil.
    + cbn [length Nat.eqb negb] in Hc.
      assert (counts0 = ∅) as -> by (apply map_eq; intros j; by rewrite Hkeys, lookup_empty).
      by apply forEachMatch_tally.
  - injection Hc as <-. rewrite Hcounts0, tally_lookup, <- tally_stored.
    destruct (storedNames (concernTokens ps)) as [|t l] eqn:Htok; [|reflexivity].
    exfalso. assert (Nat.eqb (length (keys counts0)) 0 = true); [|congruence].
    apply keys_empty_iff. intros j. rewrite Hcounts0, tally_lookup, <- tally_stored, Htok.
    apply tally_nil.
Qed.

Lemma comorbidity_and_column_tables_witness :
  ∃ a, generateEnhancedPatientAnalytics noDigits diabetesPatients zeroStats (JArr []) JUndefined
       = Ret a
       ∧ most_common_comorbidities a !! "Diabetes" = Some (Count 5).
Proof.
  run_sample a Hrun.
  destruct (comorbidity_and_column_tables noDigits diabetesPatients zeroStats (JArr [])
              JUndefined a ltac:(discriminate) Hrun) as [(matches & _ & Hcounts & _) _].
  rewrite Hcounts. reflexivity.
Defined.

(** ** The mortality causes as a tally *)

Lemma collectMortalityCause_token causes cause causes' :
  collectMortalityCause causes cause = Ret causes' →
  causes' = (causes ++ option_list (mortalityCauseToken cause))%list.
Proof.
  unfold collectMortalityCause, mortalityCauseToken.
  destruct cause as [| |b|x|s|l|fs]; cbn [truthy call_trim mbind result_bind is_str];
    try discriminate; try (intros [= <-]; by rewrite app_nil_r).
  - destruct b; [discriminate|intros [= <-]; by rewrite app_nil_r].
  - destruct (negb _); [discriminate|intros [= <-]; by rewrite app_nil_r].
  - destruct (String.eqb_spec s "") as [->|Hs]; cbn [negb].
    + rewrite trim_empty. intros [= <-]. by rewrite app_nil_r.
    + destruct (negb (String.eqb (trim s) "") && negb (String.eqb s "null"));
        intros [= <-]; [reflexivity|by rewrite app_nil_r].
Qed.

Lemma forEach_collectMortalityCause l : ∀ causes causes',
  forEach collectMortalityCause l causes = Ret causes' →
  causes' = (causes ++ omap mortalityCauseToken l)%list.
Proof.
  induction l as [|c l IH]; intros causes causes' Hrun; simpl in Hrun.
  - injection Hrun as <-. by rewrite app_nil_r.
  - destruct (collectMortalityCause causes c) as [c1|e] eqn:Hc; [|discriminate].
    cbn [mbind result_bind] in Hrun. apply IH in Hrun as ->.
    apply collectMortalityCause_token in Hc as ->.
    rewrite <- app_assoc. f_equal. cbn [omap list_omap].
    by destruct (mortalityCauseToken c).
Qed.

Lemma forEach_mortalityStep_causes ps : ∀ causes0 f0 s0 causes fsd ssd,
  forEach mortalityStep ps (causes0, f0, s0) = Ret (causes, fsd, ssd) →
  causes = (causes0 ++ mortalityCauseTokens ps)%list.
Proof.
  induction ps as [|p ps IH]; intros causes0 f0 s0 causes fsd ssd Hrun; cbn [forEach] in Hrun.
  - assert (causes = causes0) as -> by congruence. by rewrite app_nil_r.
  - destruct (mortalityStep (causes0, f0, s0) p) as [[[c1 f1] s1]|e] eqn:Hp; [|discriminate].
    cbn [mbind result_bind] in Hrun. apply IH in Hrun as ->.
    unfold mortalityCauseTokens. cbn [flat_map]. rewrite app_assoc. f_equal.
    unfold mortalityStep in Hp. destruct (isDeceased p).
    + destruct (if isFailed p then _ else _) as [f' s'].
      destruct (Patient.mortality_causes p) as [| |b|x|s|l|fs];
        try (assert (c1 = causes0) as -> by congruence; by rewrite app_nil_r).
      destruct (forEach collectMortalityCause l causes0) as [c2|e] eqn:Hl; [|discriminate].
      cbn [mbind result_bind] in Hp. assert (c1 = c2) as -> by congruence.
      by apply forEach_collectMortalityCause.
    + assert (c1 = causes0) as -> by congruence. by rewrite app_nil_r.
Qed.

(** [mortality_causes] holds the tally of the causes of the deceased
    patients whose [mortality_causes] is an array, each under its trimmed
    form: a count for an ordinary key, nothing for [__proto__], which the
    table never stores, and a string for a key that names a member of
    [Object.prototype].  Empty causes and the string [null] are not
    collected, patients who are not deceased give nothing, and a padded
    [ null ] is counted, under the key [null]. *)
Theorem mortality_causes_tally :
  (∀ nts ps stats ms ex a k,
     generateEnhancedPatientAnalytics nts ps stats ms ex = Ret a →
     mortality_causes (mortality_analytics a) !! k = tally k (mortalityCauseTokens ps))
  ∧ (∀ nts ps stats ms ex a k,
       generateEnhancedPatientAnalytics nts ps stats ms ex = Ret a →
       k ≠ "__proto__" → isObjectMember k = false →
       mortality_causes (mortality_analytics a) !! k
       = match occurrences k (mortalityCauseTokens ps) with
         | 0 => None
         | S n => Some (Count (S n))
         end)
  ∧ (∀ nts ps stats ms ex a,
       generateEnhancedPatientAnalytics nts ps stats ms ex = Ret a →
       mortality_causes (mortality_analytics a) !! "__proto__" = None)
  ∧ (∀ nts stats ex, ∃ a,
       generateEnhancedPatientAnalytics nts
         [deceasedPatient [] [JStr "__proto__"; JStr "valueOf"] []] stats (JArr []) ex = Ret a
       ∧ mortality_causes (mortality_analytics a) = {[ "valueOf" := MemberText 1 ]})
  ∧ (∀ ps, mortalityCauseTokens ps = mortalityCauseTokens (List.filter isDeceased ps))
  ∧ mortalityCauseTokens
      [deceasedPatient [] [JStr "null"; JStr " null "; JStr " Sepsis"; JStr ""; JStr "Sepsis"] []]
    = ["null"; "Sepsis"; "Sepsis"].
Proof.
  assert (∀ nts ps stats ms ex a k,
     generateEnhancedPatientAnalytics nts ps stats ms ex = Ret a →
     mortality_causes (mortality_analytics a) !! k = tally k (mortalityCauseTokens ps)) as Htally;
    [|split; [exact Htally|split; [|split; [|split; [|split]]]]].
  - intros nts ps stats ms ex a k Hrun. destruct (decide (ps = [])) as [->|Hne].
    + rewrite generate_empty in Hrun. injection Hrun as <-.
      cbn [mortalityCauseTokens flat_map emptyAnalytics mortality_analytics mortality_causes].
      by rewrite lookup_empty, tally_nil.
    + apply generate_nonempty in Hrun
        as (causes & fsd & ssd & counts & high & cols & Hm & _ & _ & _ & rd & avg & _ & _ & ->); [|done].
      cbn [mortality_analytics mortality_causes].
      apply forEach_mortalityStep_causes in Hm as ->.
      apply tally_lookup.
  - intros nts ps stats ms ex a k Hrun Hk%String.eqb_neq Hmember.
    rewrite (Htally _ _ _ _ _ _ k Hrun). unfold tally. by rewrite Hk, Hmember.
  - intros nts ps stats ms ex a Hrun. by rewrite (Htally _ _ _ _ _ _ _ Hrun).
  - intros nts stats ex. eexists. split; vm_compute; reflexivity.
  - intros ps. unfold mortalityCauseTokens. induction ps as [|p ps IH]; [reflexivity|].
    simpl. destruct (isDeceased p) eqn:Hd; simpl; [by rewrite Hd, IH|exact IH].
  - vm_compute. reflexivity.
Qed.

Lemma mortality_causes_tally_witness :
  ∃ a, generateEnhancedPatientAnalytics noDigits
         [deceasedPatient [] [JStr " Sepsis"; JStr "Sepsis"; JStr "null"] []]
         zeroStats (JArr []) JUndefined = Ret a
       ∧ mortality_causes (mortality_analytics a) !! "Sepsis" = Some (Count 2).
Proof.
  run_sample a Hrun.
  rewrite (proj1 mortality_causes_tally _ _ _ _ _ _ "Sepsis" Hrun). reflexivity.
Defined.

(** ** Normalised patients *)

Lemma js_or_idem x d : js_or (js_or x d) d = js_or x d.
Proof. unfold js_or. destruct (truthy x) eqn:Hx; [by rewrite Hx|by destruct (truthy d)]. Qed.

Lemma normalizeMortalityStatus_truthy raw :
  normalizeMortalityStatus raw = if truthy raw then raw else JStr "alive".
Proof.
  unfold normalizeMortalityStatus.
  destruct raw as [| |b|x|s|l|fs]; simpl; try reflexivity.
  - by destruct b.
  - by destruct (PrimFloat.eqb x 0 || PrimFloat.is_nan x).
  - by destruct (String.eqb s "").
Qed.

Lemma normalize_idem raw d :
  truthy d = true →
  (if truthy (if truthy raw then raw else d) then (if truthy raw then raw else d) else d)
  = if truthy raw then raw else d.
Proof. intros Hd. destruct (truthy raw) eqn:Hraw; [by rewrite Hraw|by rewrite Hd]. Qed.

Lemma transformPatient_fields patient p :
  transformPatient patient = Ret p →
  ∃ failureCauses primaryConcerns mortalityCauses,
    safeParseJSONArray (get_opt patient "failure_causes") [] = Ret failureCauses
    ∧ safeParseJSONArray (get_opt patient "primary_concerns") [] = Ret primaryConcerns
    ∧ safeParseJSONArray (get_opt patient "mortality_causes") [] = Ret mortalityCauses
    ∧ p = {|
        Patient.patient_id := get_opt patient "patient_id";
        Patient.total_comorbidities := js_or (get_opt patient "total_comorbidities") (JNum 0);
        Patient.highest_confidence := js_or (get_opt patient "highest_confidence") (JNum 0);
        Patient.comorbidity_summary := js_or (get_opt patient "comorbidity_summary") (JStr "");
        Patient.surgery_outcome := normalizeSurgeryOutcome (get_opt patient "surgery_outcome");
        Patient.failure_causes := JArr failureCauses;
        Patient.primary_concerns := JArr primaryConcerns;
        Patient.comprehensive_summary := js_or (get_opt patient "comprehensive_summary") (JStr "");
        Patient.columns_analyzed := js_or (get_opt patient "columns_analyzed") (JNum 0);
        Patient.mortality_status := normalizeMortalityStatus (get_opt patient "mortality_status");
        Patient.mortality_confidence := js_or (get_opt patient "mortality_confidence") (JNum 0);
        Patient.mortality_causes := JArr mortalityCauses;
        Patient.time_of_death := js_or (get_opt patient "time_of_death") JNull
      |}.
Proof.
  intros Hp. unfold transformPatient in Hp.
  destruct patient as [| |b|x|s|l|fs]; try discriminate;
    cbn [get get_opt mbind result_bind fmap result_fmap] in *.
  all: repeat match type of Hp with
       | context [safeParseJSONArray ?v []] =>
         let H := fresh "Hparse" in
         destruct (safeParseJSONArray v []) eqn:H; cbn [mbind result_bind] in Hp;
         [|discriminate]
       end.
  all: injection Hp as <-; eexists _, _, _; repeat split; eassumption.
Qed.

(** A normalised patient is a fixed point of the normalisation: sent
    through the [map] callback again, as the object it is, it comes back
    unchanged.  Its mortality status is the raw one when that is truthy and
    [alive] otherwise, so it and the surgery outcome are never empty or
    missing, and the three list fields are arrays. *)
Theorem normalisation_is_idempotent patient p :
  transformPatient patient = Ret p →
  transformPatient (patientToJs p) = Ret p
  ∧ Patient.mortality_status p
    = (if truthy (get_opt patient "mortality_status")
       then get_opt patient "mortality_status" else JStr "alive")
  ∧ truthy (Patient.mortality_status p) = true
  ∧ truthy (Patient.surgery_outcome p) = true
  ∧ isArray (Patient.failure_causes p) && isArray (Patient.primary_concerns p)
    && isArray (Patient.mortality_causes p) = true.
Proof.
  intros Hp.
  apply transformPatient_fields in Hp as (fc & pc & mc & _ & _ & _ & ->).
  cbn [Patient.mortality_status Patient.surgery_outcome Patient.failure_causes
       Patient.primary_concerns Patient.mortality_causes isArray andb].
  rewrite normalizeMortalityStatus_truthy, normalizeSurgeryOutcome_truthy.
  split; [|split; [reflexivity|split; [|split; [|reflexivity]]]].
  - unfold transformPatient, patientToJs.
    cbn [get lookup_field String.eqb Ascii.eqb Bool.eqb andb mbind result_bind fmap result_fmap
         safeParseJSONArray Patient.patient_id Patient.total_comorbidities
         Patient.highest_confidence Patient.comorbidity_summary Patient.surgery_outcome
         Patient.failure_causes Patient.primary_concerns Patient.comprehensive_summary
         Patient.columns_analyzed Patient.mortality_status Patient.mortality_confidence
         Patient.mortality_causes Patient.time_of_death].
    rewrite !js_or_idem, normalizeMortalityStatus_truthy, normalizeSurgeryOutcome_truthy.
    by rewrite !normalize_idem.
  - by destruct (truthy (get_opt patient "mortality_status")) eqn:Hs.
  - by destruct (truthy (get_opt patient "surgery_outcome")) eqn:Hs.
Qed.

Lemma normalisation_is_idempotent_witness :
  ∃ p, transformPatient (rawPatient (JStr "") JNull (JStr "Diabetes, Asthma")) = Ret p
       ∧ transformPatient (patientToJs p) = Ret p
       ∧ Patient.mortality_status p = JStr "alive".
Proof.
  destruct (transformPatient (rawPatient (JStr "") JNull (JStr "Diabetes, Asthma")))
    as [p|e] eqn:Hp; [|vm_compute in Hp; discriminate].
  exists p. split; [reflexivity|].
  destruct (normalisation_is_idempotent _ p Hp) as (Hidem & Hstatus & _).
  split; [exact Hidem|]. rewrite Hstatus. reflexivity.
Defined.

(** ** The transformed payload *)

Lemma mapM_transformPatient raw : ∀ ps,
  mapM transformPatient raw = Ret ps → Forall2 (λ r p, transformPatient r = Ret p) raw ps.
Proof.
  induction raw as [|r raw IH]; intros ps Hmap.
  - injection Hmap as <-. constructor.
  - cbn [mapM] in Hmap. destruct (transformPatient r) as [p|e] eqn:Hr; [|discriminate].
    cbn [mbind result_bind] in Hmap.
    destruct (mapM transformPatient raw) as [ps'|e] eqn:Hraw; [|discriminate].
    injection Hmap as <-. constructor; [exact Hr|by apply IH].
Qed.

(** When the transformation succeeds and carries patient summaries, the
    backend's [patient_summaries] was an array, the summaries are its
    elements normalised one by one, in order, and the analytics are those
    of the summaries, [total_patients] being the length of the backend's
    array; without patient summaries there are analytics, the empty ones,
    only when the format is [enhanced]. *)
Theorem transformed_patients nts backendData format d :
  transformJobResultsForFrontend nts backendData format = Transformed d →
  match patient_summaries d with
  | Some ps =>
    ∃ raw a,
      get backendData "patient_summaries" = Ret (JArr raw)
      ∧ Forall2 (λ r p, transformPatient r = Ret p) raw ps
      ∧ length ps = length raw
      ∧ generateEnhancedPatientAnalytics nts ps (stats d) (matches d) JUndefined = Ret a
      ∧ patient_analytics d = Some a
      ∧ total_patients a = length raw
  | None =>
    patient_analytics d = (if String.eqb format "enhanced" then Some emptyAnalytics else None)
  end.
Proof.
  unfold transformJobResultsForFrontend. intros Hrun.
  destruct (transformBody nts backendData format) as [d'|e] eqn:Hbody; [|discriminate].
  injection Hrun as ->. unfold transformBody in Hbody.
  destruct (get backendData "stats") as [backendStats|e]; [|discriminate].
  destruct (get backendData "matches") as [backendMatches|e]; [|discriminate].
  destruct (get backendData "summary") as [backendSummary|e]; [|discriminate].
  destruct (get backendData "patient_summaries") as [rawSummaries|e]; [|discriminate].
  cbn [mbind result_bind] in Hbody.
  destruct (truthy rawSummaries) eqn:Htruthy.
  - destruct rawSummaries as [| |b|x|s|raw|fs]; try discriminate.
    cbn [mapPatients fmap result_fmap] in Hbody.
    destruct (mapM transformPatient raw) as [ps|e] eqn:Hmap; [|discriminate].
    cbn [mbind result_bind] in Hbody. rewrite orb_true_r in Hbody.
    destruct (get backendData "patient_analytics") as [ex|e]; [|discriminate].
    cbn [mbind result_bind fmap result_fmap default] in Hbody.
    rewrite js_or_idem in Hbody. unfold id in Hbody.
    destruct (generateEnhancedPatientAnalytics nts ps _ _ ex) as [a|e] eqn:Ha; [|discriminate].
    injection Hbody as <-. cbn [patient_summaries patient_analytics stats matches].
    apply mapM_transformPatient in Hmap.
    exists raw, a. split; [reflexivity|]. split; [exact Hmap|].
    pose proof (Forall2_length _ _ _ Hmap) as Hlen.
    split; [done|]. split; [by rewrite <- Ha|]. split; [reflexivity|].
    apply generate_surgery_outcomes in Ha as [_ ->]. done.
  - cbn [mbind result_bind] in Hbody. rewrite orb_false_r in Hbody.
    destruct (String.eqb format "enhanced").
    + destruct (get backendData "patient_analytics") as [ex|e]; [|discriminate].
      cbn [mbind result_bind fmap result_fmap default] in Hbody.
      rewrite generate_empty in Hbody. by injection Hbody as <-.
    + by injection Hbody as <-.
Qed.

Lemma transformed_patients_witness :
  ∃ d, transformJobResultsForFrontend noDigits
         (JObj [("patient_summaries",
                 JArr [rawPatient (JStr "success") (JStr "alive") (JArr [JStr "Diabetes"]);
                       rawPatient (JStr "failure") (JStr "deceased") (JStr "Asthma")])])
         "legacy" = Transformed d
       ∧ (total_patients <$> patient_analytics d) = Some 2.
Proof.
  match goal with
  | |- ∃ _, ?run = _ ∧ _ => destruct run as [d|b] eqn:Hrun; [|vm_compute in Hrun; discriminate]
  end.
  exists d. split; [reflexivity|].
  pose proof (transformed_patients _ _ _ _ Hrun) as Hd.
  destruct (patient_summaries d) as [ps|] eqn:Hps.
  - destruct Hd as (raw & a & Hraw & _ & _ & _ & -> & Htotal).
    vm_compute in Hraw. injection Hraw as <-. simpl. by rewrite Htotal.
  - vm_compute in Hrun. injection Hrun as <-. discriminate.
Defined.
(** ** The average number of comorbidities *)



(** * Strings *)

(** ** Trimming *)

Lemma strip_ws_step back l :
  strip_ws back l
  = match l with
    | [] => []
    | a :: l1 =>
      if ws1 a then strip_ws back l1 else
      match l1 with
      | [] => l
      | b :: l2 =>
        if (if back then ws2 b a else ws2 a b) then strip_ws back l2 else
        match l2 with
        | [] => l
        | c :: l3 => if (if back then ws3 c b a else ws3 a b c) then strip_ws back l3 else l
        end
      end
    end.
Proof. by destruct l. Qed.


(** What stripping leaves is a suffix that starts with no white space. *)
Lemma strip_ws_spec back n : ∀ l,
  length l ≤ n →
  ws_head back (strip_ws back l) = false ∧ ∃ pre, l = (pre ++ strip_ws back l)%list.
Proof.
  induction n as [|n IH]; intros l Hlen.
  { destruct l; [|simpl in Hlen; lia]. split; [reflexivity|by exists []]. }
  assert (∀ pre l', l = (pre ++ l')%list → length l' ≤ n →
          ws_head back (strip_ws back l') = false
          ∧ ∃ pre', l = (pre' ++ strip_ws back l')%list) as Hrec.
  { intros pre l' -> Hl'. destruct (IH l' Hl') as [Hhead [pre' Hpre']].
    split; [exact Hhead|]. exists (pre ++ pre')%list. by rewrite <- app_assoc, <- Hpre'. }
  rewrite strip_ws_step.
  destruct l as [|a l1]; [split; [reflexivity|by exists []]|].
  destruct (ws1 a) eqn:H1.
  { apply (Hrec [a]); [reflexivity|simpl in Hlen; lia]. }
  destruct l1 as [|b l2].
  { split; [cbn [ws_head]; by rewrite H1|by exists []]. }
  destruct (if back then ws2 b a else ws2 a b) eqn:H2.
  { apply (Hrec [a; b]); [reflexivity|simpl in Hlen; lia]. }
  destruct l2 as [|c l3].
  { split; [cbn [ws_head]; by rewrite H1, H2|by exists []]. }
  destruct (if back then ws3 c b a else ws3 a b c) eqn:H3.
  { apply (Hrec [a; b; c]); [reflexivity|simpl in Hlen; lia]. }
  split; [cbn [ws_head]; by rewrite H1, H2, H3|by exists []].
Qed.


Lemma list_ascii_of_trim s :
  list_ascii_of_string (trim s)
  = rev (strip_ws true (rev (strip_ws false (list_ascii_of_string s)))).
Proof. unfold trim. apply list_ascii_of_string_of_list_ascii. Qed.


(** ** Blank strings *)

Lemma AllWs_app l1 l2 : AllWs l1 → AllWs l2 → AllWs (l1 ++ l2).
Proof.
  induction 1 as [|a l H1 _ IH|a b l H1 _ IH|a b c l H1 _ IH]; intros H2; cbn [app].
  - done.
  - apply AllWs_1; auto.
  - apply AllWs_2; auto.
  - apply AllWs_3; auto.
Qed.

Lemma strip_ws_nil back n : ∀ l,
  length l ≤ n → strip_ws back l = [] → AllWs (if back then rev l else l).
Proof.
  induction n as [|n IH]; intros l Hlen.
  { destruct l; [|simpl in Hlen; lia]. destruct back; constructor. }
  rewrite strip_ws_step.
  destruct l as [|a l1]; [destruct back; constructor|].
  destruct (ws1 a) eqn:H1.
  { intros Hnil. apply IH in Hnil; [|simpl in Hlen; lia]. destruct back.
    - cbn [rev]. apply AllWs_app; [done|]. by repeat constructor.
    - by constructor. }
  destruct l1 as [|b l2]; [discriminate|].
  destruct (if back then ws2 b a else ws2 a b) eqn:H2.
  { intros Hnil. apply IH in Hnil; [|simpl in Hlen; lia]. destruct back.
    - cbn [rev]. rewrite <- app_assoc. apply AllWs_app; [done|].
      cbn [app]. by repeat constructor.
    - by constructor. }
  destruct l2 as [|c l3]; [discriminate|].
  destruct (if back then ws3 c b a else ws3 a b c) eqn:H3; [|discriminate].
  intros Hnil. apply IH in Hnil; [|simpl in Hlen; lia]. destruct back.
  - cbn [rev]. rewrite <- !app_assoc. apply AllWs_app; [done|].
    cbn [app]. by repeat constructor.
  - by constructor.
Qed.

Lemma AllWs_head l : AllWs l → l = [] ∨ ws_head false l = true.
Proof.
  destruct 1 as [|a l H1 _|a b l H2 _|a b c l H3 _]; [by left|right..]; cbn [ws_head].
  - by rewrite H1.
  - rewrite H2. by rewrite orb_true_r.
  - rewrite H3. by rewrite !orb_true_r.
Qed.

(** A string that trims to nothing is white space from end to end. *)
Lemma trim_blank s : trim s = "" → AllWs (list_ascii_of_string s).
Proof.
  intros Hblank. apply (f_equal list_ascii_of_string) in Hblank.
  rewrite list_ascii_of_trim in Hblank. cbn [list_ascii_of_string] in Hblank.
  set (l1 := strip_ws false (list_ascii_of_string s)) in *.
  assert (strip_ws true (rev l1) = []) as Hback.
  { apply (f_equal (@rev ascii)) in Hblank. by rewrite rev_involutive in Hblank. }
  apply (strip_ws_nil true _ _ (Nat.le_refl _)) in Hback. rewrite rev_involutive in Hback.
  destruct (strip_ws_spec false _ (list_ascii_of_string s) (Nat.le_refl _)) as [Hhead _].
  fold l1 in Hhead. destruct (AllWs_head _ Hback) as [Hnil|Hws]; [|congruence].
  by apply (strip_ws_nil false _ _ (Nat.le_refl _)).
Qed.
(** ** Blank text is no JSON *)

Lemma AllWs_skip l :
  AllWs l →
  skip_json_ws (string_of_list_ascii l) = ""
  ∨ ∃ c r, skip_json_ws (string_of_list_ascii l) = String c r
           ∧ (code c = 11 ∨ code c = 12 ∨ code c = 194 ∨ code c = 225 ∨ code c = 226
              ∨ code c = 227 ∨ code c = 239)%N.
Proof.
  induction 1 as [|a l H1 _ IH|a b l H2 _ _|a b c l H3 _ _];
    cbn [string_of_list_ascii skip_json_ws]; [by left|..].
  - unfold ws1 in H1. cbn zeta in H1.
    destruct ((code a =? 32) || (code a =? 9) || (code a =? 10) || (code a =? 13))%N eqn:Hj;
      [exact IH|].
    right. exists a, (string_of_list_ascii l). split; [reflexivity|].
    apply orb_false_elim in Hj as [[[H32 H9]%orb_false_elim H10]%orb_false_elim H13].
    apply N.eqb_neq in H32, H9, H10, H13.
    apply orb_true_iff in H1 as [[Hlo Hhi]%andb_true_iff|H32']; [|apply N.eqb_eq in H32'; lia].
    apply N.leb_le in Hlo, Hhi. lia.
  - unfold ws2 in H2. apply andb_true_iff in H2 as [Ha%N.eqb_eq _].
    rewrite Ha. cbn. right. exists a, (String b (string_of_list_ascii l)).
    split; [reflexivity|lia].
  - unfold ws3 in H3. cbn zeta beta iota in H3.
    assert (code a = 225 ∨ code a = 226 ∨ code a = 227 ∨ code a = 239)%N as Ha.
    { repeat match type of H3 with
             | (_ || _ = true) => apply orb_true_iff in H3 as [H3|H3]
             | (_ && _ = true) => apply andb_true_iff in H3 as [H3 _]
             end; apply N.eqb_eq in H3; lia. }
    right. exists a, (String b (String c (string_of_list_ascii l))).
    split; [|lia].
    destruct Ha as [Ha|[Ha|[Ha|Ha]]]; rewrite Ha; reflexivity.
Qed.

Lemma parse_json_number_no_digit c r :
  is_digit c = false → (code c =? 45)%N = false → parse_json_number (String c r) = None.
Proof.
  intros Hdigit Hminus. unfold parse_json_number. rewrite Hminus.
  cbn [take_while]. by rewrite Hdigit.
Qed.

Lemma parse_value_blank f l : AllWs l → parse_value f (string_of_list_ascii l) = None.
Proof.
  intros Hws. destruct f as [|f]; [reflexivity|]. rewrite parse_value_unfold.
  destruct (AllWs_skip l Hws) as [->|(c & r & -> & Hc)]; [reflexivity|].
  cbn zeta. rewrite parse_json_number_no_digit.
  - destruct Hc as [Hc|[Hc|[Hc|[Hc|[Hc|[Hc|Hc]]]]]]; rewrite Hc; reflexivity.
  - unfold is_digit. destruct Hc as [Hc|[Hc|[Hc|[Hc|[Hc|[Hc|Hc]]]]]]; rewrite Hc; reflexivity.
  - destruct Hc as [Hc|[Hc|[Hc|[Hc|[Hc|[Hc|Hc]]]]]]; rewrite Hc; reflexivity.
Qed.

(** A string that trims to nothing is not a JSON text. *)
Lemma JSON_parse_blank s : trim s = "" → JSON_parse s = Throw SyntaxError.
Proof.
  intros Hblank. unfold JSON_parse.
  rewrite <- (string_of_list_ascii_of_string s) at 2.
  by rewrite (parse_value_blank _ _ (trim_blank s Hblank)).
Qed.

(** ** Parseable text *)

(** A text that [JSON.parse] accepts is not blank, and both helpers hand
    it to the parser and to nothing else: [safeParseJSON] returns the
    parsed value, [safeParseJSONArray] its elements when it is an array and
    the value as a single element otherwise; neither the fallback nor the
    splitting at commas is reached.  A blank text gives the fallback
    ([null] for a fallback that is not given). *)
Theorem parseable_text_is_parsed s :
  (∀ parsed fallback fallbackArray,
     JSON_parse s = Ret parsed →
     String.eqb (trim s) "" = false
     ∧ safeParseJSON (JStr s) fallback = parsed
     ∧ safeParseJSONArray (JStr s) fallbackArray
       = Ret (match parsed with JArr items => items | _ => [parsed] end))
  ∧ (∀ fallback fallbackArray,
       trim s = "" →
       safeParseJSON (JStr s) fallback
       = match fallback with JUndefined => JNull | _ => fallback end
       ∧ safeParseJSONArray (JStr s) fallbackArray = Ret fallbackArray).
Proof.
  split.
  - intros parsed fallback fallbackArray Hparse.
    assert (String.eqb (trim s) "" = false) as Hblank.
    { destruct (String.eqb_spec (trim s) "") as [Hb|]; [|reflexivity].
      apply JSON_parse_blank in Hb. congruence. }
    split; [exact Hblank|]. unfold safeParseJSON, safeParseJSONArray.
    by rewrite Hblank, Hparse.
  - intros fallback fallbackArray Hblank. unfold safeParseJSON, safeParseJSONArray.
    rewrite (JSON_parse_blank s Hblank), Hblank. by split.
Qed.

Lemma parseable_text_is_parsed_witness :
  safeParseJSON (JStr jsonArrayAB) JNull = JArr [JStr "a"; JStr "b"]
  ∧ safeParseJSONArray (JStr jsonArrayAB) [] = Ret [JStr "a"; JStr "b"].
Proof.
  assert (JSON_parse jsonArrayAB = Ret (JArr [JStr "a"; JStr "b"])) as Hparse
    by (vm_compute; reflexivity).
  destruct (proj1 (parseable_text_is_parsed jsonArrayAB) _ JNull [] Hparse) as (_ & H1 & H2).
  by split.
Defined.

(** ** The request body *)

(** With the body parser switched off, as the route configures it,
    [req.body] is [undefined] and the parsed body is what [JSON.parse]
    makes of the raw text, [null] when it makes nothing of it or the
    stream fails: the test for a blank text changes nothing.  In general
    the result is the body itself, a value parsed from the body or the raw
    text, or [null]. *)
Theorem parsed_body :
  (∀ raw, getParsedBody JUndefined (Some raw)
          = match JSON_parse raw with Ret parsed => parsed | Throw _ => JNull end)
  ∧ getParsedBody JUndefined None = JNull
  ∧ (∀ body rawBody,
       getParsedBody body rawBody = body
       ∨ (∃ s, body = JStr s ∧ JSON_parse s = Ret (getParsedBody body rawBody))
       ∨ (∃ raw, rawBody = Some raw ∧ JSON_parse raw = Ret (getParsedBody body rawBody))
       ∨ getParsedBody body rawBody = JNull).
Proof.
  split; [|split; [reflexivity|]].
  - intros raw. unfold getParsedBody, isNonEmptyObject. cbn [truthy andb].
    destruct (String.eqb_spec (trim raw) "") as [Hblank|]; [|reflexivity].
    by rewrite (JSON_parse_blank raw Hblank).
  - intros body rawBody. unfold getParsedBody.
    destruct (isNonEmptyObject body); [by left|].
    assert (∀ v, (match rawBody with
                  | Some raw =>
                    if negb (String.eqb (trim raw) "") then
                      match JSON_parse raw with Ret parsed => parsed | Throw _ => JNull end
                    else JNull
                  | None => JNull
                  end = v) →
                 (∃ raw, rawBody = Some raw ∧ JSON_parse raw = Ret v) ∨ v = JNull) as Hraw.
    { intros v <-. destruct rawBody as [raw|]; [|by right].
      destruct (negb _); [|by right].
      destruct (JSON_parse raw) as [parsed|e] eqn:Hp; [left; by exists raw|by right]. }
    destruct body as [| |b|x|s|l|fs];
      try (right; right; destruct (Hraw _ eq_refl) as [H|H]; [by left|by right]).
    destruct (truthy (JStr s)).
    + destruct (JSON_parse s) as [parsed|e] eqn:Hp.
      * right; left. by exists s.
      * right; right. destruct (Hraw _ eq_refl) as [H|H]; [by left|by right].
    + right; right. destruct (Hraw _ eq_refl) as [H|H]; [by left|by right].
Qed.
(** * The router *)

Lemma str_includes_cons c s :
  str_includes "/" (String c s) = Ascii.eqb c "/" || str_includes "/" s.
Proof.
  cbn [str_includes String.prefix].
  destruct (ascii_dec "/" c) as [<-|Hne]; [by destruct s|].
  destruct (Ascii.eqb_spec c "/") as [->|_]; [done|]. reflexivity.
Qed.

Lemma split_on_segment s : isSegment s = true → split_on "/" s = [s].
Proof.
  unfold isSegment. induction s as [|c s IH]; [reflexivity|].
  rewrite str_includes_cons, negb_orb. intros [Hc Hs]%andb_true_iff.
  cbn [split_on]. apply negb_true_iff in Hc. rewrite Hc, (IH Hs). reflexivity.
Qed.

Lemma split_on_append s t :
  isSegment s = true → split_on "/" (s +:+ "/" +:+ t) = s :: split_on "/" t.
Proof.
  unfold isSegment. induction s as [|c s IH].
  - intros _. reflexivity.
  - rewrite str_includes_cons, negb_orb. intros [Hc Hs]%andb_true_iff.
    change (String c s +:+ "/" +:+ t) with (String c (s +:+ "/" +:+ t)).
    cbn [split_on]. apply negb_true_iff in Hc. by rewrite Hc, (IH Hs).
Qed.

Lemma append_assoc (a b c : string) : (a +:+ b) +:+ c = a +:+ b +:+ c.
Proof.
  induction a as [|x a IH]; [reflexivity|].
  change ((String x a +:+ b) +:+ c) with (String x ((a +:+ b) +:+ c)). by rewrite IH.
Qed.

Lemma join_cons s t l : join "/" (s :: t :: l) = s +:+ "/" +:+ join "/" (t :: l).
Proof.
  cbn [join fold_left]. revert s t. induction l as [|u l IH]; intros s t; [reflexivity|].
  cbn [fold_left]. rewrite IH, (IH t u).
  by rewrite !append_assoc.
Qed.

(** Splitting a joined path gives back its segments, when there is at
    least one and none holds a slash. *)
Lemma split_join segments :
  segments ≠ [] → forallb isSegment segments = true →
  split_on "/" (join "/" segments) = segments.
Proof.
  induction segments as [|s [|t l] IH]; [done|..]; intros _ Hall.
  - cbn in Hall. rewrite andb_true_r in Hall. by apply split_on_segment.
  - cbn [forallb] in Hall. apply andb_true_iff in Hall as [Hs Hrest].
    rewrite join_cons, split_on_append by done. f_equal. by apply IH.
Qed.

Lemma prefix_append p q : String.prefix p (p +:+ q) = true.
Proof.
  induction p as [|c p IH]; [by destruct q|].
  change (String c p +:+ q) with (String c (p +:+ q)). cbn [String.prefix].
  by destruct (ascii_dec c c).
Qed.

Lemma prefix_inv p : ∀ s, String.prefix p s = true → ∃ r, s = p +:+ r.
Proof.
  induction p as [|c p IH]; intros s Hp; [by exists s|].
  destruct s as [|d s]; [discriminate|]. cbn [String.prefix] in Hp.
  destruct (ascii_dec c d) as [<-|]; [|discriminate].
  destruct (IH s Hp) as [r ->]. by exists r.
Qed.

(** A path that starts with a name and a slash has a second part. *)
Lemma split_on_second name path :
  isSegment name = true → String.prefix (name +:+ "/") path = true →
  is_Some (split_on "/" path !! 1).
Proof.
  intros Hname [r ->]%prefix_inv. rewrite append_assoc, split_on_append by done.
  cbn [lookup list_lookup]. destruct r as [|c r]; [by eexists|].
  cbn [String.append split_on].
  change ("" +:+ String c r) with (String c r). cbn [split_on].
  destruct (Ascii.eqb c "/"); [by eexists|]. destruct (split_on "/" r); by eexists.
Qed.

(** The path [name/T] starts with [name/]. *)
Lemma route_prefix literal name T :
  literal = name +:+ "/" → String.prefix literal (name +:+ "/" +:+ T) = true.
Proof. intros ->. rewrite <- append_assoc. apply prefix_append. Qed.

(** For every method but OPTIONS and segments that hold no slash: each of
    the nine fixed paths reaches its handler, and none does with a further
    segment; [comorbidities] with one further segment reaches
    [handleComorbidities], with two [handleIndividualComorbidity], and
    with more the answer is 404; [job-results], [job-status] and
    [download-results] pass on the segment after the name and ignore any
    others; [upload] and [jobs] pass on the whole path; a path that is
    only the name of a dynamic route, and the empty path, give 404. *)
Theorem router_dispatch method :
  String.eqb method "OPTIONS" = false →
  (∀ name route,
     In (name, route) staticRoutes →
     handler method (SlugArray [name]) = route
     ∧ ∀ next rest, handler method (SlugArray (name :: next :: rest)) = Route.notFound)
  ∧ (∀ code, isSegment code = true →
       handler method (SlugArray ["comorbidities"; code]) = Route.handleComorbidities (Some code))
  ∧ (∀ code comorbidityId,
       isSegment code = true → isSegment comorbidityId = true →
       handler method (SlugArray ["comorbidities"; code; comorbidityId])
       = Route.handleIndividualComorbidity (Some code) (Some comorbidityId))
  ∧ (∀ code comorbidityId next rest,
       forallb isSegment (code :: comorbidityId :: next :: rest) = true →
       handler method (SlugArray ("comorbidities" :: code :: comorbidityId :: next :: rest))
       = Route.notFound)
  ∧ (∀ jobId rest,
       forallb isSegment (jobId :: rest) = true →
       handler method (SlugArray ("job-results" :: jobId :: rest))
       = Route.handleJobResults (Some jobId)
       ∧ handler method (SlugArray ("job-status" :: jobId :: rest))
         = Route.handleJobStatus (Some jobId)
       ∧ handler method (SlugArray ("download-results" :: jobId :: rest))
         = Route.handleDownloadResults (Some jobId))
  ∧ (∀ next rest,
       handler method (SlugArray ("upload" :: next :: rest))
       = Route.handleGenericFileUpload (join "/" ("upload" :: next :: rest))
       ∧ handler method (SlugArray ("jobs" :: next :: rest))
         = Route.handleDeleteJobRequest (join "/" ("jobs" :: next :: rest)))
  ∧ (∀ name,
       In name ["comorbidities"; "upload"; "job-results"; "jobs"; "job-status";
                "download-results"] →
       handler method (SlugArray [name]) = Route.notFound)
  ∧ handler method (SlugArray []) = Route.notFound
  ∧ handler method SlugUndefined = Route.notFound.
Proof.
  intros Hmethod.
  assert (∀ first segments,
            isSegment first = true → forallb isSegment segments = true → segments ≠ [] →
            split_on "/" (join "/" (first :: segments)) = first :: segments) as Hsplit.
  { intros first segments Hfirst Hall _. apply split_join; [done|].
    cbn [forallb]. by rewrite Hfirst. }
  split; [|split; [|split; [|split; [|split; [|split; [|split; [|split]]]]]]].
  - intros name route Hin.
    cbn in Hin. repeat (destruct Hin as [[= <- <-]|Hin]); try done.
    all: split; [unfold handler; rewrite Hmethod; reflexivity|].
    all: intros next rest; unfold handler, pathOf; rewrite Hmethod, join_cons.
    all: generalize (join "/" (next :: rest)); intros T; vm_compute; reflexivity.
  - intros code Hcode. unfold handler, pathOf, dynamicRoute. rewrite Hmethod.
    rewrite (Hsplit "comorbidities" [code] eq_refl)
      by (cbn [forallb]; rewrite ?Hcode; done).
    rewrite join_cons. generalize (join "/" [code]). intros T.
    rewrite (route_prefix "comorbidities/" "comorbidities" T eq_refl).
    vm_compute. reflexivity.
  - intros code comorbidityId Hcode Hid. unfold handler, pathOf, dynamicRoute.
    rewrite Hmethod.
    rewrite (Hsplit "comorbidities" [code; comorbidityId] eq_refl)
      by (cbn [forallb]; rewrite ?Hcode, ?Hid; done).
    rewrite join_cons. generalize (join "/" [code; comorbidityId]). intros T.
    rewrite (route_prefix "comorbidities/" "comorbidities" T eq_refl).
    vm_compute. reflexivity.
  - intros code comorbidityId next rest Hall. unfold handler, pathOf, dynamicRoute.
    rewrite Hmethod.
    rewrite (Hsplit "comorbidities" _ eq_refl Hall) by done.
    cbn [length Nat.eqb]. rewrite join_cons.
    generalize (join "/" (code :: comorbidityId :: next :: rest)). intros T.
    rewrite (route_prefix "comorbidities/" "comorbidities" T eq_refl).
    vm_compute. reflexivity.
  - intros jobId rest Hall. repeat split.
    all: unfold handler, pathOf, dynamicRoute; rewrite Hmethod.
    all: match goal with
         | |- context [join "/" (?first :: _)] =>
           rewrite (Hsplit first _ eq_refl Hall) by done
         end.
    all: rewrite join_cons; generalize (join "/" (jobId :: rest)); intros T.
    + rewrite (route_prefix "job-results/" "job-results" T eq_refl).
      vm_compute. reflexivity.
    + rewrite (route_prefix "job-status/" "job-status" T eq_refl).
      vm_compute. reflexivity.
    + rewrite (route_prefix "download-results/" "download-results" T eq_refl).
      vm_compute. reflexivity.
  - intros next rest. split.
    all: unfold handler, pathOf, dynamicRoute; rewrite Hmethod.
    all: rewrite join_cons; generalize (join "/" (next :: rest)); intros T.
    + rewrite (route_prefix "upload/" "upload" T eq_refl).
      vm_compute. reflexivity.
    + rewrite (route_prefix "jobs/" "jobs" T eq_refl).
      vm_compute. reflexivity.
  - intros name Hin. cbn in Hin. repeat (destruct Hin as [<-|Hin]); try done.
    all: unfold handler; rewrite Hmethod; reflexivity.
  - unfold handler. rewrite Hmethod. reflexivity.
  - unfold handler. rewrite Hmethod. reflexivity.
Qed.

Lemma router_dispatch_witness :
  handler "PUT" (SlugArray ["comorbidities"; "K50"; "17"])
  = Route.handleIndividualComorbidity (Some "K50") (Some "17").
Proof.
  apply (proj1 (proj2 (proj2 (router_dispatch "PUT" eq_refl)))); reflexivity.
Defined.

(** An OPTIONS request is ended with status 200 whatever the path.  The
    identifiers a handler of a dynamic route receives are never
    [undefined]: a path that reaches the handler has the part they are read
    from.  A segment that holds a slash is read as two: the code [a/b]
    reaches [handleIndividualComorbidity] as the code [a] with the
    identifier [b]. *)
Theorem router_arguments :
  (∀ slug, handler "OPTIONS" slug = Route.end200)
  ∧ (∀ method slug,
       match handler method slug with
       | Route.handleComorbidities code => is_Some code
       | Route.handleIndividualComorbidity code comorbidityId =>
         is_Some code ∧ is_Some comorbidityId
       | Route.handleJobResults jobId
       | Route.handleJobStatus jobId
       | Route.handleDownloadResults jobId => is_Some jobId
       | Route.handleGenericFileUpload path => String.prefix "upload/" path = true
       | Route.handleDeleteJobRequest path =>
         String.prefix "jobs/" path = true ∧ is_Some (split_on "/" path !! 1)
       | _ => True
       end)
  ∧ handler "GET" (SlugArray ["comorbidities"; "a/b"])
    = Route.handleIndividualComorbidity (Some "a") (Some "b").
Proof.
  split; [reflexivity|]. split; [|reflexivity].
  intros method slug. unfold handler.
  generalize (pathOf slug). intros path.
  repeat match goal with
         | |- context [if String.eqb ?a ?b then _ else _] => destruct (String.eqb a b); [done|]
         end.
  assert (match (if String.prefix "upload/" path then Route.handleGenericFileUpload path
                 else if String.prefix "job-results/" path
                      then Route.handleJobResults (split_on "/" path !! 1)
                 else if String.prefix "jobs/" path then Route.handleDeleteJobRequest path
                 else if String.prefix "job-status/" path
                      then Route.handleJobStatus (split_on "/" path !! 1)
                 else if String.prefix "download-results/" path
                      then Route.handleDownloadResults (split_on "/" path !! 1)
                 else Route.notFound) with
          | Route.handleComorbidities code => is_Some code
          | Route.handleIndividualComorbidity code comorbidityId =>
            is_Some code ∧ is_Some comorbidityId
          | Route.handleJobResults jobId
          | Route.handleJobStatus jobId
          | Route.handleDownloadResults jobId => is_Some jobId
          | Route.handleGenericFileUpload path => String.prefix "upload/" path = true
          | Route.handleDeleteJobRequest path =>
            String.prefix "jobs/" path = true ∧ is_Some (split_on "/" path !! 1)
          | _ => True
          end) as Hrest.
  { destruct (String.prefix "upload/" path) eqn:H1; [exact H1|].
    destruct (String.prefix "job-results/" path) eqn:H2;
      [exact (split_on_second "job-results" path eq_refl H2)|].
    destruct (String.prefix "jobs/" path) eqn:H3;
      [split; [exact H3|exact (split_on_second "jobs" path eq_refl H3)]|].
    destruct (String.prefix "job-status/" path) eqn:H4;
      [exact (split_on_second "job-status" path eq_refl H4)|].
    destruct (String.prefix "download-results/" path) eqn:H5;
      [exact (split_on_second "download-results" path eq_refl H5)|].
    exact I. }
  unfold dynamicRoute.
  destruct (String.prefix "comorbidities/" path) eqn:Hc; [|exact Hrest].
  pose proof (split_on_second "comorbidities" path eq_refl Hc) as Hcode.
  destruct (Nat.eqb (length (split_on "/" path)) 2) eqn:H2; [exact Hcode|].
  destruct (Nat.eqb (length (split_on "/" path)) 3) eqn:H3; [|exact Hrest].
  split; [exact Hcode|]. apply Nat.eqb_eq in H3.
  destruct (split_on "/" path) as [|a [|b [|c l]]]; try discriminate. by eexists.
Qed.
(** * The dashboard statistics *)

(** ** Own properties *)

Lemma own_fields_keys fs k v : In (k, v) (own_fields fs) → lookup_field k fs = v.
Proof.
  induction fs as [|[k0 v0] fs IH]; [done|]. cbn [own_fields lookup_field].
  intros [[= <- <-]|Hin].
  - by rewrite String.eqb_refl.
  - apply filter_In in Hin as [Hin Hne]. cbn [fst] in Hne.
    apply negb_true_iff in Hne. rewrite Hne. by apply IH.
Qed.

Lemma own_fields_NoDup fs : NoDup (own_fields fs).*1.
Proof.
  induction fs as [|[k0 v0] fs IH]; [constructor|]. cbn [own_fields fmap list_fmap fst].
  constructor.
  - intros ([k v] & Hk & Hin)%list_elem_of_fmap. cbn [fst] in Hk. subst k.
    apply list_elem_of_In, filter_In in Hin as [_ Hne]. cbn [fst] in Hne.
    by rewrite String.eqb_refl in Hne.
  - revert IH. generalize (own_fields fs). intros l. induction l as [|[k v] l IHl]; [done|].
    cbn [List.filter fst fmap list_fmap]. intros [Hnotin Hnodup]%NoDup_cons.
    destruct (negb (String.eqb k k0)); [|by apply IHl].
    cbn [fmap list_fmap fst]. constructor; [|by apply IHl].
    intros ([k' v'] & Hk & Hin)%list_elem_of_fmap. cbn [fst] in Hk. subst k'.
    apply list_elem_of_In, filter_In in Hin as [Hin _]. apply Hnotin.
    apply list_elem_of_fmap. exists (k, v'). split; [done|by apply list_elem_of_In].
Qed.

Lemma indexed_keys {A} (l : list A) : ∀ i k,
  k ∈ (indexed i l).*1 → ∃ j, i ≤ j ∧ k = pretty j.
Proof.
  induction l as [|x l IH]; intros i k; cbn [indexed fmap list_fmap fst].
  - by intros ?%elem_of_nil.
  - intros [->|Hin]%elem_of_cons; [by exists i|].
    destruct (IH _ _ Hin) as (j & Hj & ->). exists j. split; [lia|done].
Qed.

Lemma indexed_NoDup {A} (l : list A) : ∀ i, NoDup (indexed i l).*1.
Proof.
  induction l as [|x l IH]; intros i; cbn [indexed fmap list_fmap fst]; constructor; [|apply IH].
  intros (j & Hj & Heq)%indexed_keys. apply (inj pretty) in Heq. lia.
Qed.

Lemma own_properties_NoDup v : NoDup (own_properties v).*1.
Proof.
  destruct v; cbn [own_properties]; try constructor.
  - apply indexed_NoDup.
  - apply indexed_NoDup.
  - apply own_fields_NoDup.
Qed.

(** ** Filtered tables *)

(** The target of the filtering loop holds the entries that pass the
    test, the key [__proto__] apart. *)
Lemma filter_entries (keep : string → JsVal → bool) entries :
  NoDup entries.*1 →
  ∀ k v,
    fold_left (λ target kv, if keep kv.1 kv.2 then assign kv.1 kv.2 target else target)
              entries ∅ !! k = Some v
    ↔ In (k, v) entries ∧ keep k v = true ∧ k ≠ "__proto__".
Proof.
  unfold assign.
  induction entries as [|[k0 v0] entries IH] using rev_ind; intros Hnodup k v.
  - cbn. rewrite lookup_empty. split; [done|by intros [[] _]].
  - rewrite fmap_app in Hnodup. apply NoDup_app in Hnodup as (Hnodup & Hfresh & _).
    rewrite fold_left_app. cbn [fold_left fst snd].
    assert (∀ v', In (k0, v') entries → False) as Hk0.
    { intros v' Hin. apply (Hfresh k0); [|cbn; left].
      apply list_elem_of_fmap. exists (k0, v'). split; [done|by apply list_elem_of_In]. }
    rewrite in_app_iff. cbn [In].
    destruct (decide (k = k0)) as [->|Hne].
    + match goal with
      | |- context [fold_left ?f entries ∅] => set (target := fold_left f entries ∅) in *
      end.
      assert (target !! k0 = None) as Hnone.
      { destruct (target !! k0) as [v'|] eqn:Hl; [|done].
        apply IH in Hl as [Hin _]; [|done]. by destruct (Hk0 v'). }
      destruct (keep k0 v0) eqn:Hkeep.
      * destruct (String.eqb k0 "__proto__") eqn:Hproto.
        -- apply String.eqb_eq in Hproto. rewrite Hnone. split; [done|].
           by intros (_ & _ & []).
        -- apply String.eqb_neq in Hproto. rewrite lookup_insert_eq. split.
           ++ intros [= ->]. split; [right; by left|done].
           ++ intros [[Hin|[[= ->]|[]]] _]; [by destruct (Hk0 v)|done].
      * rewrite Hnone. split; [done|].
        intros [[Hin|[[= ->]|[]]] [Hk _]]; [by destruct (Hk0 v)|congruence].
    + match goal with
      | |- context [fold_left ?f entries ∅] => set (target := fold_left f entries ∅) in *
      end.
      assert ((if keep k0 v0
               then if String.eqb k0 "__proto__" then target else <[k0:=v0]> target
               else target) !! k = target !! k) as ->.
      { destruct (keep k0 v0); [|done].
        destruct (String.eqb k0 "__proto__"); [done|]. by rewrite lookup_insert_ne. }
      rewrite (IH Hnodup). split.
      * intros (Hin & Hkeep & Hproto). split; [by left|done].
      * intros ([Hin|[[= <- _]|[]]] & Hkeep & Hproto); [done|done].
Qed.

(** Every step of a loop that returns has returned. *)
Lemma forEach_steps {A S} (body : S → A → result S) l : ∀ s r,
  forEach body l s = Ret r → ∀ x, x ∈ l → ∃ s0 s1, body s0 x = Ret s1.
Proof.
  induction l as [|y l IH]; intros s r Hrun x Hin; [by apply elem_of_nil in Hin|].
  apply forEach_cons in Hrun as (s' & Hy & Hl).
  apply elem_of_cons in Hin as [->|Hin]; [by exists s, s'|by eapply IH].
Qed.

(** When the filter returns, every test has returned, and the target holds
    exactly the entries that passed theirs, the key [__proto__] apart. *)
Lemma filterTable_returns keep table target :
  filterTable keep table = Ret target →
  (∀ k v, In (k, v) (own_properties table) → ∃ b, keep k v = Ret b)
  ∧ ∀ k v, target !! k = Some v
           ↔ In (k, v) (own_properties table) ∧ keep k v = Ret true ∧ k ≠ "__proto__".
Proof.
  unfold filterTable. destruct (truthy table) eqn:Htruthy.
  - assert (Object_entries table = Ret (own_properties table)) as ->
      by (by destruct table).
    cbn [mbind result_bind]. intros Hrun. split.
    + intros k v Hin. apply list_elem_of_In in Hin.
      destruct (forEach_steps _ _ _ _ Hrun (k, v) Hin) as (s0 & s1 & Hstep).
      cbn [fst snd] in Hstep. destruct (keep k v) as [b|e]; [by exists b|discriminate].
    + set (keepb := λ k v, match keep k v with Ret b => b | Throw _ => false end).
      apply (forEach_fold _ (λ target kv, if keepb kv.1 kv.2 then assign kv.1 kv.2 target
                                          else target)) in Hrun.
      * subst target. intros k v.
        rewrite (filter_entries keepb _ (own_properties_NoDup table) k v).
        unfold keepb. destruct (keep k v) as [[]|e]; split; intros (? & ? & ?); done.
      * intros s [k v] s'. unfold keepb. cbn [fst snd].
        destruct (keep k v) as [b|e]; cbn [mbind result_bind]; [|discriminate].
        by intros [= <-].
  - intros [= <-]. split.
    + intros k v Hin. destruct table as [| |b|x|s|l|fs]; cbn [own_properties In] in Hin; try done.
      cbn [truthy] in Htruthy. apply negb_false_iff, String.eqb_eq in Htruthy.
      by subst s.
    + intros k v. rewrite lookup_empty. split; [done|]. intros [Hin _].
      destruct table as [| |b|x|s|l|fs]; cbn [own_properties In] in Hin; try done.
      cbn [truthy] in Htruthy. apply negb_false_iff, String.eqb_eq in Htruthy.
      by subst s.
Qed.

(** The filter returns when every test does. *)
Lemma filterTable_total keep table :
  (∀ k v, In (k, v) (own_properties table) → ∃ b, keep k v = Ret b) →
  ∃ target, filterTable keep table = Ret target.
Proof.
  intros Hkeep. unfold filterTable. destruct (truthy table) eqn:Htruthy; [|by eexists].
  assert (Object_entries table = Ret (own_properties table)) as ->
    by (by destruct table).
  cbn [mbind result_bind]. apply forEach_returns. intros s [k v] Hin.
  apply list_elem_of_In in Hin. destruct (Hkeep k v Hin) as [b Hb].
  cbn [fst snd]. rewrite Hb. by eexists.
Qed.

Lemma keepComorbidity_returns k v :
  (∃ b, keepComorbidity k v = Ret b) ↔ comparableEntry (k, v) = true.
Proof.
  unfold keepComorbidity, comparableEntry, andThen, js_gt, ToNumber. cbn [fst snd].
  destruct (String.eqb k ""), (String.eqb (trim k) ""), (printable v);
    cbn [negb andb orb mbind result_bind]; split; try done; try (by eexists);
    by intros [? ?].
Qed.

Lemma keepFailureCause_returns k v :
  (∃ b, keepFailureCause k v = Ret b) ↔ comparableEntry (k, v) = true.
Proof.
  unfold keepFailureCause, comparableEntry, andThen, js_gt, ToNumber. cbn [fst snd].
  destruct (String.eqb k ""), (String.eqb (trim k) ""), (printable v);
    cbn [negb andb orb mbind result_bind]; split; try done; try (by eexists);
    by intros [? ?].
Qed.

Lemma keepComorbidity_true k v :
  keepComorbidity k v = Ret true ↔ k ≠ "" ∧ trim k ≠ "" ∧ js_gt v 0 = Ret true.
Proof.
  unfold keepComorbidity, andThen.
  destruct (String.eqb_spec k ""), (String.eqb_spec (trim k) "");
    cbn [negb andb]; split; try tauto; try discriminate; by intros (? & ? & ?).
Qed.

Lemma keepFailureCause_true k v :
  keepFailureCause k v = Ret true
  ↔ k ≠ "" ∧ trim k ≠ "" ∧ js_gt v 0 = Ret true ∧ k ≠ "null" ∧ k ≠ "undefined".
Proof.
  unfold keepFailureCause, andThen.
  destruct (String.eqb_spec k ""), (String.eqb_spec (trim k) ""),
    (String.eqb_spec k "null"), (String.eqb_spec k "undefined");
    cbn [negb andb]; destruct (js_gt v 0) as [[]|err];
    cbn [negb andb mbind result_bind]; split; try discriminate;
    try (by intros (? & ? & ? & ? & ?)); by repeat split.
Qed.

Lemma comparable_table_returns keep table :
  (∀ k v, (∃ b, keep k v = Ret b) ↔ comparableEntry (k, v) = true) →
  (∃ target, filterTable keep table = Ret target)
  ↔ forallb comparableEntry (own_properties table) = true.
Proof.
  intros Hkeep. rewrite List.forallb_forall. split.
  - intros [target Hrun] [k v] Hin. apply Hkeep.
    by apply (proj1 (filterTable_returns _ _ _ Hrun)).
  - intros Hall. apply filterTable_total. intros k v Hin. apply Hkeep. by apply Hall.
Qed.

(** ** The filtered tables of the enhanced statistics *)

(** When the transformation succeeds with enhanced statistics,
    [top_comorbidities] holds exactly the backend's entries whose key is
    not blank and whose value is above 0; [top_failure_causes] moreover
    leaves out the keys [null] and [undefined]; a key [__proto__] is in
    neither.  The values are the backend's own: for a table that is an
    object, the value of a key is the backend's value of that key. *)
Theorem dashboard_tables backendData d e :
  transformDashboardStatsForFrontend backendData = DashboardTransformed d →
  Dashboard.enhanced d = Some e →
  ∀ k v,
    (Dashboard.top_comorbidities e !! k = Some v
     ↔ In (k, v) (own_properties
                    (get_opt (get_opt backendData "enhanced") "top_comorbidities"))
       ∧ (k ≠ "" ∧ trim k ≠ "" ∧ js_gt v 0 = Ret true) ∧ k ≠ "__proto__")
    ∧ (Dashboard.top_failure_causes e !! k = Some v
       ↔ In (k, v) (own_properties
                      (get_opt (get_opt backendData "enhanced") "top_failure_causes"))
         ∧ (k ≠ "" ∧ trim k ≠ "" ∧ js_gt v 0 = Ret true
            ∧ k ≠ "null" ∧ k ≠ "undefined")
         ∧ k ≠ "__proto__")
    ∧ (∀ table,
         get_opt (get_opt backendData "enhanced") "top_comorbidities" = JObj table →
         Dashboard.top_comorbidities e !! k = Some v → lookup_field k table = v).
Proof.
  unfold transformDashboardStatsForFrontend. intros Hrun He.
  destruct (transformDashboardBody backendData) as [d'|err] eqn:Hbody; [|discriminate].
  injection Hrun as ->. unfold transformDashboardBody in Hbody.
  assert (∀ key, get backendData key = Ret (get_opt backendData key)) as Hget.
  { intros key. destruct backendData; try reflexivity; discriminate. }
  rewrite !Hget in Hbody. cbn [mbind result_bind] in Hbody.
  destruct (mapJobs _) as [jobs|err]; [|discriminate].
  cbn [mbind result_bind] in Hbody.
  set (backendEnhanced := get_opt backendData "enhanced") in *.
  destruct (truthy backendEnhanced) eqn:Htruthy;
    [|injection Hbody as <-; discriminate].
  assert (∀ key, get backendEnhanced key = Ret (get_opt backendEnhanced key)) as Hget'
    by (intros; by destruct backendEnhanced).
  rewrite !Hget' in Hbody. cbn [mbind result_bind] in Hbody.
  destruct (filterTable keepComorbidity (get_opt backendEnhanced "top_comorbidities"))
    as [tc|err] eqn:Hrun_tc; [|discriminate].
  cbn [mbind result_bind] in Hbody.
  destruct (filterTable keepFailureCause (get_opt backendEnhanced "top_failure_causes"))
    as [tf|err] eqn:Hrun_tf; [|discriminate].
  apply filterTable_returns in Hrun_tc as [_ Htc].
  apply filterTable_returns in Hrun_tf as [_ Htf].
  cbn [mbind result_bind] in Hbody. injection Hbody as <-.
  cbn [Dashboard.enhanced] in He. injection He as <-.
  cbn [Dashboard.top_comorbidities Dashboard.top_failure_causes].
  intros k v. split; [|split].
  - by rewrite Htc, keepComorbidity_true.
  - by rewrite Htf, keepFailureCause_true.
  - intros table Htable Hk. apply Htc in Hk as [Hin _]. rewrite Htable in Hin.
    by apply own_fields_keys.
Qed.

Lemma dashboard_tables_witness :
  ∃ d e, transformDashboardStatsForFrontend sampleDashboard = DashboardTransformed d
         ∧ Dashboard.enhanced d = Some e
         ∧ Dashboard.top_comorbidities e !! "Diabetes" = Some (JNum 3).
Proof.
  destruct (transformDashboardStatsForFrontend sampleDashboard) as [d|b] eqn:Hrun;
    [|vm_compute in Hrun; discriminate].
  destruct (Dashboard.enhanced d) as [e|] eqn:He;
    [|vm_compute in Hrun; injection Hrun as <-; discriminate].
  exists d, e. split; [reflexivity|]. split; [exact He|].
  apply (proj1 (dashboard_tables sampleDashboard d e Hrun He "Diabetes" (JNum 3))).
  split; [cbn; by left|]. split; [|done].
  split; [done|]. split; [by vm_compute|reflexivity].
Defined.

(** ** Recent jobs and failure of the transformation *)

Lemma transformJob_returns job :
  transformJob job
  = if isReadable job
    then Ret {|
      Dashboard.job_id := get_opt job "job_id";
      Dashboard.procedure_code := js_or (get_opt job "procedure_code") (JStr "Unknown");
      Dashboard.processing_time := js_or (get_opt job "processing_time") (JNum 0);
      Dashboard.rows_processed := js_or (get_opt job "rows_processed") (JNum 0);
      Dashboard.comorbidities_checked := js_or (get_opt job "comorbidities_checked") (JNum 0);
      Dashboard.matches_found := js_or (get_opt job "matches_found") (JNum 0);
      Dashboard.successful_surgeries := js_or (get_opt job "successful_surgeries") (JNum 0);
      Dashboard.failed_surgeries := js_or (get_opt job "failed_surgeries") (JNum 0);
      Dashboard.processed_at := get_opt job "processed_at";
      Dashboard.file_name := js_or (get_opt job "file_name") (JStr "Unknown")
    |}
    else Throw TypeError.
Proof. by destruct job. Qed.

Lemma mapM_transformJob jobs :
  (∃ js, mapM transformJob jobs = Ret js
         ∧ Forall2 (λ job j, transformJob job = Ret j) jobs js
         ∧ forallb isReadable jobs = true)
  ∨ (mapM transformJob jobs = Throw TypeError ∧ forallb isReadable jobs = false).
Proof.
  induction jobs as [|job jobs IH].
  - left. exists []. split; [reflexivity|]. split; [constructor|reflexivity].
  - cbn [mapM forallb]. pose proof (transformJob_returns job) as Hj.
    destruct (isReadable job) eqn:Hjob; rewrite Hj; [|by right].
    cbn [mbind result_bind andb].
    destruct IH as [(js & -> & Hall & Hread)|[-> Hread]]; [|by right].
    left. eexists. split; [reflexivity|]. split; [|done].
    constructor; [exact Hj|done].
Qed.

Lemma js_or_truthy x d : truthy d = true → truthy (js_or x d) = true.
Proof. intros Hd. unfold js_or. by destruct (truthy x) eqn:Hx. Qed.

(** The transformation succeeds exactly when the payload is neither
    [undefined] nor [null], its [recent_jobs] is absent (or otherwise
    falsy) or an array of jobs none of which is [undefined] or [null],
    and, when there are enhanced statistics, every value that the two
    filters compare with 0, the values under keys that are not blank, can
    be converted to a number; otherwise the payload is returned as it
    came, as for a comorbidity whose value is an object with a
    [toString] of its own.  On success there is one job for each of the
    backend's, in order, each with a procedure code and file name that
    are not empty, and the enhanced statistics are present exactly when
    the backend's [enhanced] is truthy. *)
Theorem dashboard_jobs backendData :
  match transformDashboardStatsForFrontend backendData with
  | DashboardTransformed d =>
    isReadable backendData = true
    ∧ comparableTables backendData = true
    ∧ ∃ jobs,
        js_or (get_opt backendData "recent_jobs") (JArr []) = JArr jobs
        ∧ forallb isReadable jobs = true
        ∧ Forall2 (λ job j, transformJob job = Ret j) jobs (Dashboard.recent_jobs d)
        ∧ length (Dashboard.recent_jobs d) = length jobs
        ∧ Forall (λ j, truthy (Dashboard.procedure_code j) = true
                       ∧ truthy (Dashboard.file_name j) = true)
                 (Dashboard.recent_jobs d)
        ∧ (is_Some (Dashboard.enhanced d) ↔ truthy (get_opt backendData "enhanced") = true)
  | DashboardUntransformed returned =>
    returned = backendData
    ∧ (isReadable backendData = false
       ∨ match js_or (get_opt backendData "recent_jobs") (JArr []) with
         | JArr jobs => forallb isReadable jobs = false
         | _ => True
         end
       ∨ comparableTables backendData = false)
  end
  ∧ transformDashboardStatsForFrontend unconvertibleDashboard
    = DashboardUntransformed unconvertibleDashboard.
Proof.
  split; [|reflexivity].
  unfold transformDashboardStatsForFrontend, transformDashboardBody, comparableTables.
  destruct (isReadable backendData) eqn:Hreadable;
    [|destruct backendData; try discriminate; cbn [get mbind result_bind];
      (split; [reflexivity|by left])].
  assert (∀ key, get backendData key = Ret (get_opt backendData key)) as Hget
    by (intros; by destruct backendData).
  rewrite !Hget. cbn [mbind result_bind]. unfold mapJobs.
  destruct (js_or (get_opt backendData "recent_jobs") (JArr [])) as [| |b|x|s|jobs|fs];
    cbn [mbind result_bind]; try (by split; [|right; left]).
  destruct (mapM_transformJob jobs) as [(js & -> & Hall & Hread)|[-> Hread]];
    cbn [mbind result_bind]; [|by split; [|right; left]].
  set (backendEnhanced := get_opt backendData "enhanced").
  assert (Forall (λ j, truthy (Dashboard.procedure_code j) = true
                       ∧ truthy (Dashboard.file_name j) = true) js) as Hnames.
  { clear -Hall. induction Hall as [|job j jobs js Hj _ IH]; constructor; [|done].
    rewrite transformJob_returns in Hj. destruct (isReadable job); [|discriminate].
    injection Hj as <-. cbn [Dashboard.procedure_code Dashboard.file_name].
    by rewrite !js_or_truthy. }
  destruct (truthy backendEnhanced) eqn:Htruthy; cbn [negb orb].
  - assert (∀ key, get backendEnhanced key = Ret (get_opt backendEnhanced key)) as Hget'
      by (intros; by destruct backendEnhanced).
    rewrite !Hget'. cbn [mbind result_bind].
    pose proof (comparable_table_returns keepComorbidity
                  (get_opt backendEnhanced "top_comorbidities") keepComorbidity_returns)
      as Htc.
    pose proof (comparable_table_returns keepFailureCause
                  (get_opt backendEnhanced "top_failure_causes") keepFailureCause_returns)
      as Htf.
    destruct (filterTable keepComorbidity _) as [tc|err].
    + rewrite (proj1 Htc) by by eexists. cbn [mbind result_bind andb].
      destruct (filterTable keepFailureCause _) as [tf|err].
      * rewrite (proj1 Htf) by by eexists.
        cbn [mbind result_bind Dashboard.recent_jobs Dashboard.enhanced].
        split; [reflexivity|]. split; [reflexivity|]. exists jobs.
        split; [reflexivity|]. split; [exact Hread|]. split; [exact Hall|].
        split; [symmetry; by eapply Forall2_length|]. split; [exact Hnames|].
        split; [done|]. intros _. by eexists.
      * cbn [mbind result_bind]. split; [reflexivity|]. right; right.
        destruct (forallb comparableEntry
                    (own_properties (get_opt backendEnhanced "top_failure_causes")));
          [|reflexivity].
        by destruct (proj2 Htf eq_refl).
    + cbn [mbind result_bind]. split; [reflexivity|]. right; right.
      destruct (forallb comparableEntry
                  (own_properties (get_opt backendEnhanced "top_comorbidities")));
        [|reflexivity].
      by destruct (proj2 Htc eq_refl).
  - cbn [mbind result_bind Dashboard.recent_jobs Dashboard.enhanced].
    split; [reflexivity|]. split; [reflexivity|]. exists jobs.
    split; [reflexivity|]. split; [exact Hread|]. split; [exact Hall|].
    split; [symmetry; by eapply Forall2_length|]. split; [exact Hnames|].
    split; [by intros [? [=]]|done].
Qed.

Lemma dashboard_jobs_witness :
  ∃ d, transformDashboardStatsForFrontend sampleDashboard = DashboardTransformed d
       ∧ length (Dashboard.recent_jobs d) = 1.
Proof.
  destruct (dashboard_jobs sampleDashboard) as [Hjobs _].
  destruct (transformDashboardStatsForFrontend sampleDashboard) as [d|b] eqn:Hrun;
    [|vm_compute in Hrun; discriminate].
  exists d. split; [reflexivity|].
  destruct Hjobs as (_ & _ & jobs & Hbackend & _ & _ & -> & _).
  vm_compute in Hbackend. by injection Hbackend as <-.
Defined.

(** * The comorbidity handlers *)

Lemma missing_false id : missing id = false → ∃ s, id = Some s ∧ s ≠ "".
Proof.
  destruct id as [s|]; [|discriminate]. cbn. intros Hs%String.eqb_neq. by exists s.
Qed.





Lemma fromEntries_lookup entries :
  NoDup entries.*1 →
  ∀ k v, Object_fromEntries entries !! k = Some v ↔ In (k, v) entries.
Proof.
  unfold Object_fromEntries.
  induction entries as [|[k0 v0] entries IH] using rev_ind; intros Hnodup k v.
  - cbn. by rewrite lookup_empty.
  - rewrite fmap_app in Hnodup. apply NoDup_app in Hnodup as (Hnodup & Hfresh & _).
    rewrite fold_left_app, in_app_iff. cbn [fold_left fst snd In].
    destruct (decide (k = k0)) as [->|Hne].
    + rewrite lookup_insert_eq. split.
      * intros [= ->]. right. by left.
      * intros [Hin|[[= ->]|[]]]; [|done].
        destruct (Hfresh k0); [|cbn; left].
        apply list_elem_of_fmap. exists (k0, v). split; [done|by apply list_elem_of_In].
    + rewrite lookup_insert_ne by done. rewrite (IH Hnodup). split; [by left|].
      by intros [Hin|[[= <- _]|[]]].
Qed.

Lemma filter_keys_NoDup (f : string * JsVal → bool) entries :
  NoDup entries.*1 → NoDup (List.filter f entries).*1.
Proof.
  induction entries as [|[k v] entries IH]; [done|].
  cbn [fmap list_fmap fst List.filter]. intros [Hnotin Hnodup]%NoDup_cons.
  destruct (f (k, v)); [|by apply IH].
  cbn [fmap list_fmap fst]. constructor; [|by apply IH].
  intros ([k' v'] & Hk & Hin)%list_elem_of_fmap. cbn [fst] in Hk. subst k'.
  apply list_elem_of_In, filter_In in Hin as [Hin _]. apply Hnotin.
  apply list_elem_of_fmap. exists (k, v'). split; [done|by apply list_elem_of_In].
Qed.

(** A request for one comorbidity is sent to the backend only with a code
    and an identifier that are not empty, as a DELETE, or as a PUT whose
    body is an object (or array) with at least one property; the update
    sent holds exactly the properties of the body whose value is not
    [null] and not the empty string.  Every other request is answered with
    status 400 or 405.  The test for an empty update comes before the
    cleaning: a body that only holds [null] is sent on as an empty
    update. *)
Theorem comorbidity_put :
  (∀ method reqBody rawBody code comorbidityId,
     match handleIndividualComorbidity method reqBody rawBody code comorbidityId with
     | fetchPut c i cleanedData =>
       method = "PUT" ∧ code = Some c ∧ comorbidityId = Some i ∧ c ≠ "" ∧ i ≠ ""
       ∧ isNonEmptyObject (getParsedBody reqBody rawBody) = true
       ∧ ∀ k v, cleanedData !! k = Some v
                ↔ In (k, v) (own_properties (getParsedBody reqBody rawBody))
                  ∧ v ≠ JUndefined ∧ v ≠ JNull ∧ v ≠ JStr ""
     | fetchDelete c i =>
       method = "DELETE" ∧ code = Some c ∧ comorbidityId = Some i ∧ c ≠ "" ∧ i ≠ ""
     | respond status _ =>
       status = 400 ∨ (status = 405 ∧ method ≠ "PUT" ∧ method ≠ "DELETE")
     | fetchGet _ | fetchPost _ _ => False
     end)
  ∧ handleIndividualComorbidity "PUT" (JObj [("name", JNull); ("keywords", JStr "")]) None
      (Some "K50") (Some "17")
    = fetchPut "K50" "17" ∅.
Proof.
  split; [|reflexivity].
  intros method reqBody rawBody code comorbidityId. unfold handleIndividualComorbidity.
  destruct (missing code) eqn:Hcode; [by left|].
  destruct (missing comorbidityId) eqn:Hid; [by left|]. cbn [orb].
  apply missing_false in Hcode as (c & -> & Hc).
  apply missing_false in Hid as (i & -> & Hi). cbn [default].
  destruct (String.eqb_spec method "PUT") as [->|Hput].
  - set (body := getParsedBody reqBody rawBody).
    destruct (negb (truthy body) || negb (typeof_object body)
              || Nat.eqb (length (own_properties body)) 0) eqn:Hbody; [by left|].
    apply orb_false_elim in Hbody as [[Ht Ho]%orb_false_elim Hlen].
    apply negb_false_iff in Ht, Ho.
    do 5 (split; [done|]). split.
    { unfold isNonEmptyObject. rewrite Ht, Ho. cbn [andb].
      apply Nat.ltb_lt. apply Nat.eqb_neq in Hlen. lia. }
    intros k v.
    rewrite fromEntries_lookup by apply filter_keys_NoDup, own_properties_NoDup.
    rewrite filter_In. cbn [snd].
    assert (isGiven v = true ↔ v ≠ JUndefined ∧ v ≠ JNull ∧ v ≠ JStr "") as ->; [|done].
    destruct v as [| |b|x|s|l|fs]; cbn [isGiven]; try (split; [done|by intros (? & ? & ?)]);
      try (by split).
    rewrite negb_true_iff, String.eqb_neq. split; [intros Hs; by repeat split; [..|intros [= ->]]|].
    intros (_ & _ & Hs) ->. by apply Hs.
  - destruct (String.eqb_spec method "DELETE") as [->|Hdelete]; [done|by right].
Qed.
